(** * Marktontwikkeling dashboard: a shallow embedding of [tariff_calculator.py]

    The script fetches end-of-day quotes for a fixed list of indices and ETFs,
    compares the close on a reference date with the latest close, and renders
    metrics and two tables.  The embedding follows the script top to bottom:

    - Python values as they come out of [response.json()] ([pyval]), with
      Python's truthiness, [dict.get], slicing, arithmetic and [format];
    - binary64 floats as [spec_float] at precision 53 / emax 1024, so that
      every operation rounds as CPython's does;
    - [datetime.date] through proleptic Gregorian ordinals;
    - the script's effects (HTTP requests, Streamlit elements, the
      [st.cache_data] store, the two result lists) in a state-and-exception
      monad [M]. *)

From Stdlib Require Import ZArith List String Ascii Bool Lia.
From Stdlib Require Import Floats.SpecFloat.
Import ListNotations.
Open Scope string_scope.
Open Scope Z_scope.

Set Warnings "-register-all".

(** ** Python values *)

(** A character of [string] stands for one code point; every text the script
    builds itself is ASCII. *)
Inductive pyval : Type :=
| PNone
| PBool (b : bool)
| PInt (z : Z)
| PFloat (f : spec_float)
| PStr (s : string)
| PList (l : list pyval)
| PDict (d : list (string * pyval)).

Definition pydict := list (string * pyval).

(** Exceptions the script can meet.  [RequestException] stands for the whole
    [requests.exceptions] hierarchy (connection failures, [HTTPError] from
    [raise_for_status], the JSON decode error of [Response.json]). *)
Inductive exn : Type :=
| RequestException
| AttributeError
| TypeError
| KeyError
| IndexError
| ValueError
| OverflowError
| ZeroDivisionError
| StopException
| RerunException.

Inductive outcome (A : Type) : Type :=
| Ok (a : A)
| Raise (e : exn).
Arguments Ok {A} a.
Arguments Raise {A} e.

Definition obind {A B} (x : outcome A) (k : A -> outcome B) : outcome B :=
  match x with
  | Ok a => k a
  | Raise e => Raise e
  end.

Notation "'let?' x ':=' c 'in' k" := (obind c (fun x => k))
  (at level 10, x name, c at level 100, k at level 200).

(** ** binary64 arithmetic *)

Module F64.
Definition prec : Z := 53.
Definition emax : Z := 1024.

Definition sub := SFsub prec emax.
Definition mul := SFmul prec emax.
Definition div := SFdiv prec emax.

(** [m * 2^e] rounded to nearest, ties to even. *)
Definition of_dyadic (m e : Z) : spec_float := binary_normalize prec emax m e false.

Definition is_zero (f : spec_float) : bool :=
  match f with
  | S754_zero _ => true
  | _ => false
  end.

(** Smallest magnitude that rounds past the largest finite double:
    [2^1024 - 2^970]. *)
Definition overflow_threshold : Z := 2 ^ 1024 - 2 ^ 970.

(** An integer as an unrounded operand (mantissa of any width). *)
Definition exact (z : Z) : spec_float :=
  match z with
  | Z0 => S754_zero false
  | Zpos p => S754_finite false p 0
  | Zneg p => S754_finite true p 0
  end.
End F64.

(** [float(z)] for a Python int: [OverflowError] when the value rounds out of
    range. *)
Definition float_of_int (z : Z) : outcome spec_float :=
  if Z.abs z <? F64.overflow_threshold
  then Ok (F64.of_dyadic z 0)
  else Raise OverflowError.

(** ** Truthiness, attribute access, slicing *)

Definition truthy (v : pyval) : bool :=
  match v with
  | PNone => false
  | PBool b => b
  | PInt z => negb (z =? 0)
  | PFloat f => negb (F64.is_zero f)
  | PStr s => negb (String.eqb s "")
  | PList l => match l with [] => false | _ => true end
  | PDict d => match d with [] => false | _ => true end
  end.

Definition is_none (v : pyval) : bool :=
  match v with
  | PNone => true
  | _ => false
  end.

Fixpoint dict_get (d : pydict) (k : string) : option pyval :=
  match d with
  | [] => None
  | (k', v) :: rest => if String.eqb k' k then Some v else dict_get rest k
  end.

(** [d[k] = v]: overwrite in place, or append a new key. *)
Fixpoint dict_set (d : pydict) (k : string) (v : pyval) : pydict :=
  match d with
  | [] => [(k, v)]
  | (k', v') :: rest =>
      if String.eqb k' k then (k, v) :: rest else (k', v') :: dict_set rest k v
  end.

(** [x.get(k, default)]: only dicts have a [get] attribute. *)
Definition py_get_default (x : pyval) (k : string) (default : pyval) : outcome pyval :=
  match x with
  | PDict d => Ok (match dict_get d k with Some v => v | None => default end)
  | _ => Raise AttributeError
  end.

(** [x.get(k)] *)
Definition py_get (x : pyval) (k : string) : outcome pyval :=
  py_get_default x k PNone.

(** [len(x)] *)
Definition py_len (x : pyval) : outcome Z :=
  match x with
  | PStr s => Ok (Z.of_nat (String.length s))
  | PList l => Ok (Z.of_nat (List.length l))
  | PDict d => Ok (Z.of_nat (List.length d))
  | _ => Raise TypeError
  end.

(** [x["data"]], [x['close']]: subscription by a string key. *)
Definition py_getitem_str (x : pyval) (k : string) : outcome pyval :=
  match x with
  | PDict d => match dict_get d k with Some v => Ok v | None => Raise KeyError end
  | _ => Raise TypeError
  end.

(** [x[0]]: JSON objects have string keys only, so a dict has no key [0]. *)
Definition py_getitem_0 (x : pyval) : outcome pyval :=
  match x with
  | PList (v :: _) => Ok v
  | PList [] => Raise IndexError
  | PStr (String c _) => Ok (PStr (String c ""))
  | PStr "" => Raise IndexError
  | PDict _ => Raise KeyError
  | _ => Raise TypeError
  end.

Fixpoint string_firstn (n : nat) (s : string) : string :=
  match n, s with
  | S n', String c s' => String c (string_firstn n' s')
  | _, _ => ""
  end.

(** [x[:10]] *)
Definition py_slice10 (x : pyval) : outcome pyval :=
  match x with
  | PStr s => Ok (PStr (string_firstn 10 s))
  | PList l => Ok (PList (firstn 10 l))
  | PDict _ => Raise KeyError
  | _ => Raise TypeError
  end.

(** [x == s] for a [str] [s]. *)
Definition py_eq_str (x : pyval) (s : string) : bool :=
  match x with
  | PStr t => String.eqb t s
  | _ => false
  end.

(** [isinstance(x, (int, float))]; [bool] is a subclass of [int]. *)
Definition isinstance_int_float (x : pyval) : bool :=
  match x with
  | PBool _ | PInt _ | PFloat _ => true
  | _ => false
  end.

(** ** Arithmetic on Python numbers *)

(** A number seen by the arithmetic operators: an int (a [bool] counts as 0
    or 1) or a float. *)
Inductive number : Type :=
| NInt (z : Z)
| NFloat (f : spec_float).

Definition as_number (v : pyval) : option number :=
  match v with
  | PBool b => Some (NInt (if b then 1 else 0))
  | PInt z => Some (NInt z)
  | PFloat f => Some (NFloat f)
  | _ => None
  end.

Definition to_float (n : number) : outcome spec_float :=
  match n with
  | NInt z => float_of_int z
  | NFloat f => Ok f
  end.

(** [a - b] *)
Definition py_sub (a b : pyval) : outcome pyval :=
  match as_number a, as_number b with
  | Some (NInt x), Some (NInt y) => Ok (PInt (x - y))
  | Some x, Some y =>
      let? fx := to_float x in
      let? fy := to_float y in
      Ok (PFloat (F64.sub fx fy))
  | _, _ => Raise TypeError
  end.

(** [n == 0]; the float of an int is [0.0] only for the int [0]. *)
Definition number_is_zero (n : number) : bool :=
  match n with
  | NInt z => z =? 0
  | NFloat f => F64.is_zero f
  end.

(** [a / b]: true division.  Two ints give the correctly rounded quotient,
    or [OverflowError] when it is too large for a float; with a float
    operand both sides are converted first, then a zero divisor is refused. *)
Definition py_truediv (a b : pyval) : outcome pyval :=
  match as_number a, as_number b with
  | Some (NInt x), Some (NInt y) =>
      if y =? 0 then Raise ZeroDivisionError
      else if Z.abs x <? F64.overflow_threshold * Z.abs y
           then Ok (PFloat (F64.div (F64.exact x) (F64.exact y)))
           else Raise OverflowError
  | Some x, Some y =>
      let? fx := to_float x in
      let? fy := to_float y in
      if number_is_zero y then Raise ZeroDivisionError
      else Ok (PFloat (F64.div fx fy))
  | _, _ => Raise TypeError
  end.

(** [a * b] on numbers.  The script only multiplies the float result of a
    division by the literal [100]; sequence repetition is left out. *)
Definition py_mul (a b : pyval) : outcome pyval :=
  match as_number a, as_number b with
  | Some (NInt x), Some (NInt y) => Ok (PInt (x * y))
  | Some x, Some y =>
      let? fx := to_float x in
      let? fy := to_float y in
      Ok (PFloat (F64.mul fx fy))
  | _, _ => Raise TypeError
  end.

(** ** Format specifications [.2f] and [+.2f] *)

Definition digit_of (n : Z) : ascii := ascii_of_N (48 + Z.to_N n).

(** Decimal digits of a positive number, most significant first; one digit
    per unit of fuel. *)
Fixpoint digits_fuel (fuel : nat) (n : Z) (acc : string) : string :=
  match fuel with
  | O => acc
  | S fuel' =>
      let acc' := String (digit_of (n mod 10)) acc in
      if n <? 10 then acc' else digits_fuel fuel' (n / 10) acc'
  end.

(** [str(n)] for [n >= 0]. *)
Definition decimal (n : Z) : string :=
  digits_fuel (S (Z.to_nat (Z.log2 n))) n "".

Fixpoint zeros (n : nat) : string :=
  match n with
  | O => ""
  | S n' => String "0" (zeros n')
  end.

(** A digit string on at least [w] characters, zero padded on the left. *)
Definition zero_pad (w : nat) (s : string) : string :=
  (zeros (w - String.length s) ++ s)%string.

(** [m * 2^e] rounded to the nearest integer, ties to even. *)
Definition round_half_even (m e : Z) : Z :=
  match e with
  | Zneg p =>
      let d := Z.pow_pos 2 p in
      let q := m / d in
      let r := m mod d in
      if 2 * r <? d then q
      else if d <? 2 * r then q + 1
      else if Z.even q then q else q + 1
  | _ => m * 2 ^ e
  end.

Definition sign_prefix (plus negative : bool) : string :=
  if negative then "-" else if plus then "+" else "".

(** [format(f, '.2f')] and, with [plus], [format(f, '+.2f')]: the exact binary
    value correctly rounded to two decimals. *)
Definition format_float_2f (plus : bool) (f : spec_float) : string :=
  match f with
  | S754_nan => (sign_prefix plus false ++ "nan")%string
  | S754_infinity s => (sign_prefix plus s ++ "inf")%string
  | S754_zero s => (sign_prefix plus s ++ "0.00")%string
  | S754_finite s m e =>
      let n := round_half_even (Zpos m * 100) e in
      (sign_prefix plus s ++ decimal (n / 100) ++ "."
         ++ zero_pad 2 (decimal (n mod 100)))%string
  end.

(** [f"{x:.2f}"] / [f"{x:+.2f}"]: ints go through [float]; other types do not
    know the [f] presentation. *)
Definition py_format_2f (plus : bool) (x : pyval) : outcome string :=
  match x with
  | PFloat f => Ok (format_float_2f plus f)
  | PBool _ | PInt _ =>
      match as_number x with
      | Some n => let? f := to_float n in Ok (format_float_2f plus f)
      | None => Raise TypeError
      end
  | PStr _ => Raise ValueError
  | _ => Raise TypeError
  end.

(** Float literals of the examples. *)
Definition float_lit (m e : Z) : pyval := PFloat (F64.of_dyadic m e).

(** ** [datetime.date] *)

Record date : Type := mkdate { year : Z; month : Z; day : Z }.

Definition MAXORDINAL : Z := 3652059.

Definition is_leap (y : Z) : bool :=
  (y mod 4 =? 0) && (negb (y mod 100 =? 0) || (y mod 400 =? 0)).

Definition days_before_year (y : Z) : Z :=
  let p := y - 1 in p * 365 + p / 4 - p / 100 + p / 400.

Definition DAYS_IN_MONTH : list Z := [-1; 31; 28; 31; 30; 31; 30; 31; 31; 30; 31; 30; 31].

Definition DAYS_BEFORE_MONTH : list Z :=
  [-1; 0; 31; 59; 90; 120; 151; 181; 212; 243; 273; 304; 334].

Definition table (t : list Z) (i : Z) : Z := nth (Z.to_nat i) t 0.

Definition days_in_month (y m : Z) : Z :=
  if (m =? 2) && is_leap y then 29 else table DAYS_IN_MONTH m.

Definition days_before_month (y m : Z) : Z :=
  table DAYS_BEFORE_MONTH m + (if (2 <? m) && is_leap y then 1 else 0).

Definition ymd2ord (y m d : Z) : Z :=
  days_before_year y + days_before_month y m + d.

Definition toordinal (d : date) : Z := ymd2ord (year d) (month d) (day d).

Definition DI400Y : Z := 146097.
Definition DI100Y : Z := 36524.
Definition DI4Y : Z := 1461.

(** [date.fromordinal]: the 400/100/4/1-year cycle decomposition. *)
Definition ord2ymd (n0 : Z) : date :=
  let n := n0 - 1 in
  let n400 := n / DI400Y in
  let n := n mod DI400Y in
  let y := n400 * 400 + 1 in
  let n100 := n / DI100Y in
  let n := n mod DI100Y in
  let n4 := n / DI4Y in
  let n := n mod DI4Y in
  let n1 := n / 365 in
  let n := n mod 365 in
  let y := y + n100 * 100 + n4 * 4 + n1 in
  if (n1 =? 4) || (n100 =? 4) then mkdate (y - 1) 12 31
  else
    let leapyear := (n1 =? 3) && (negb (n4 =? 24) || (n100 =? 3)) in
    let m := Z.shiftr (n + 50) 5 in
    let preceding :=
      table DAYS_BEFORE_MONTH m + (if (2 <? m) && leapyear then 1 else 0) in
    if n <? preceding then
      let m' := m - 1 in
      let preceding' :=
        preceding - (table DAYS_IN_MONTH m' + (if (m' =? 2) && leapyear then 1 else 0)) in
      mkdate y m' (n - preceding' + 1)
    else mkdate y m (n - preceding + 1).

(** [d - timedelta(days=i)] *)
Definition date_sub_days (d : date) (i : Z) : outcome date :=
  let o := toordinal d - i in
  if (0 <? o) && (o <=? MAXORDINAL) then Ok (ord2ymd o) else Raise OverflowError.

(** [d.isoformat()]: ["%04d-%02d-%02d"]. *)
Definition isoformat (d : date) : string :=
  (zero_pad 4 (decimal (year d)) ++ "-" ++ zero_pad 2 (decimal (month d)) ++ "-"
     ++ zero_pad 2 (decimal (day d)))%string.

Definition digit_value (c : ascii) : option Z :=
  let n := Z.of_N (N_of_ascii c) in
  if (48 <=? n) && (n <=? 57) then Some (n - 48) else None.

Fixpoint parse_digits (s : string) (acc : Z) : option Z :=
  match s with
  | EmptyString => Some acc
  | String c s' =>
      match digit_value c with
      | Some v => parse_digits s' (acc * 10 + v)
      | None => None
      end
  end.

(** [date.fromisoformat] on the extended format [YYYY-MM-DD] (the only one
    before Python 3.11, and the one the script passes); anything else is a
    [ValueError]. *)
Definition fromisoformat (s : string) : outcome date :=
  if negb (String.length s =? 10)%nat then Raise ValueError
  else if negb (String.eqb (substring 4 1 s) "-" && String.eqb (substring 7 1 s) "-")
  then Raise ValueError
  else
    match parse_digits (substring 0 4 s) 0, parse_digits (substring 5 2 s) 0,
          parse_digits (substring 8 2 s) 0 with
    | Some y, Some m, Some d =>
        if (1 <=? y) && (y <=? 9999) && (1 <=? m) && (m <=? 12) && (1 <=? d)
           && (d <=? days_in_month y m)
        then Ok (mkdate y m d)
        else Raise ValueError
    | _, _, _ => Raise ValueError
    end.

(** ** The world outside the script *)

(** [requests.get(url, params)] as the upstream sees it. *)
Record request : Type := mkrequest { url : string; params : pydict }.

(** What a GET comes back with: the call itself raises, or a response with a
    status code and a body that parses as JSON ([Some]) or does not. *)
Inductive http_reply : Type :=
| ConnectionFailed
| Response (status_code : Z) (body : option pyval).

(** The upstream answers a request knowing the requests made before it. *)
Definition upstream := list request -> request -> http_reply.

(** Streamlit elements the script emits (layout calls carry no data and are
    left out). *)
Inductive element : Type :=
| StError (body : string)
| StWarning (body : string) (e : option exn)
| StSpinner (text : string)
| StMetric (label value delta : string)
| StInfo (body : string)
| StDataframe (rows : list pydict).

Inductive cache_key : Type :=
| KClosest (symbol target_date_str : string)
| KLatest (symbol : string).

Definition cache_key_eqb (a b : cache_key) : bool :=
  match a, b with
  | KClosest s d, KClosest s' d' => String.eqb s s' && String.eqb d d'
  | KLatest s, KLatest s' => String.eqb s s'
  | _, _ => false
  end.

Record cache_entry : Type := mkentry { cached_value : pyval; stored_at : Z }.

Record state : Type := mkstate {
  sent : list request;                       (* requests issued, oldest first *)
  elements : list element;                   (* what the page shows, oldest first *)
  cache : list (cache_key * cache_entry);    (* the [st.cache_data] store *)
  clock : Z                                  (* seconds *)
}.

(** ** The state-and-exception monad *)

Definition M (A : Type) : Type := state -> outcome A * state.

Definition ret {A} (a : A) : M A := fun s => (Ok a, s).

Definition raise {A} (e : exn) : M A := fun s => (Raise e, s).

Definition bind {A B} (m : M A) (k : A -> M B) : M B :=
  fun s =>
    match m s with
    | (Ok a, s') => k a s'
    | (Raise e, s') => (Raise e, s')
    end.

Definition lift {A} (x : outcome A) : M A := fun s => (x, s).

Notation "x <- m ;; k" := (bind m (fun x => k))
  (at level 61, m at next level, right associativity).
Notation "m ;; k" := (bind m (fun _ => k))
  (at level 61, right associativity).

(** [try: body  except RequestException: h1  except Exception: h2].  Streamlit's
    script-control exceptions derive from [BaseException] and pass through. *)
Definition try_except {A} (body : M A) (on_request on_other : exn -> M A) : M A :=
  fun s =>
    match body s with
    | (Ok a, s') => (Ok a, s')
    | (Raise RequestException, s') => on_request RequestException s'
    | (Raise StopException, s') => (Raise StopException, s')
    | (Raise RerunException, s') => (Raise RerunException, s')
    | (Raise e, s') => on_other e s'
    end.

Definition emit (e : element) : M unit :=
  fun s => (Ok tt, mkstate (sent s) (elements s ++ [e]) (cache s) (clock s)).

Definition st_warning (body : string) (e : option exn) : M unit := emit (StWarning body e).
Definition st_spinner (text : string) : M unit := emit (StSpinner text).
Definition st_metric (label value delta : string) : M unit := emit (StMetric label value delta).

(** ** [st.cache_data] *)

Definition ttl : Z := 3600.

Fixpoint cache_lookup (k : cache_key) (c : list (cache_key * cache_entry)) : option cache_entry :=
  match c with
  | [] => None
  | (k', e) :: rest => if cache_key_eqb k' k then Some e else cache_lookup k rest
  end.

Definition cache_store (k : cache_key) (v : pyval) : M unit :=
  fun s => (Ok tt, mkstate (sent s) (elements s) ((k, mkentry v (clock s)) :: cache s) (clock s)).

(** Modelled from the spec: [st.cache_data] is Streamlit's decorator and its
    code is not part of the repository.  Following sections 3 and 9, the store
    maps a request key to (value, insertion time); an entry answers a call
    while it is younger than the time-to-live, otherwise the body runs and its
    result is stored.  An exception of the body is not stored. *)
Definition cache_data (k : cache_key) (body : M pyval) : M pyval :=
  fun s =>
    let fresh := (v <- body ;; cache_store k v ;; ret v) in
    match cache_lookup k (cache s) with
    | Some e => if clock s <? stored_at e + ttl then (Ok (cached_value e), s) else fresh s
    | None => fresh s
    end.

(** Modelled from the spec: [st.cache_data.clear()], the explicit
    invalidation of every entry. *)
Definition cache_clear : M unit :=
  fun s => (Ok tt, mkstate (sent s) (elements s) [] (clock s)).

(** Time passing between two calls (the script itself never moves the clock). *)
Definition advance (dt : Z) (s : state) : state :=
  mkstate (sent s) (elements s) (cache s) (clock s + dt).

(** ** Configuration *)

Definition BASE_URL : string := "http://api.marketstack.com/v1/".

Definition START_DATE_STR : string := "2024-03-12".

Definition indices : list (string * string) :=
  [ ("AEX", "AEX.INDX");
    ("S&P 500", "GSPC.INDX");
    ("FTSE 100", "FTSE.INDX");
    ("DAX", "GDAXI.INDX");
    ("CAC 40", "FCHI.INDX");
    ("Nikkei 225", "N225.INDX");
    ("Hang Seng", "HSI.INDX") ].

Definition etfs : list (string * (string * string)) :=
  [ ("iShares AEX UCITS ETF", ("IAEX.AS", "EUR"));
    ("iShares Core S&P 500 UCITS ETF EUR Hedged", ("CSPX.AS", "EUR"));
    ("iShares Core FTSE 100 UCITS ETF", ("ISF.LSE", "GBP"));
    ("iShares Core DAX UCITS ETF", ("EXS1.XETRA", "EUR"));
    ("Lyxor CAC 40 UCITS ETF", ("LYXCE.XPAR", "EUR")) ].

(** [os.getenv]: a string, or [None] when the variable is not set. *)
Definition py_of_env (v : option string) : pyval :=
  match v with
  | Some k => PStr k
  | None => PNone
  end.

(** [range(5)] *)
Definition range5 : list Z := [0; 1; 2; 3; 4].

(** ** Reading a response *)

(** A response as [requests] hands it over: status code and, when the body
    parses as JSON, its value. *)
Definition response : Type := Z * option pyval.

(** [api_result.raise_for_status()] *)
Definition raise_for_status (api_result : response) : outcome unit :=
  let c := fst api_result in
  if (400 <=? c) && (c <? 600) then Raise RequestException else Ok tt.

(** [api_result.json()] *)
Definition json (api_result : response) : outcome pyval :=
  match snd api_result with
  | Some v => Ok v
  | None => Raise RequestException
  end.

(** [json_result.get("data") and len(json_result["data"]) > 0] *)
Definition has_data (json_result : pyval) : outcome bool :=
  let? d := py_get json_result "data" in
  if truthy d then
    let? d' := py_getitem_str json_result "data" in
    let? n := py_len d' in
    Ok (0 <? n)
  else Ok false.

(** [data and data.get("close") is not None] *)
Definition has_close (data : pyval) : outcome bool :=
  if truthy data then
    let? c := py_get data "close" in
    Ok (negb (is_none c))
  else Ok false.

(** [data.get("date", "")[:10]] *)
Definition date_prefix (data : pyval) : outcome pyval :=
  let? d := py_get_default data "date" (PStr "") in
  py_slice10 d.

(** Lines 73-82, what [get_closest_trading_day_data] does with a response:
    [Some data] when it returns the record, [None] when it falls through to
    the next day. *)
Definition closest_record (api_result : response) (current_date_str : string)
  : outcome (option pyval) :=
  let? _ := raise_for_status api_result in
  let? json_result := json api_result in
  let? nonempty := has_data json_result in
  if nonempty : bool then
    let? d := py_getitem_str json_result "data" in
    let? data := py_getitem_0 d in
    let? priced := has_close data in
    if priced : bool then
      let? retrieved_date_str := date_prefix data in
      if py_eq_str retrieved_date_str current_date_str
      then Ok (Some data)
      else Ok None
    else Ok None
  else Ok None.

(** Lines 110-118, what [get_latest_trading_day_data] does with a response:
    [Some data] when it returns the record, [None] when it goes on to the
    'Geen recente data' warning. *)
Definition latest_record (api_result : response) : outcome (option pyval) :=
  let? _ := raise_for_status api_result in
  let? json_result := json api_result in
  let? nonempty := has_data json_result in
  if nonempty : bool then
    let? d := py_getitem_str json_result "data" in
    let? data := py_getitem_0 d in
    let? priced := has_close data in
    if priced : bool then
      let? _ := date_prefix data in
      Ok (Some data)
    else Ok None
  else Ok None.

(** ** Result rows *)

(** The dict a successful index comparison appends. *)
Definition index_row (name symbol : string)
    (start_date start_price latest_date latest_price change : pyval) : pydict :=
  [ ("Index", PStr name);
    ("Symbool", PStr symbol);
    ("Start Datum", start_date);
    ("Start Prijs", start_price);
    ("Laatste Datum", latest_date);
    ("Laatste Prijs", latest_price);
    ("Verandering (%)", change) ].

(** The dict a failed index comparison appends. *)
Definition index_failure_row (name symbol : string) : pydict :=
  [ ("Index", PStr name);
    ("Symbool", PStr symbol);
    ("Verandering (%)", PStr "Fout") ].

Definition etf_row (name symbol currency : string)
    (start_date start_price latest_date latest_price change : pyval) : pydict :=
  [ ("ETF", PStr name);
    ("Symbool", PStr symbol);
    ("Valuta", PStr currency);
    ("Start Datum", start_date);
    ("Start Prijs", start_price);
    ("Laatste Datum", latest_date);
    ("Laatste Prijs", latest_price);
    ("Verandering Absoluut", change) ].

Definition etf_failure_row (name symbol : string) : pydict :=
  [ ("ETF", PStr name);
    ("Symbool", PStr symbol);
    ("Verandering Absoluut", PStr "Fout") ].

(** ** The script *)

Section Script.

Variable net : upstream.
Variable API_KEY : option string.

(** [requests.get(url, params)]: the call is logged, then the upstream
    answers or the call raises. *)
Definition requests_get (u : string) (ps : pydict) : M response :=
  fun s =>
    let r := mkrequest u ps in
    let s' := mkstate (sent s ++ [r]) (elements s) (cache s) (clock s) in
    match net (sent s) r with
    | ConnectionFailed => (Raise RequestException, s')
    | Response c b => (Ok (c, b), s')
    end.

(** One pass of the loop body of [get_closest_trading_day_data]:
    [Some v] when the function returns [v], [None] when the loop goes on. *)
Definition closest_attempt (symbol current_date_str : string) (ps : pydict)
  : M (option pyval) :=
  try_except
    (api_result <- requests_get (BASE_URL ++ "eod") ps ;;
     lift (closest_record api_result current_date_str))
    (fun e =>
       st_warning ("API Fout voor " ++ symbol ++ " op " ++ current_date_str ++ ": ")
         (Some e) ;;
       ret (Some PNone))
    (fun e =>
       st_warning ("Verwerkingsfout voor " ++ symbol ++ ": ") (Some e) ;;
       ret (Some PNone)).

(** [for i in range(5): ...] followed by the not-found exit. *)
Fixpoint closest_loop (symbol target_date_str : string) (target_date : date)
    (ps : pydict) (range : list Z) : M pyval :=
  match range with
  | [] =>
      st_warning ("Kon geen data vinden voor " ++ symbol ++ " rond " ++ target_date_str)
        None ;;
      ret PNone
  | i :: range' =>
      current_date <- lift (date_sub_days target_date i) ;;
      let current_date_str := isoformat current_date in
      let ps := dict_set ps "date_from" (PStr current_date_str) in
      let ps := dict_set ps "date_to" (PStr current_date_str) in
      let ps := dict_set ps "limit" (PInt 1) in
      r <- closest_attempt symbol current_date_str ps ;;
      match r with
      | Some v => ret v
      | None => closest_loop symbol target_date_str target_date ps range'
      end
  end.

(** The body of [get_closest_trading_day_data]. *)
Definition get_closest_trading_day_data (symbol target_date_str : string) : M pyval :=
  st_spinner ("Ophalen data voor " ++ symbol ++ " rond " ++ target_date_str ++ "...") ;;
  target_date <- lift (fromisoformat target_date_str) ;;
  let ps := [("access_key", py_of_env API_KEY); ("symbols", PStr symbol)] in
  closest_loop symbol target_date_str target_date ps range5.

(** The body of [get_latest_trading_day_data]. *)
Definition get_latest_trading_day_data (symbol : string) : M pyval :=
  st_spinner ("Ophalen meest recente data voor " ++ symbol ++ "...") ;;
  let ps := [("access_key", py_of_env API_KEY); ("symbols", PStr symbol);
             ("limit", PInt 1)] in
  try_except
    (api_result <- requests_get (BASE_URL ++ "eod/latest") ps ;;
     api_result <- (if fst api_result =? 404
                    then requests_get (BASE_URL ++ "eod") ps
                    else ret api_result) ;;
     found <- lift (latest_record api_result) ;;
     match found with
     | Some data => ret data
     | None =>
         st_warning ("Geen recente data gevonden voor " ++ symbol) None ;;
         ret PNone
     end)
    (fun e =>
       st_warning ("API Fout (recent) voor " ++ symbol ++ ": ") (Some e) ;;
       ret PNone)
    (fun e =>
       st_warning ("Verwerkingsfout (recent) voor " ++ symbol ++ ": ") (Some e) ;;
       ret PNone).

(** The two functions as the script calls them, behind
    [@st.cache_data(ttl=3600)]. *)
Definition cached_closest (symbol target_date_str : string) : M pyval :=
  cache_data (KClosest symbol target_date_str)
    (get_closest_trading_day_data symbol target_date_str).

Definition cached_latest (symbol : string) : M pyval :=
  cache_data (KLatest symbol) (get_latest_trading_day_data symbol).

(** *** Hoofdlogica *)

(** [start_data and latest_data and start_data.get('close') and
    latest_data.get('close')], taken as a condition. *)
Definition success_guard (start_data latest_data : pyval) : outcome bool :=
  if negb (truthy start_data) then Ok false
  else if negb (truthy latest_data) then Ok false
  else
    let? c := py_get start_data "close" in
    if negb (truthy c) then Ok false
    else
      let? c' := py_get latest_data "close" in
      Ok (truthy c').

(** [((latest_price - start_price) / start_price) * 100] *)
Definition percentage_change (start_price latest_price : pyval) : outcome pyval :=
  let? d := py_sub latest_price start_price in
  let? q := py_truediv d start_price in
  py_mul q (PInt 100).

(** [latest_price - start_price] *)
Definition absolute_change (start_price latest_price : pyval) : outcome pyval :=
  py_sub latest_price start_price.

Definition label_of (name symbol : string) : string :=
  name ++ " (" ++ symbol ++ ")".

(** The index loop body from the [if] on: the metric is updated and a row
    appended, on either branch. *)
Definition compare_index (name symbol : string) (start_data latest_data : pyval)
    (index_results_list : list pydict) : M (list pydict) :=
  ok <- lift (success_guard start_data latest_data) ;;
  if ok : bool then
    start_price <- lift (py_getitem_str start_data "close") ;;
    latest_price <- lift (py_getitem_str latest_data "close") ;;
    change <- lift (percentage_change start_price latest_price) ;;
    value <- lift (py_format_2f false latest_price) ;;
    delta <- lift (py_format_2f false change) ;;
    st_metric (label_of name symbol) value (delta ++ "%") ;;
    start_date <- lift (date_prefix start_data) ;;
    latest_date <- lift (date_prefix latest_data) ;;
    ret (index_results_list ++
           [index_row name symbol start_date start_price latest_date latest_price change])%list
  else
    st_metric (label_of name symbol) "Data Fout" "" ;;
    ret (index_results_list ++ [index_failure_row name symbol])%list.

(** One iteration of the index loop; the result list is the accumulator. *)
Definition process_index (name symbol : string) (index_results_list : list pydict)
  : M (list pydict) :=
  st_metric (label_of name symbol) "Laden..." "" ;;
  start_data <- cached_closest symbol START_DATE_STR ;;
  latest_data <- cached_latest symbol ;;
  compare_index name symbol start_data latest_data index_results_list.

(** [for name, symbol in indices.items(): ...] *)
Fixpoint process_indices (items : list (string * string)) (index_results_list : list pydict)
  : M (list pydict) :=
  match items with
  | [] => ret index_results_list
  | (name, symbol) :: items' =>
      index_results_list <- process_index name symbol index_results_list ;;
      process_indices items' index_results_list
  end.

(** The ETF loop body from the [if] on. *)
Definition compare_etf (name symbol currency : string) (start_data latest_data : pyval)
    (etf_results_list : list pydict) : M (list pydict) :=
  ok <- lift (success_guard start_data latest_data) ;;
  if ok : bool then
    start_price <- lift (py_getitem_str start_data "close") ;;
    latest_price <- lift (py_getitem_str latest_data "close") ;;
    change <- lift (absolute_change start_price latest_price) ;;
    value <- lift (py_format_2f false latest_price) ;;
    delta <- lift (py_format_2f true change) ;;
    st_metric (label_of name symbol) (value ++ " " ++ currency) (delta ++ " " ++ currency) ;;
    start_date <- lift (date_prefix start_data) ;;
    latest_date <- lift (date_prefix latest_data) ;;
    ret (etf_results_list ++
           [etf_row name symbol currency start_date start_price latest_date latest_price
              change])%list
  else
    st_metric (label_of name symbol) "Data Fout" "" ;;
    ret (etf_results_list ++ [etf_failure_row name symbol])%list.

(** One iteration of the ETF loop. *)
Definition process_etf (name symbol currency : string) (etf_results_list : list pydict)
  : M (list pydict) :=
  st_metric (label_of name symbol) "Laden..." "" ;;
  start_data <- cached_closest symbol START_DATE_STR ;;
  latest_data <- cached_latest symbol ;;
  compare_etf name symbol currency start_data latest_data etf_results_list.

(** [for name, (symbol, currency) in etfs.items(): ...] *)
Fixpoint process_etfs (items : list (string * (string * string)))
    (etf_results_list : list pydict) : M (list pydict) :=
  match items with
  | [] => ret etf_results_list
  | (name, (symbol, currency)) :: items' =>
      etf_results_list <- process_etf name symbol currency etf_results_list ;;
      process_etfs items' etf_results_list
  end.

End Script.

(** *** Gedetailleerde tabellen *)

(** A cell of a [DataFrame] built from a list of dicts: a row without the
    column holds NaN. *)
Definition cell (row : pydict) (column : string) : pyval :=
  match dict_get row column with
  | Some v => v
  | None => PFloat S754_nan
  end.

(** [lambda x: f"{x:.2f}%" if isinstance(x, (int, float)) else x] *)
Definition format_percentage (x : pyval) : outcome pyval :=
  if isinstance_int_float x
  then let? t := py_format_2f false x in Ok (PStr (t ++ "%"))
  else Ok x.

(** [lambda row: f"{row['Verandering Absoluut']:+.2f} {row['Valuta']}" if
    isinstance(row['Verandering Absoluut'], (int, float)) else
    row['Verandering Absoluut']].  The currency of a row with a numeric change
    is the string the script stored; a missing cell reads as NaN. *)
Definition format_absolute (row : pydict) : outcome pyval :=
  let x := cell row "Verandering Absoluut" in
  if isinstance_int_float x
  then
    let? t := py_format_2f true x in
    let currency := match cell row "Valuta" with PStr c => c | _ => "nan" end in
    Ok (PStr (t ++ " " ++ currency))
  else Ok x.

(** A column assignment: every row gets its new cell, rows keep their order. *)
Fixpoint assign_column (column : string) (f : pydict -> outcome pyval) (rows : list pydict)
  : outcome (list pydict) :=
  match rows with
  | [] => Ok []
  | row :: rows' =>
      let? v := f row in
      let? rest := assign_column column f rows' in
      Ok (dict_set row column v :: rest)
  end.

(** [index_df] after the percentage column is formatted. *)
Definition index_df (index_results_list : list pydict) : outcome (list pydict) :=
  assign_column "Verandering (%)" (fun row => format_percentage (cell row "Verandering (%)"))
    index_results_list.

(** [etf_df] after the absolute-change column is formatted. *)
Definition etf_df (etf_results_list : list pydict) : outcome (list pydict) :=
  assign_column "Verandering Absoluut" format_absolute etf_results_list.

Definition show_index_table (index_results_list : list pydict) : M unit :=
  match index_results_list with
  | [] => emit (StInfo "Geen index resultaten om weer te geven.")
  | _ => df <- lift (index_df index_results_list) ;; emit (StDataframe df)
  end.

Definition show_etf_table (etf_results_list : list pydict) : M unit :=
  match etf_results_list with
  | [] => emit (StInfo "Geen ETF resultaten om weer te geven.")
  | _ => df <- lift (etf_df etf_results_list) ;; emit (StDataframe df)
  end.

(** *** The script from top to bottom *)

(** One execution of the script for given instrument lists.  [button] tells
    whether 'Data Herladen' was pressed for this run; [st.stop()] and
    [st.rerun()] leave the script through their exceptions. *)
Definition script_on (net : upstream) (API_KEY : option string)
    (index_items : list (string * string))
    (etf_items : list (string * (string * string))) (button : bool) : M unit :=
  if negb (truthy (py_of_env API_KEY)) then
    emit (StError "Fout: MARKETSTACK_API_KEY niet gevonden in .env bestand. Zorg dat er een .env bestand is met je sleutel.") ;;
    raise StopException
  else
    (if button then cache_clear ;; raise RerunException else ret tt) ;;
    index_results_list <- process_indices net API_KEY index_items [] ;;
    etf_results_list <- process_etfs net API_KEY etf_items [] ;;
    show_index_table index_results_list ;;
    show_etf_table etf_results_list.

Definition script (net : upstream) (API_KEY : option string) (button : bool) : M unit :=
  script_on net API_KEY indices etfs button.

(** The page is drawn anew on every run. *)
Definition new_page (s : state) : state := mkstate (sent s) [] (cache s) (clock s).

(** Streamlit's runner: a rerun request starts the script again, without the
    button press. *)
Definition run (net : upstream) (API_KEY : option string) (button : bool) (s : state)
  : outcome unit * state :=
  match script net API_KEY button (new_page s) with
  | (Raise RerunException, s') => script net API_KEY false (new_page s')
  | r => r
  end.

(** ** Sample upstreams *)

(** An end-of-day record as Marketstack reports it. *)
Definition quote (date_str : string) (close : pyval) : pyval :=
  PDict [("close", close); ("date", PStr (date_str ++ "T00:00:00+0000"))].

Definition eod_body (records : list pyval) : option pyval :=
  Some (PDict [("data", PList records)]).

Definition param_str (r : request) (k : string) : string :=
  match dict_get (params r) k with
  | Some (PStr t) => t
  | _ => ""
  end.

(** Every day is a trading day: the historical endpoint reports [start] on
    the day asked for, the latest endpoint reports [latest]. *)
Definition steady_net (start latest : pyval) : upstream :=
  fun _ r =>
    if String.eqb (url r) (BASE_URL ++ "eod")
    then Response 200 (eod_body [quote (param_str r "date_from") start])
    else Response 200 (eod_body [quote "2025-06-02" latest]).

(** Nothing sent, nothing shown, nothing cached. *)
Definition s0 : state := mkstate [] [] [] 0.

(** What a run leaves on the page: the delta of the last metric drawn, and a
    column of a table. *)
Definition metric_deltas (s : state) : list string :=
  flat_map (fun e => match e with StMetric _ _ d => [d] | _ => [] end) (elements s).

Definition column (c : string) (rows : list pydict) : list pyval :=
  map (fun row => cell row c) rows.

(** The formatted change column of the index table, for the rows a loop
    produced. *)
Definition index_change_column (r : outcome (list pydict)) : outcome (list pyval) :=
  let? rows := r in
  let? df := index_df rows in
  Ok (column "Verandering (%)" df).

Definition etf_change_column (r : outcome (list pydict)) : outcome (list pyval) :=
  let? rows := r in
  let? df := etf_df rows in
  Ok (column "Verandering Absoluut" df).

(** ** Notions used in the statements *)

(** Exceptions that do not derive from [Exception]: Streamlit's script
    control. *)
Definition is_control (e : exn) : bool :=
  match e with
  | StopException | RerunException => true
  | _ => false
  end.

(** The day tried on attempt [i], and the request made for it. *)
Definition candidate_day (target_date : date) (i : Z) : string :=
  isoformat (ord2ymd (toordinal target_date - i)).

Definition closest_params (API_KEY : option string) (symbol day : string) : pydict :=
  [("access_key", py_of_env API_KEY); ("symbols", PStr symbol);
   ("date_from", PStr day); ("date_to", PStr day); ("limit", PInt 1)].

Definition closest_request (API_KEY : option string) (symbol : string)
    (target_date : date) (i : Z) : request :=
  mkrequest (BASE_URL ++ "eod") (closest_params API_KEY symbol (candidate_day target_date i)).

Definition latest_params (API_KEY : option string) (symbol : string) : pydict :=
  [("access_key", py_of_env API_KEY); ("symbols", PStr symbol); ("limit", PInt 1)].

(** The primary request of [get_latest_trading_day_data] and its fallback. *)
Definition latest_request (API_KEY : option string) (symbol : string) : request :=
  mkrequest (BASE_URL ++ "eod/latest") (latest_params API_KEY symbol).

Definition fallback_request (API_KEY : option string) (symbol : string) : request :=
  mkrequest (BASE_URL ++ "eod") (latest_params API_KEY symbol).

(** A reply as the response object the script reads, when the call returned. *)
Definition response_of (reply : http_reply) : option response :=
  match reply with
  | ConnectionFailed => None
  | Response c b => Some (c, b)
  end.

(** A state after more requests and more elements; the fetch functions
    change nothing else. *)
Definition with_io (s : state) (reqs : list request) (els : list element) : state :=
  mkstate (sent s ++ reqs) (elements s ++ els) (cache s) (clock s).

(** What one attempt of the walk-back comes to, given the upstream's reply:
    [Ok (Some q)] the record [q] is returned, [Ok None] the loop goes on,
    [Raise e] a handler takes over. *)
Definition attempt_verdict (reply : http_reply) (current_date_str : string)
  : outcome (option pyval) :=
  match response_of reply with
  | Some api_result => closest_record api_result current_date_str
  | None => Raise RequestException
  end.

(** The warning a handler of [get_closest_trading_day_data] shows. *)
Definition closest_warning (symbol current_date_str : string) (e : exn) : element :=
  match e with
  | RequestException =>
      StWarning ("API Fout voor " ++ symbol ++ " op " ++ current_date_str ++ ": ") (Some e)
  | _ => StWarning ("Verwerkingsfout voor " ++ symbol ++ ": ") (Some e)
  end.

(** A transport error: the call failed, the status is an error status, or
    the body is not JSON. *)
Definition transport_error (reply : http_reply) : Prop :=
  match reply with
  | ConnectionFailed => True
  | Response c b => (400 <= c < 600) \/ b = None
  end.

(** The [params] dict on entry to an iteration of the walk-back: as built
    before the loop, or as the previous iteration left it. *)
Definition params_ready (API_KEY : option string) (symbol : string) (ps : pydict) : Prop :=
  ps = [("access_key", py_of_env API_KEY); ("symbols", PStr symbol)] \/
  exists day, ps = closest_params API_KEY symbol day.

(** A run of the walk-back loop over [range], started with the requests
    [hist] already sent: the number of attempts made and the way the loop is
    left. *)
Inductive walk (net : upstream) (API_KEY : option string) (symbol : string) (d : date)
  : list request -> list Z -> nat -> outcome pyval -> Prop :=
| walk_exhausted hist :
    walk net API_KEY symbol d hist [] 0 (Ok PNone)
| walk_out_of_range hist i range :
    date_sub_days d i = Raise OverflowError ->
    walk net API_KEY symbol d hist (i :: range) 0 (Raise OverflowError)
| walk_found hist i range q :
    date_sub_days d i = Ok (ord2ymd (toordinal d - i)) ->
    attempt_verdict (net hist (closest_request API_KEY symbol d i)) (candidate_day d i)
      = Ok (Some q) ->
    walk net API_KEY symbol d hist (i :: range) 1 (Ok q)
| walk_failed hist i range e :
    date_sub_days d i = Ok (ord2ymd (toordinal d - i)) ->
    attempt_verdict (net hist (closest_request API_KEY symbol d i)) (candidate_day d i)
      = Raise e ->
    walk net API_KEY symbol d hist (i :: range) 1 (Ok PNone)
| walk_miss hist i range k r :
    date_sub_days d i = Ok (ord2ymd (toordinal d - i)) ->
    attempt_verdict (net hist (closest_request API_KEY symbol d i)) (candidate_day d i)
      = Ok None ->
    walk net API_KEY symbol d (hist ++ [closest_request API_KEY symbol d i]) range k r ->
    walk net API_KEY symbol d hist (i :: range) (S k) r.

(** The warning a handler of [get_latest_trading_day_data] shows. *)
Definition latest_warning (symbol : string) (e : exn) : element :=
  match e with
  | RequestException => StWarning ("API Fout (recent) voor " ++ symbol ++ ": ") (Some e)
  | _ => StWarning ("Verwerkingsfout (recent) voor " ++ symbol ++ ": ") (Some e)
  end.

Definition latest_spinner (symbol : string) : element :=
  StSpinner ("Ophalen meest recente data voor " ++ symbol ++ "...").

(** How [get_latest_trading_day_data] ends once it holds the response it
    reads, having sent [reqs]. *)
Definition latest_conclusion (symbol : string) (s : state) (reqs : list request)
    (api_result : response) : outcome pyval * state :=
  match latest_record api_result with
  | Ok (Some data) => (Ok data, with_io s reqs [latest_spinner symbol])
  | Ok None =>
      (Ok PNone,
       with_io s reqs
         [latest_spinner symbol;
          StWarning ("Geen recente data gevonden voor " ++ symbol) None])
  | Raise e => (Ok PNone, with_io s reqs [latest_spinner symbol; latest_warning symbol e])
  end.

(** The historical endpoint has data on one day only. *)
Definition sparse_net (trading_day : string) (close latest : pyval) : upstream :=
  fun _ r =>
    if String.eqb (url r) (BASE_URL ++ "eod")
    then if String.eqb (param_str r "date_from") trading_day
         then Response 200 (eod_body [quote trading_day close])
         else Response 200 (eod_body [])
    else Response 200 (eod_body [quote "2025-06-02" latest]).

(** The latest endpoint does not know the symbol; the historical one does. *)
Definition fallback_net (latest : pyval) : upstream :=
  fun _ r =>
    if String.eqb (url r) (BASE_URL ++ "eod/latest")
    then Response 404 None
    else Response 200 (eod_body [quote "2025-06-02" latest]).

(** The upstream is down. *)
Definition dead_net : upstream := fun _ _ => ConnectionFailed.

(** A closing price that compares equal to zero: [0], [0.0], [-0.0], [False]. *)
Definition is_zero_price (v : pyval) : bool :=
  match as_number v with
  | Some n => number_is_zero n
  | None => false
  end.

(** A closing price as the upstream documents it, a JSON number, of a size
    the float arithmetic takes without overflow. *)
Definition price_bound : Z := 2 ^ 1000.

Definition usable_price (v : pyval) : bool :=
  match v with
  | PBool _ | PFloat _ => true
  | PInt z => Z.abs z <? price_bound
  | _ => false
  end.

(** What the two fetch functions hand to the comparison: [None], or a
    record, which is a non-empty dict. *)
Definition fetched (v : pyval) : Prop :=
  v = PNone \/ exists d, v = PDict d /\ d <> [].

(** The closing price of a fetched record reads as false: it is missing,
    [None], zero, or empty. *)
Definition falsy_close (v : pyval) : Prop :=
  exists c, py_get v "close" = Ok c /\ truthy c = false.

(** The row of the success branch of the index loop, with every step that
    can raise on the way to it. *)
Definition index_success_row (name symbol : string) (start_data latest_data : pyval)
  : outcome pydict :=
  let? start_price := py_getitem_str start_data "close" in
  let? latest_price := py_getitem_str latest_data "close" in
  let? change := percentage_change start_price latest_price in
  let? _ := py_format_2f false latest_price in
  let? _ := py_format_2f false change in
  let? start_date := date_prefix start_data in
  let? latest_date := date_prefix latest_data in
  Ok (index_row name symbol start_date start_price latest_date latest_price change).

Definition etf_success_row (name symbol currency : string) (start_data latest_data : pyval)
  : outcome pydict :=
  let? start_price := py_getitem_str start_data "close" in
  let? latest_price := py_getitem_str latest_data "close" in
  let? change := absolute_change start_price latest_price in
  let? _ := py_format_2f false latest_price in
  let? _ := py_format_2f true change in
  let? start_date := date_prefix start_data in
  let? latest_date := date_prefix latest_data in
  Ok (etf_row name symbol currency start_date start_price latest_date latest_price change).

(** A number whose magnitude, when it is an int, stays below [bound]. *)
Definition within (bound : Z) (n : number) : Prop :=
  match n with
  | NInt z => Z.abs z < bound
  | NFloat _ => True
  end.

(** The closing price of a fetched record is [None] (or missing). *)
Definition null_close (v : pyval) : Prop := py_get v "close" = Ok PNone.

(** The store has no live entry for [k]: none at all, or one that is an hour
    old or more. *)
Definition cache_miss (k : cache_key) (s : state) : Prop :=
  match cache_lookup k (cache s) with
  | Some e => stored_at e + ttl <= clock s
  | None => True
  end.

(** The state once [v] is stored under [k]. *)
Definition stored (k : cache_key) (v : pyval) (s : state) : state :=
  mkstate (sent s) (elements s) ((k, mkentry v (clock s)) :: cache s) (clock s).

(** The first record of every reply carries a close that is [None] or a
    usable price: the upstream keeps to its documented schema. *)
Definition numeric_closes (net : upstream) : Prop :=
  forall hist r status json_result d record c,
    net hist r = Response status (Some json_result) ->
    py_getitem_str json_result "data" = Ok d ->
    py_getitem_0 d = Ok record ->
    py_get record "close" = Ok c ->
    c = PNone \/ usable_price c = true.

(** A fetch result the comparison can work with: [None], or a record with a
    usable close and a date that can be sliced. *)
Definition sound_quote (v : pyval) : Prop :=
  v = PNone \/
  exists d c,
    v = PDict d /\ d <> [] /\ dict_get d "close" = Some c /\
    usable_price c = true /\ exists t, date_prefix v = Ok t.

Definition sound_cache (c : list (cache_key * cache_entry)) : Prop :=
  Forall (fun ke => sound_quote (cached_value (snd ke))) c.

(** Every day of the walk-back exists in the calendar. *)
Definition days_exist (d : date) : Prop :=
  forall i, In i range5 -> date_sub_days d i = Ok (ord2ymd (toordinal d - i)).

(** The page after the placeholder metric of an instrument. *)
Definition after_placeholder (name symbol : string) (s : state) : state :=
  with_io s [] [StMetric (label_of name symbol) "Laden..." ""].

(** The identity columns of an index table and of an ETF table. *)
Definition index_ident (row : pydict) : pyval * pyval :=
  (cell row "Index", cell row "Symbool").

Definition etf_ident (row : pydict) : pyval * pyval :=
  (cell row "ETF", cell row "Symbool").

(** A row of the index list: the failure marker of the instrument, or a
    success row with a float change. *)
Definition index_row_of (name symbol : string) (row : pydict) : Prop :=
  row = index_failure_row name symbol \/
  exists sd sp ld lp f, row = index_row name symbol sd sp ld lp (PFloat f).

(** A row of the ETF list: the failure marker, or a success row with a
    numeric change that formats. *)
Definition etf_row_of (name symbol currency : string) (row : pydict) : Prop :=
  row = etf_failure_row name symbol \/
  exists sd sp ld lp ch,
    row = etf_row name symbol currency sd sp ld lp ch /\
    isinstance_int_float ch = true /\ exists t, py_format_2f true ch = Ok t.

(** Requests for [bad_symbol] fail on the network; every other symbol is
    served as by [steady_net]. *)
Definition patchy_net (bad_symbol : string) (start latest : pyval) : upstream :=
  fun hist r =>
    if String.eqb (param_str r "symbols") bad_symbol
    then ConnectionFailed
    else steady_net start latest hist r.

(** The API key is set, and not to the empty string. *)
Definition key_present (API_KEY : option string) : Prop :=
  truthy (py_of_env API_KEY) = true.

Definition missing_key_message : element :=
  StError "Fout: MARKETSTACK_API_KEY niet gevonden in .env bestand. Zorg dat er een .env bestand is met je sleutel.".

(** ** Notions used in the further properties *)

(** The reply carries status 404. *)
Definition is_not_found (reply : http_reply) : bool :=
  match reply with
  | Response c _ => c =? 404
  | ConnectionFailed => false
  end.

(** Every request is answered with the same status and no body. *)
Definition status_net (c : Z) : upstream := fun _ _ => Response c None.

(** Every request is answered with [body], status 200. *)
Definition constant_net (body : pyval) : upstream := fun _ _ => Response 200 (Some body).

(** A status [raise_for_status] lets through. *)
Definition status_ok (c : Z) : Prop := ~ (400 <= c < 600).

(** The spinner of [get_closest_trading_day_data]. *)
Definition closest_spinner (symbol target_date_str : string) : element :=
  StSpinner ("Ophalen data voor " ++ symbol ++ " rond " ++ target_date_str ++ "...").

(** What a fetch function shows besides its spinner, given what it returns:
    one warning with [None], nothing with a record. *)
Definition warned (v : pyval) (shown : list element) : Prop :=
  if is_none v
  then exists body e, shown = [StWarning body e]
  else shown = [].

(** What the fetch functions return: [None], or a record with a close that
    is not [None] and a date that can be sliced. *)
Definition fetch_result (v : pyval) : Prop :=
  v = PNone \/ (has_close v = Ok true /\ exists t, date_prefix v = Ok t).

(** Every value in the store is one a fetch function returned. *)
Definition fetch_cache (c : list (cache_key * cache_entry)) : Prop :=
  Forall (fun ke => fetch_result (cached_value (snd ke))) c.

(** The exceptions of arithmetic and formatting on an ill-typed or oversized
    closing price. *)
Definition price_error (e : exn) : Prop := e = TypeError \/ e = OverflowError.

(** Whatever the state, [m] appends at most [n] requests to the log and
    removes none. *)
Definition sends_at_most {A} (n : nat) (m : M A) : Prop :=
  forall s, exists reqs,
    sent (snd (m s)) = (sent s ++ reqs)%list /\ (List.length reqs <= n)%nat.

(** A request of the script for [symbol]: to one of the two end-of-day
    endpoints, carrying the API key, that symbol and [limit] 1. *)
Definition request_for (API_KEY : option string) (symbol : string) (r : request) : Prop :=
  (url r = BASE_URL ++ "eod" \/ url r = BASE_URL ++ "eod/latest") /\
  dict_get (params r) "access_key" = Some (py_of_env API_KEY) /\
  dict_get (params r) "symbols" = Some (PStr symbol) /\
  dict_get (params r) "limit" = Some (PInt 1).

(** Whatever the state, the requests [m] appends to the log all satisfy [P],
    and it removes none. *)
Definition sends_only {A} (P : request -> Prop) (m : M A) : Prop :=
  forall s, exists reqs, sent (snd (m s)) = (sent s ++ reqs)%list /\ Forall P reqs.

(** The symbols of the configured instruments. *)
Definition symbols_of (index_items : list (string * string))
    (etf_items : list (string * (string * string))) : list string :=
  (map snd index_items ++ map (fun item => fst (snd item)) etf_items)%list.

(** No request gets a usable answer: the call fails, or comes back with an
    error status or without a JSON body. *)
Definition unreachable (net : upstream) : Prop :=
  forall hist r, transport_error (net hist r).

(** The store holds [None] results only. *)
Definition none_cache (c : list (cache_key * cache_entry)) : Prop :=
  Forall (fun ke => cached_value (snd ke) = PNone) c.

(** Every request is answered with status 401 and an error body, as for a
    key the upstream does not accept. *)
Definition rejecting_net : upstream :=
  fun _ _ => Response 401 (Some (PDict [("error", PDict [("code", PStr "invalid_access_key")])])).

(** The upstream reports the closes of [bad_symbol] as a text; every other
    symbol is served as by [steady_net]. *)
Definition ill_typed_net (bad_symbol : string) (start latest : pyval) : upstream :=
  fun hist r =>
    if String.eqb (param_str r "symbols") bad_symbol
    then steady_net (PStr "n/a") (PStr "n/a") hist r
    else steady_net start latest hist r.

(** * Properties *)

Open Scope list_scope.

(** ** Missing API key *)

(** C8: when the API key is missing (unset, or set to the empty string) the
    script stops at the check: it leaves through [st.stop()] having drawn
    only the error, with no request sent and nothing put in the cache, so
    neither fetch function ran; this holds for the runner as well, with or
    without a press of the reload button. *)
Theorem missing_key_halts_before_any_fetch :
  forall (net : upstream) (API_KEY : option string)
         (index_items : list (string * string))
         (etf_items : list (string * (string * string))) (button : bool) (s : state),
    truthy (py_of_env API_KEY) = false ->
    script_on net API_KEY index_items etf_items button s
      = (Raise StopException,
         mkstate (sent s) (elements s ++ [missing_key_message]) (cache s) (clock s)) /\
    run net API_KEY button s
      = (Raise StopException, mkstate (sent s) [missing_key_message] (cache s) (clock s)).
Proof.
  intros net key ii ei button s Hkey.
  unfold run, script, script_on. rewrite Hkey. simpl.
  split; reflexivity.
Qed.

Lemma missing_key_halts_before_any_fetch_witness :
  truthy (py_of_env None) = false /\
  script_on (steady_net (PInt 100) (PInt 110)) None indices etfs false s0
    = (Raise StopException, mkstate [] [missing_key_message] [] 0).
Proof.
  split; [reflexivity |].
  apply (missing_key_halts_before_any_fetch (steady_net (PInt 100) (PInt 110)) None
           indices etfs false s0).
  reflexivity.
Defined.

(** ** Reading a response: what can come out *)

Lemma obind_ok {A B} (x : outcome A) (k : A -> outcome B) (b : B) :
  obind x k = Ok b -> exists a, x = Ok a /\ k a = Ok b.
Proof.
  destruct x as [a | e]; simpl; intro H; [eauto | discriminate].
Qed.

Lemma obind_raise {A B} (x : outcome A) (k : A -> outcome B) (e : exn) :
  obind x k = Raise e -> x = Raise e \/ exists a, x = Ok a /\ k a = Raise e.
Proof.
  destruct x as [a | e']; simpl; intro H; [right; eauto | left; congruence].
Qed.

(** Takes a hypothesis [obind x k = ...] apart, innermost computation first. *)
Ltac obind_inv H :=
  match type of H with
  | obind _ _ = Ok _ =>
      let a := fresh "a" in
      let Ha := fresh "Ha" in
      apply obind_ok in H; destruct H as (a & Ha & H)
  | obind _ _ = Raise _ =>
      let a := fresh "a" in
      let Ha := fresh "Ha" in
      apply obind_raise in H; destruct H as [H | (a & Ha & H)]
  end.

(** Decides the [if] a hypothesis is stuck on, keeping the branch that does
    not contradict it. *)
Ltac split_if H :=
  match type of H with
  | context [if ?b then _ else _] => destruct b eqn:?; try discriminate H
  end.

Lemma raise_for_status_raises api_result e :
  raise_for_status api_result = Raise e -> e = RequestException.
Proof.
  unfold raise_for_status. destruct (_ && _); congruence.
Qed.

Lemma json_raises api_result e : json api_result = Raise e -> e = RequestException.
Proof.
  unfold json. destruct (snd api_result); congruence.
Qed.

Lemma py_get_default_raises x k d e :
  py_get_default x k d = Raise e -> e = AttributeError.
Proof.
  destruct x; simpl; congruence.
Qed.

Lemma py_getitem_str_raises x k e :
  py_getitem_str x k = Raise e -> is_control e = false.
Proof.
  destruct x; simpl; try (intro H; inversion H; reflexivity).
  destruct (dict_get d k); intro H; inversion H; reflexivity.
Qed.

Lemma py_len_raises x e : py_len x = Raise e -> e = TypeError.
Proof.
  destruct x; simpl; congruence.
Qed.

Lemma py_getitem_0_raises x e : py_getitem_0 x = Raise e -> is_control e = false.
Proof.
  destruct x as [ | | | | s | l | ]; simpl; try (intro H; inversion H; reflexivity).
  - destruct s; intro H; inversion H; reflexivity.
  - destruct l; intro H; inversion H; reflexivity.
Qed.

Lemma py_slice10_raises x e : py_slice10 x = Raise e -> is_control e = false.
Proof.
  destruct x; simpl; intro H; inversion H; reflexivity.
Qed.

Lemma has_data_raises v e : has_data v = Raise e -> is_control e = false.
Proof.
  unfold has_data, py_get. intro H.
  obind_inv H; [apply py_get_default_raises in H; subst; reflexivity |].
  split_if H.
  obind_inv H; [eapply py_getitem_str_raises; eassumption |].
  obind_inv H; [apply py_len_raises in H; subst; reflexivity | discriminate].
Qed.

Lemma has_close_raises v e : has_close v = Raise e -> e = AttributeError.
Proof.
  unfold has_close, py_get. destruct (truthy v); [| discriminate].
  intro H. obind_inv H; [eapply py_get_default_raises; eassumption | discriminate].
Qed.

Lemma date_prefix_raises v e : date_prefix v = Raise e -> is_control e = false.
Proof.
  unfold date_prefix. intro H.
  obind_inv H; [apply py_get_default_raises in H; subst; reflexivity |].
  eapply py_slice10_raises; eassumption.
Qed.

(** No line of the [try] blocks raises a script-control exception, so one of
    the two handlers always takes over. *)
Lemma closest_record_raises api_result current e :
  closest_record api_result current = Raise e -> is_control e = false.
Proof.
  unfold closest_record. intro H.
  obind_inv H; [apply raise_for_status_raises in H; subst; reflexivity |].
  obind_inv H; [apply json_raises in H; subst; reflexivity |].
  obind_inv H; [eapply has_data_raises; eassumption |].
  split_if H.
  obind_inv H; [eapply py_getitem_str_raises; eassumption |].
  obind_inv H; [eapply py_getitem_0_raises; eassumption |].
  obind_inv H; [apply has_close_raises in H; subst; reflexivity |].
  split_if H.
  obind_inv H; [eapply date_prefix_raises; eassumption |].
  destruct (py_eq_str _ _); discriminate.
Qed.

Lemma latest_record_raises api_result e :
  latest_record api_result = Raise e -> is_control e = false.
Proof.
  unfold latest_record. intro H.
  obind_inv H; [apply raise_for_status_raises in H; subst; reflexivity |].
  obind_inv H; [apply json_raises in H; subst; reflexivity |].
  obind_inv H; [eapply has_data_raises; eassumption |].
  split_if H.
  obind_inv H; [eapply py_getitem_str_raises; eassumption |].
  obind_inv H; [eapply py_getitem_0_raises; eassumption |].
  obind_inv H; [apply has_close_raises in H; subst; reflexivity |].
  split_if H.
  obind_inv H; [eapply date_prefix_raises; eassumption | discriminate].
Qed.

(** A record that is returned sits first in the body's [data], has a close
    that is not [None], and a date that can be sliced. *)
Lemma latest_record_found api_result q :
  latest_record api_result = Ok (Some q) ->
  raise_for_status api_result = Ok tt /\
  (exists json_result d,
      snd api_result = Some json_result /\
      py_getitem_str json_result "data" = Ok d /\ py_getitem_0 d = Ok q) /\
  has_close q = Ok true /\
  exists t, date_prefix q = Ok t.
Proof.
  unfold latest_record. intro H.
  obind_inv H.
  match goal with u : unit |- _ => destruct u end.
  obind_inv H. obind_inv H.
  split_if H.
  obind_inv H. obind_inv H. obind_inv H.
  split_if H.
  obind_inv H. inversion H; subst.
  match goal with
  | Hj : json _ = Ok _ |- _ =>
      unfold json in Hj; destruct (snd api_result) eqn:Hb; [| discriminate]; inversion Hj; subst
  end.
  repeat split; eauto.
Qed.

Lemma closest_record_found api_result current q :
  closest_record api_result current = Ok (Some q) ->
  raise_for_status api_result = Ok tt /\
  (exists json_result d,
      snd api_result = Some json_result /\
      py_getitem_str json_result "data" = Ok d /\ py_getitem_0 d = Ok q) /\
  has_close q = Ok true /\
  date_prefix q = Ok (PStr current).
Proof.
  unfold closest_record. intro H.
  obind_inv H.
  match goal with u : unit |- _ => destruct u end.
  obind_inv H. obind_inv H.
  split_if H.
  obind_inv H. obind_inv H. obind_inv H.
  split_if H.
  obind_inv H.
  split_if H.
  inversion H; subst.
  match goal with
  | Hj : json _ = Ok _ |- _ =>
      unfold json in Hj; destruct (snd api_result) eqn:Hb; [| discriminate]; inversion Hj; subst
  end.
  match goal with
  | Heq : py_eq_str ?v _ = true |- _ =>
      destruct v; simpl in Heq; try discriminate; apply String.eqb_eq in Heq; subst
  end.
  repeat split; eauto.
Qed.

(** ** One attempt of the walk-back *)

(** Projections of a state just built, and appends put in normal form. *)
Ltac state_simpl :=
  cbn [sent elements cache clock fst snd]; rewrite <- ?app_assoc; cbn [app].

Lemma with_io_nil s : with_io s [] [] = s.
Proof.
  destruct s. unfold with_io. simpl. rewrite !app_nil_r. reflexivity.
Qed.

Lemma with_io_with_io s r1 e1 r2 e2 :
  with_io (with_io s r1 e1) r2 e2 = with_io s (r1 ++ r2) (e1 ++ e2).
Proof.
  unfold with_io. simpl. rewrite !app_assoc. reflexivity.
Qed.

Lemma closest_attempt_run net symbol current ps s :
  closest_attempt net symbol current ps s =
    match attempt_verdict (net (sent s) (mkrequest (BASE_URL ++ "eod")%string ps)) current with
    | Ok v => (Ok v, with_io s [mkrequest (BASE_URL ++ "eod")%string ps] [])
    | Raise e =>
        (Ok (Some PNone),
         with_io s [mkrequest (BASE_URL ++ "eod")%string ps] [closest_warning symbol current e])
    end.
Proof.
  unfold closest_attempt, try_except, bind, requests_get, attempt_verdict.
  destruct (net (sent s) (mkrequest (BASE_URL ++ "eod")%string ps)) as [| c b]; simpl.
  - reflexivity.
  - unfold lift. destruct (closest_record (c, b) current) as [v | e] eqn:Hrec.
    + unfold with_io. simpl. rewrite app_nil_r. reflexivity.
    + apply closest_record_raises in Hrec.
      destruct e; try discriminate Hrec; reflexivity.
Qed.

Lemma transport_error_verdict reply current :
  transport_error reply -> attempt_verdict reply current = Raise RequestException.
Proof.
  destruct reply as [| c b]; simpl; [reflexivity |].
  unfold attempt_verdict, closest_record, raise_for_status. simpl.
  intros [Hc | Hb].
  - replace ((400 <=? c) && (c <? 600)) with true by lia. reflexivity.
  - subst b. destruct ((400 <=? c) && (c <? 600)); reflexivity.
Qed.

(** ** Signs of the formatted changes *)

Lemma digit_of_not_plus k : 0 <= k < 10 -> digit_of k <> "+"%char.
Proof.
  intro Hk.
  assert (H : k = 0 \/ k = 1 \/ k = 2 \/ k = 3 \/ k = 4 \/ k = 5 \/ k = 6 \/ k = 7
              \/ k = 8 \/ k = 9) by lia.
  repeat (destruct H as [-> | H]; [discriminate |]). subst k. discriminate.
Qed.

(** A digit string starts with a digit. *)
Lemma digits_fuel_head fuel :
  forall n acc,
    (exists k t, 0 <= k < 10 /\ acc = String (digit_of k) t) ->
    exists k t, 0 <= k < 10 /\ digits_fuel fuel n acc = String (digit_of k) t.
Proof.
  induction fuel as [| fuel IH]; intros n acc Hacc; cbn [digits_fuel]; [exact Hacc |].
  destruct (n <? 10).
  - exists (n mod 10). eexists. split; [apply Z.mod_pos_bound; lia | reflexivity].
  - apply IH. exists (n mod 10). eexists.
    split; [apply Z.mod_pos_bound; lia | reflexivity].
Qed.

Lemma decimal_head n : exists k t, 0 <= k < 10 /\ decimal n = String (digit_of k) t.
Proof.
  unfold decimal. cbn [digits_fuel]. destruct (n <? 10).
  - exists (n mod 10). eexists. split; [apply Z.mod_pos_bound; lia | reflexivity].
  - apply digits_fuel_head. exists (n mod 10). eexists.
    split; [apply Z.mod_pos_bound; lia | reflexivity].
Qed.

Lemma format_float_2f_no_plus f rest : format_float_2f false f <> String "+" rest.
Proof.
  destruct f as [s | s | | s m e]; cbn [format_float_2f sign_prefix];
    try (destruct s; discriminate); try discriminate.
  destruct s; [discriminate |].
  destruct (decimal_head (round_half_even (Z.pos m * 100) e / 100)) as (k & t & Hk & ->).
  cbn [String.append]. intro H. inversion H as [Hc]. exact (digit_of_not_plus k Hk Hc).
Qed.

Lemma format_float_2f_signed f :
  exists rest, format_float_2f true f = String "+" rest \/
               format_float_2f true f = String "-" rest.
Proof.
  destruct f as [s | s | | s m e]; cbn [format_float_2f]; try destruct s;
    cbn [sign_prefix String.append]; eexists;
    first [left; reflexivity | right; reflexivity].
Qed.

Lemma py_format_2f_no_plus x t rest : py_format_2f false x = Ok t -> t <> String "+" rest.
Proof.
  destruct x as [ | b | z | f | | | ]; simpl; try discriminate; intro H.
  - obind_inv H. inversion H; subst. apply format_float_2f_no_plus.
  - obind_inv H. inversion H; subst. apply format_float_2f_no_plus.
  - inversion H; subst. apply format_float_2f_no_plus.
Qed.

Lemma py_format_2f_signed x t :
  py_format_2f true x = Ok t -> exists rest, t = String "+" rest \/ t = String "-" rest.
Proof.
  destruct x as [ | b | z | f | | | ]; simpl; try discriminate; intro H.
  - obind_inv H. inversion H; subst. apply format_float_2f_signed.
  - obind_inv H. inversion H; subst. apply format_float_2f_signed.
  - inversion H; subst. apply format_float_2f_signed.
Qed.

(** ** The walk-back loop *)

(** The loop is followed with dates and texts kept folded. *)
#[local] Opaque isoformat ord2ymd toordinal String.append.

Lemma params_ready_set key symbol ps day :
  params_ready key symbol ps ->
  dict_set (dict_set (dict_set ps "date_from" (PStr day)) "date_to" (PStr day))
    "limit" (PInt 1) = closest_params key symbol day.
Proof.
  intros [-> | [day' ->]]; reflexivity.
Qed.

Lemma date_sub_days_cases d i :
  date_sub_days d i = Ok (ord2ymd (toordinal d - i)) \/
  date_sub_days d i = Raise OverflowError.
Proof.
  unfold date_sub_days. destruct (_ && _); auto.
Qed.

(** One iteration of the loop, unfolded. *)
Lemma closest_loop_cons net symbol target_date_str d ps i range s :
  closest_loop net symbol target_date_str d ps (i :: range) s =
    match date_sub_days d i with
    | Ok current_date =>
        let day := isoformat current_date in
        let ps' := dict_set (dict_set (dict_set ps "date_from" (PStr day)) "date_to" (PStr day))
                     "limit" (PInt 1) in
        match closest_attempt net symbol day ps' s with
        | (Ok (Some v), s') => (Ok v, s')
        | (Ok None, s') => closest_loop net symbol target_date_str d ps' range s'
        | (Raise e, s') => (Raise e, s')
        end
    | Raise e => (Raise e, s)
    end.
Proof.
  cbn [closest_loop]. unfold bind, lift, ret.
  destruct (date_sub_days d i) as [cur | e]; [| reflexivity].
  cbv zeta.
  destruct (closest_attempt _ _ _ _ s) as [[[v |] | e] s']; reflexivity.
Qed.

Lemma app_cons_last {A} (l : list A) (a : A) (l' : list A) :
  l ++ a :: l' = (l ++ [a]) ++ l'.
Proof.
  rewrite <- app_assoc. reflexivity.
Qed.

Section Walk.

Variable net : upstream.
Variable API_KEY : option string.
Variable symbol target_date_str : string.
Variable d : date.

Let req := closest_request API_KEY symbol d.

(** The loop, run from any state, is a [walk]; it leaves behind the requests
    of the attempts made and nothing else but warnings. *)
Lemma closest_loop_walk range :
  forall ps s,
    params_ready API_KEY symbol ps ->
    exists k els,
      walk net API_KEY symbol d (sent s) range k
        (fst (closest_loop net symbol target_date_str d ps range s)) /\
      snd (closest_loop net symbol target_date_str d ps range s)
        = with_io s (map req (firstn k range)) els.
Proof.
  induction range as [| i range IH]; intros ps s Hps.
  - exists 0%nat. eexists. split; [apply walk_exhausted |].
    cbn. unfold with_io. cbn. rewrite app_nil_r. reflexivity.
  - rewrite closest_loop_cons.
    destruct (date_sub_days_cases d i) as [Hd | Hd]; rewrite Hd.
    + cbv zeta. rewrite (params_ready_set _ _ _ _ Hps).
      rewrite closest_attempt_run.
      destruct (attempt_verdict _ _) as [[q |] | e] eqn:Hv.
      * exists 1%nat. eexists. split; [eapply walk_found; eassumption |]. reflexivity.
      * destruct (IH (closest_params API_KEY symbol (candidate_day d i))
                    (with_io s [req i] [])) as (k & els & Hw & Hs).
        { right. eexists. reflexivity. }
        exists (S k), els. split.
        -- eapply walk_miss; eassumption.
        -- etransitivity; [exact Hs |]. rewrite with_io_with_io. reflexivity.
      * exists 1%nat. eexists. split; [eapply walk_failed; eassumption |]. reflexivity.
    + exists 0%nat, []. split; [apply walk_out_of_range; assumption |].
      simpl. rewrite with_io_nil. reflexivity.
Qed.

(** The attempts made are at most the days of the range. *)
Lemma walk_length hist range k r :
  walk net API_KEY symbol d hist range k r -> (k <= List.length range)%nat.
Proof.
  induction 1; simpl; lia.
Qed.

(** Whatever is returned other than through the not-found exits is the
    record the last attempt found. *)
Lemma walk_found_last hist range k r q :
  walk net API_KEY symbol d hist range k r ->
  r = Ok q -> q <> PNone ->
  exists j i,
    k = S j /\ nth_error range j = Some i /\
    attempt_verdict (net (hist ++ map req (firstn j range)) (req i)) (candidate_day d i)
      = Ok (Some q).
Proof.
  unfold req.
  induction 1 as [hist | hist i range Hd | hist i range q' Hd Hv | hist i range e Hd Hv
                 | hist i range k r Hd Hv Hw IH]; intros Hr Hq.
  - congruence.
  - discriminate.
  - inversion Hr; subst. exists 0%nat, i. simpl. rewrite app_nil_r. auto.
  - congruence.
  - destruct (IH Hr Hq) as (j & i' & -> & Hn & Hv').
    exists (S j), i'. simpl. rewrite app_cons_last. auto.
Qed.

(** An attempt that ends in a handler is the last one, and the function
    returns [None]. *)
Lemma walk_error_stops hist range k r j i e :
  walk net API_KEY symbol d hist range k r ->
  (j < k)%nat -> nth_error range j = Some i ->
  attempt_verdict (net (hist ++ map req (firstn j range)) (req i)) (candidate_day d i)
    = Raise e ->
  k = S j /\ r = Ok PNone.
Proof.
  unfold req. intro Hw. revert j.
  induction Hw as [hist | hist i0 range Hd | hist i0 range q' Hd Hv | hist i0 range e0 Hd Hv
                  | hist i0 range k r Hd Hv Hw IH]; intros j Hj Hn He.
  - lia.
  - lia.
  - assert (j = 0)%nat by lia. subst j. simpl in Hn, He. inversion Hn; subst.
    rewrite app_nil_r in He. congruence.
  - assert (j = 0)%nat by lia. subst j. auto.
  - destruct j as [| j].
    + simpl in Hn, He. inversion Hn; subst. rewrite app_nil_r in He. congruence.
    + simpl in Hn, He. rewrite app_cons_last in He.
      destruct (IH j ltac:(lia) Hn He) as [-> ->]. auto.
Qed.

(** When every day of the range can be formed and every attempt falls
    through, all of them are made and the function returns [None]. *)
Lemma walk_all_miss hist range k r :
  walk net API_KEY symbol d hist range k r ->
  (forall j i, nth_error range j = Some i ->
     date_sub_days d i = Ok (ord2ymd (toordinal d - i)) /\
     attempt_verdict (net (hist ++ map req (firstn j range)) (req i)) (candidate_day d i)
       = Ok None) ->
  k = List.length range /\ r = Ok PNone.
Proof.
  unfold req.
  induction 1 as [hist | hist i range Hd | hist i range q' Hd Hv | hist i range e Hd Hv
                 | hist i range k r Hd Hv Hw IH]; intro Hall.
  - auto.
  - destruct (Hall 0%nat i eq_refl) as [Hd' _]. congruence.
  - destruct (Hall 0%nat i eq_refl) as [_ Hv']. simpl in Hv'. rewrite app_nil_r in Hv'.
    congruence.
  - destruct (Hall 0%nat i eq_refl) as [_ Hv']. simpl in Hv'. rewrite app_nil_r in Hv'.
    congruence.
  - destruct IH as [-> ->]; [| auto].
    intros j i' Hn. destruct (Hall (S j) i' Hn) as [Hd' Hv']. split; [assumption |].
    simpl in Hv'. rewrite app_cons_last in Hv'. exact Hv'.
Qed.

(** The loop ends in a return, or in the [OverflowError] of a day before
    [date.min]. *)
Lemma walk_outcome hist range k r :
  walk net API_KEY symbol d hist range k r ->
  (exists v, r = Ok v) \/ r = Raise OverflowError.
Proof.
  induction 1; eauto.
Qed.

End Walk.

Lemma range5_nth j i : nth_error range5 j = Some i -> i = Z.of_nat j /\ (j < 5)%nat.
Proof.
  do 5 (destruct j as [| j]; [simpl; intro H; inversion H; split; [reflexivity | lia] |]).
  destruct j; discriminate.
Qed.

Lemma range5_nth_of j : (j < 5)%nat -> nth_error range5 j = Some (Z.of_nat j).
Proof.
  intro H. do 5 (destruct j as [| j]; [reflexivity |]). lia.
Qed.

(** With a target date that parses, the function is its spinner and then
    the loop over [range(5)]. *)
Lemma get_closest_unfold net key symbol t d s :
  fromisoformat t = Ok d ->
  get_closest_trading_day_data net key symbol t s =
    closest_loop net symbol t d
      [("access_key", py_of_env key); ("symbols", PStr symbol)] range5
      (with_io s []
         [StSpinner ("Ophalen data voor " ++ symbol ++ " rond " ++ t ++ "...")%string]).
Proof.
  intro Ht. unfold get_closest_trading_day_data, bind, st_spinner, emit, lift.
  rewrite Ht. unfold with_io. rewrite app_nil_r. reflexivity.
Qed.

Lemma get_closest_bad_date net key symbol t e s :
  fromisoformat t = Raise e ->
  fst (get_closest_trading_day_data net key symbol t s) = Raise e /\
  sent (snd (get_closest_trading_day_data net key symbol t s)) = sent s.
Proof.
  intro Ht. unfold get_closest_trading_day_data, bind, st_spinner, emit, lift.
  rewrite Ht. split; reflexivity.
Qed.

Example start_date_candidates :
  map (candidate_day (mkdate 2024 3 12)) range5
  = ["2024-03-12"; "2024-03-11"; "2024-03-10"; "2024-03-09"; "2024-03-08"].
Proof.
  vm_compute. reflexivity.
Qed.

Example sparse_walk_back :
  let run := get_closest_trading_day_data (sparse_net "2024-03-10" (PInt 100) (PInt 110))
               (Some "k") "AEX.INDX" START_DATE_STR s0 in
  fst run = Ok (quote "2024-03-10" (PInt 100)) /\
  map (fun r => param_str r "date_from") (sent (snd run))
    = ["2024-03-12"; "2024-03-11"; "2024-03-10"].
Proof.
  vm_compute. split; reflexivity.
Qed.



(** ** The latest quote *)

Lemma get_latest_run net key symbol s :
  get_latest_trading_day_data net key symbol s =
    match net (sent s) (latest_request key symbol) with
    | ConnectionFailed =>
        (Ok PNone,
         with_io s [latest_request key symbol]
           [latest_spinner symbol; latest_warning symbol RequestException])
    | Response c b =>
        if c =? 404 then
          match net (sent s ++ [latest_request key symbol]) (fallback_request key symbol) with
          | ConnectionFailed =>
              (Ok PNone,
               with_io s [latest_request key symbol; fallback_request key symbol]
                 [latest_spinner symbol; latest_warning symbol RequestException])
          | Response c' b' =>
              latest_conclusion symbol s
                [latest_request key symbol; fallback_request key symbol] (c', b')
          end
        else latest_conclusion symbol s [latest_request key symbol] (c, b)
    end.
Proof.
  unfold get_latest_trading_day_data, latest_conclusion.
  unfold bind at 1. unfold st_spinner, emit.
  unfold try_except, bind, requests_get, lift, ret, raise, st_warning, emit.
  cbn [sent elements cache clock fst snd].
  change (mkrequest (BASE_URL ++ "eod/latest")%string
            [("access_key", py_of_env key); ("symbols", PStr symbol); ("limit", PInt 1)])
    with (latest_request key symbol).
  change (mkrequest (BASE_URL ++ "eod")%string
            [("access_key", py_of_env key); ("symbols", PStr symbol); ("limit", PInt 1)])
    with (fallback_request key symbol).
  unfold with_io, latest_spinner.
  destruct (net (sent s) (latest_request key symbol)) as [| c b].
  - state_simpl. reflexivity.
  - cbn [fst]. destruct (c =? 404).
    + state_simpl.
      destruct (net (sent s ++ [latest_request key symbol]) (fallback_request key symbol))
        as [| c' b'].
      * state_simpl. reflexivity.
      * destruct (latest_record (c', b')) as [[q |] | e] eqn:Hrec;
          state_simpl; try reflexivity.
        apply latest_record_raises in Hrec.
        destruct e; try discriminate Hrec; reflexivity.
    + destruct (latest_record (c, b)) as [[q |] | e] eqn:Hrec;
        state_simpl; try reflexivity.
      apply latest_record_raises in Hrec.
      destruct e; try discriminate Hrec; reflexivity.
Qed.

Lemma latest_conclusion_sent symbol s reqs api_result :
  sent (snd (latest_conclusion symbol s reqs api_result)) = sent s ++ reqs.
Proof.
  unfold latest_conclusion. destruct (latest_record api_result) as [[q |] | e]; reflexivity.
Qed.

Lemma latest_conclusion_returns symbol s reqs api_result :
  exists v, fst (latest_conclusion symbol s reqs api_result) = Ok v /\
            (v = PNone \/ latest_record api_result = Ok (Some v)).
Proof.
  unfold latest_conclusion. destruct (latest_record api_result) as [[q |] | e]; simpl; eauto.
Qed.

(** Without a 404 from the latest endpoint there is no second request. *)
Lemma latest_no_fallback_otherwise net key symbol s :
  (forall b, net (sent s) (latest_request key symbol) <> Response 404 b) ->
  sent (snd (get_latest_trading_day_data net key symbol s))
    = sent s ++ [latest_request key symbol].
Proof.
  intro Hno. rewrite get_latest_run.
  destruct (net (sent s) (latest_request key symbol)) as [| c b]; [reflexivity |].
  destruct (c =? 404) eqn:Hc.
  - apply Z.eqb_eq in Hc. subst c. destruct (Hno b). reflexivity.
  - apply latest_conclusion_sent.
Qed.



(** ** The comparison *)

Lemma compare_index_failure name symbol start_data latest_data acc s :
  success_guard start_data latest_data = Ok false ->
  compare_index name symbol start_data latest_data acc s
    = (Ok (acc ++ [index_failure_row name symbol]),
       with_io s [] [StMetric (label_of name symbol) "Data Fout" ""]).
Proof.
  intro Hg. unfold compare_index, bind, lift. rewrite Hg.
  unfold st_metric, emit, ret, with_io. rewrite app_nil_r. reflexivity.
Qed.

Lemma compare_index_guard_raises name symbol start_data latest_data acc s e :
  success_guard start_data latest_data = Raise e ->
  compare_index name symbol start_data latest_data acc s = (Raise e, s).
Proof.
  intro Hg. unfold compare_index, bind, lift. rewrite Hg. reflexivity.
Qed.

Lemma compare_index_success name symbol start_data latest_data acc s :
  success_guard start_data latest_data = Ok true ->
  fst (compare_index name symbol start_data latest_data acc s)
    = (let? row := index_success_row name symbol start_data latest_data in
       Ok (acc ++ [row])).
Proof.
  intro Hg. unfold compare_index, index_success_row, bind, lift. rewrite Hg.
  repeat (cbn [obind fst st_metric emit ret];
          lazymatch goal with
          | |- context [match ?x with Ok _ => _ | Raise _ => _ end] =>
              destruct x; [| reflexivity]
          | |- _ => reflexivity
          end).
Qed.

Lemma compare_etf_failure name symbol currency start_data latest_data acc s :
  success_guard start_data latest_data = Ok false ->
  compare_etf name symbol currency start_data latest_data acc s
    = (Ok (acc ++ [etf_failure_row name symbol]),
       with_io s [] [StMetric (label_of name symbol) "Data Fout" ""]).
Proof.
  intro Hg. unfold compare_etf, bind, lift. rewrite Hg.
  unfold st_metric, emit, ret, with_io. rewrite app_nil_r. reflexivity.
Qed.

Lemma compare_etf_guard_raises name symbol currency start_data latest_data acc s e :
  success_guard start_data latest_data = Raise e ->
  compare_etf name symbol currency start_data latest_data acc s = (Raise e, s).
Proof.
  intro Hg. unfold compare_etf, bind, lift. rewrite Hg. reflexivity.
Qed.

Lemma compare_etf_success name symbol currency start_data latest_data acc s :
  success_guard start_data latest_data = Ok true ->
  fst (compare_etf name symbol currency start_data latest_data acc s)
    = (let? row := etf_success_row name symbol currency start_data latest_data in
       Ok (acc ++ [row])).
Proof.
  intro Hg. unfold compare_etf, etf_success_row, bind, lift. rewrite Hg.
  repeat (cbn [obind fst st_metric emit ret];
          lazymatch goal with
          | |- context [match ?x with Ok _ => _ | Raise _ => _ end] =>
              destruct x; [| reflexivity]
          | |- _ => reflexivity
          end).
Qed.

(** The guard on values the fetch functions return: it never raises, and it
    is false exactly when a quote is missing or a close reads as false. *)
Lemma fetched_truthy v : fetched v -> (truthy v = false <-> v = PNone).
Proof.
  intros [-> | (d & -> & Hd)].
  - split; reflexivity.
  - destruct d; [congruence |]. split; discriminate.
Qed.

Lemma fetched_close v : fetched v -> truthy v = true -> exists c, py_get v "close" = Ok c.
Proof.
  intros [-> | (d & -> & Hd)] Ht; [discriminate |].
  eexists. reflexivity.
Qed.

Lemma success_guard_false start_data latest_data :
  fetched start_data -> fetched latest_data ->
  (success_guard start_data latest_data = Ok false <->
   start_data = PNone \/ latest_data = PNone \/
   falsy_close start_data \/ falsy_close latest_data).
Proof.
  intros Hs Hl. unfold success_guard, falsy_close.
  pose proof (fetched_truthy _ Hs) as Hts. pose proof (fetched_truthy _ Hl) as Htl.
  destruct (truthy start_data) eqn:Es; simpl.
  2:{ split; [intros _; left; apply Hts; reflexivity | reflexivity]. }
  destruct (truthy latest_data) eqn:El; simpl.
  2:{ split; [intros _; right; left; apply Htl; reflexivity | reflexivity]. }
  destruct (fetched_close _ Hs Es) as (c & Hc).
  destruct (fetched_close _ Hl El) as (c' & Hc').
  rewrite Hc. simpl. destruct (truthy c) eqn:Ec; simpl.
  - rewrite Hc'. simpl. split.
    + intro H. inversion H. right. right. right. eauto.
    + intros [H | [H | [(x & Hx & Hf) | (x & Hx & Hf)]]].
      * subst. discriminate Es.
      * subst. discriminate El.
      * inversion Hx; subst. congruence.
      * inversion Hx; subst. congruence.
  - split; [intros _; right; right; left; eauto | reflexivity].
Qed.

Lemma success_guard_fetched start_data latest_data :
  fetched start_data -> fetched latest_data ->
  exists b, success_guard start_data latest_data = Ok b.
Proof.
  intros Hs Hl. unfold success_guard.
  destruct (truthy start_data) eqn:Es; simpl; [| eauto].
  destruct (truthy latest_data) eqn:El; simpl; [| eauto].
  destruct (fetched_close _ Hs Es) as (c & ->).
  destruct (fetched_close _ Hl El) as (c' & ->).
  simpl. destruct (truthy c); simpl; eauto.
Qed.

(** On the success path both closes are there and read as true. *)
Lemma success_guard_true start_data latest_data :
  success_guard start_data latest_data = Ok true ->
  exists sp lp,
    py_getitem_str start_data "close" = Ok sp /\
    py_getitem_str latest_data "close" = Ok lp /\
    py_get start_data "close" = Ok sp /\
    py_get latest_data "close" = Ok lp /\
    truthy sp = true /\ truthy lp = true /\
    truthy start_data = true /\ truthy latest_data = true.
Proof.
  unfold success_guard.
  destruct (truthy start_data) eqn:Es; simpl; [| discriminate].
  destruct (truthy latest_data) eqn:El; simpl; [| discriminate].
  destruct start_data as [ | | | | | | d]; try discriminate.
  simpl. destruct (dict_get d "close") as [c |] eqn:Hc; [| discriminate].
  destruct (truthy c) eqn:Ec; simpl; [| discriminate].
  destruct latest_data as [ | | | | | | d']; try discriminate.
  simpl. destruct (dict_get d' "close") as [c' |] eqn:Hc'; [| discriminate].
  intro H. injection H as Ec'.
  exists c, c'. simpl. repeat split; auto.
Qed.

(** ** Zero closing prices and the division *)

Lemma truthy_not_zero v : truthy v = true -> is_zero_price v = false.
Proof.
  destruct v as [ | b | z | f | | | ]; simpl; try reflexivity.
  - destruct b; [reflexivity | discriminate].
  - apply negb_true_iff.
  - apply negb_true_iff.
Qed.

Lemma zero_not_truthy v : is_zero_price v = true -> truthy v = false.
Proof.
  intro H. destruct (truthy v) eqn:Ht; [| reflexivity].
  apply truthy_not_zero in Ht. congruence.
Qed.

Lemma to_float_raises n e : to_float n = Raise e -> e = OverflowError.
Proof.
  destruct n; simpl; [| discriminate].
  unfold float_of_int. destruct (_ <? _); congruence.
Qed.

Lemma py_sub_raises a b e : py_sub a b = Raise e -> e = TypeError \/ e = OverflowError.
Proof.
  unfold py_sub.
  destruct (as_number a) as [[x | fx] |], (as_number b) as [[y | fy] |];
    try discriminate; try (intro H; inversion H; auto; fail);
    intro H; repeat (obind_inv H; [apply to_float_raises in H; auto |]); discriminate.
Qed.

Lemma py_mul_raises a b e : py_mul a b = Raise e -> e = TypeError \/ e = OverflowError.
Proof.
  unfold py_mul.
  destruct (as_number a) as [[x | fx] |], (as_number b) as [[y | fy] |];
    try discriminate; try (intro H; inversion H; auto; fail);
    intro H; repeat (obind_inv H; [apply to_float_raises in H; auto |]); discriminate.
Qed.

(** [ZeroDivisionError] comes from a divisor that is zero, and only then. *)
Lemma py_truediv_zero_division a b :
  py_truediv a b = Raise ZeroDivisionError -> is_zero_price b = true.
Proof.
  unfold py_truediv, is_zero_price.
  destruct (as_number a) as [[x | fx] |], (as_number b) as [[y | fy] |];
    try discriminate; simpl.
  - destruct (y =? 0); [reflexivity |]. destruct (_ <? _); discriminate.
  - unfold float_of_int. destruct (_ <? _); simpl; [| discriminate].
    destruct (F64.is_zero fy); [reflexivity | discriminate].
  - unfold float_of_int. destruct (_ <? _); simpl; [| discriminate].
    destruct (y =? 0); [reflexivity | discriminate].
  - destruct (F64.is_zero fy); [reflexivity | discriminate].
Qed.

Lemma percentage_change_zero_division start_price latest_price :
  percentage_change start_price latest_price = Raise ZeroDivisionError ->
  is_zero_price start_price = true.
Proof.
  unfold percentage_change. intro H.
  obind_inv H; [apply py_sub_raises in H; destruct H; discriminate |].
  obind_inv H; [apply py_truediv_zero_division in H; exact H |].
  apply py_mul_raises in H. destruct H; discriminate.
Qed.

Lemma float_of_int_raises z e : float_of_int z = Raise e -> e = OverflowError.
Proof.
  unfold float_of_int. destruct (_ <? _); congruence.
Qed.

Lemma py_format_2f_raises plus x e :
  py_format_2f plus x = Raise e -> e <> ZeroDivisionError.
Proof.
  destruct x as [ | b | z | f | | | ]; simpl; intro H; try (inversion H; discriminate).
  - obind_inv H; [apply float_of_int_raises in H; subst |]; discriminate.
  - obind_inv H; [apply float_of_int_raises in H; subst |]; discriminate.
Qed.

Lemma py_getitem_str_no_zero_division x k :
  py_getitem_str x k <> Raise ZeroDivisionError.
Proof.
  destruct x; simpl; try discriminate. destruct (dict_get d k); discriminate.
Qed.

Lemma date_prefix_no_zero_division v : date_prefix v <> Raise ZeroDivisionError.
Proof.
  unfold date_prefix. intro H. obind_inv H.
  - apply py_get_default_raises in H. discriminate.
  - match goal with
    | H : py_slice10 ?x = _ |- _ => destruct x; discriminate
    end.
Qed.

(** A [ZeroDivisionError] on the way to a success row could only come from a
    start price that is zero. *)
Lemma index_success_row_zero_division name symbol start_data latest_data :
  index_success_row name symbol start_data latest_data = Raise ZeroDivisionError ->
  exists sp, py_getitem_str start_data "close" = Ok sp /\ is_zero_price sp = true.
Proof.
  unfold index_success_row. intro H.
  obind_inv H; [apply py_getitem_str_no_zero_division in H; contradiction |].
  obind_inv H; [apply py_getitem_str_no_zero_division in H; contradiction |].
  obind_inv H; [apply percentage_change_zero_division in H; eauto |].
  obind_inv H; [apply py_format_2f_raises in H; congruence |].
  obind_inv H; [apply py_format_2f_raises in H; congruence |].
  obind_inv H; [apply date_prefix_no_zero_division in H; contradiction |].
  obind_inv H; [apply date_prefix_no_zero_division in H; contradiction | discriminate].
Qed.

Lemma etf_success_row_no_zero_division name symbol currency start_data latest_data :
  etf_success_row name symbol currency start_data latest_data <> Raise ZeroDivisionError.
Proof.
  unfold etf_success_row, absolute_change. intro H.
  obind_inv H; [apply py_getitem_str_no_zero_division in H; contradiction |].
  obind_inv H; [apply py_getitem_str_no_zero_division in H; contradiction |].
  obind_inv H; [apply py_sub_raises in H; destruct H; discriminate |].
  obind_inv H; [apply py_format_2f_raises in H; congruence |].
  obind_inv H; [apply py_format_2f_raises in H; congruence |].
  obind_inv H; [apply date_prefix_no_zero_division in H; contradiction |].
  obind_inv H; [apply date_prefix_no_zero_division in H; contradiction | discriminate].
Qed.

(** C10: on the success path of a comparison both closing prices read as
    true, so the start price is not zero ([0], [0.0], [-0.0], [False]): no
    division by it raises [ZeroDivisionError], neither the percentage
    computation nor either loop body does; and a quote whose closing price is
    zero sends the comparison to the failure branch. *)
Theorem success_path_never_divides_by_zero :
  (forall (name symbol currency : string) (start_data latest_data : pyval)
          (acc : list pydict) (s : state),
      success_guard start_data latest_data = Ok true ->
      exists start_price latest_price,
        py_getitem_str start_data "close" = Ok start_price /\
        py_getitem_str latest_data "close" = Ok latest_price /\
        truthy start_price = true /\ truthy latest_price = true /\
        is_zero_price start_price = false /\
        is_zero_price latest_price = false /\
        (forall a, py_truediv a start_price <> Raise ZeroDivisionError) /\
        percentage_change start_price latest_price <> Raise ZeroDivisionError /\
        fst (compare_index name symbol start_data latest_data acc s)
          <> Raise ZeroDivisionError /\
        fst (compare_etf name symbol currency start_data latest_data acc s)
          <> Raise ZeroDivisionError) /\
  (forall (name symbol currency : string) (start_data latest_data : pyval)
          (acc : list pydict) (s : state) (c : pyval),
      fetched start_data -> fetched latest_data ->
      is_zero_price c = true ->
      py_get start_data "close" = Ok c \/ py_get latest_data "close" = Ok c ->
      success_guard start_data latest_data = Ok false /\
      fst (compare_index name symbol start_data latest_data acc s)
        = Ok (acc ++ [index_failure_row name symbol]) /\
      fst (compare_etf name symbol currency start_data latest_data acc s)
        = Ok (acc ++ [etf_failure_row name symbol])).
Proof.
  split.
  - intros name symbol currency start_data latest_data acc s Hg.
    destruct (success_guard_true _ _ Hg) as (sp & lp & Hsp & Hlp & _ & _ & Hts & Htl & _).
    pose proof (truthy_not_zero _ Hts) as Hzs.
    pose proof (truthy_not_zero _ Htl) as Hzl.
    exists sp, lp. repeat split; try assumption.
    + intros a H. apply py_truediv_zero_division in H. congruence.
    + intro H. apply percentage_change_zero_division in H. congruence.
    + rewrite (compare_index_success _ _ _ _ _ _ Hg).
      destruct (index_success_row name symbol start_data latest_data) as [row | e] eqn:Hrow;
        simpl; [discriminate |].
      intro H. inversion H; subst.
      apply index_success_row_zero_division in Hrow.
      destruct Hrow as (sp' & Hsp' & Hz). congruence.
    + rewrite (compare_etf_success _ _ _ _ _ _ _ Hg).
      destruct (etf_success_row name symbol currency start_data latest_data)
        as [row | e] eqn:Hrow; simpl; [discriminate |].
      intro H. inversion H; subst.
      apply etf_success_row_no_zero_division in Hrow. exact Hrow.
  - intros name symbol currency start_data latest_data acc s c Hs Hl Hz Hc.
    assert (Hg : success_guard start_data latest_data = Ok false).
    { apply (success_guard_false _ _ Hs Hl). apply zero_not_truthy in Hz.
      destruct Hc as [Hc | Hc]; [right; right; left | right; right; right];
        exists c; auto. }
    split; [exact Hg |].
    rewrite (compare_index_failure _ _ _ _ _ _ Hg).
    rewrite (compare_etf_failure _ _ _ _ _ _ _ Hg). split; reflexivity.
Qed.

Lemma success_path_never_divides_by_zero_witness :
  success_guard (quote "2024-03-12" (PInt 100)) (quote "2025-06-02" (PInt 110)) = Ok true /\
  fst (compare_index "AEX" "AEX.INDX" (quote "2024-03-12" (PInt 100))
         (quote "2025-06-02" (PInt 110)) [] s0) <> Raise ZeroDivisionError /\
  fetched (quote "2024-03-12" (PInt 0)) /\
  is_zero_price (PInt 0) = true /\
  success_guard (quote "2024-03-12" (PInt 0)) (quote "2025-06-02" (PInt 110)) = Ok false.
Proof.
  assert (Hg : success_guard (quote "2024-03-12" (PInt 100)) (quote "2025-06-02" (PInt 110))
               = Ok true) by reflexivity.
  assert (Hf : forall day c, fetched (quote day c)).
  { intros day c. right. eexists. split; [reflexivity | discriminate]. }
  destruct success_path_never_divides_by_zero as [Hok Hzero].
  destruct (Hok "AEX" "AEX.INDX" "EUR" _ _ [] s0 Hg)
    as (sp & lp & _ & _ & _ & _ & _ & _ & _ & _ & Hi & _).
  destruct (Hzero "AEX" "AEX.INDX" "EUR" (quote "2024-03-12" (PInt 0))
              (quote "2025-06-02" (PInt 110)) [] s0 (PInt 0) (Hf _ _) (Hf _ _) eq_refl
              (or_introl eq_refl)) as (Hg0 & _).
  repeat split; try assumption. apply Hf.
Defined.

(** ** Arithmetic on usable prices never raises *)

Lemma price_bound_pos : 1 < price_bound.
Proof.
  reflexivity.
Qed.

Lemma price_bound_twice : 2 * price_bound < F64.overflow_threshold.
Proof.
  reflexivity.
Qed.

Lemma float_of_int_100 : float_of_int 100 = Ok (F64.of_dyadic 100 0).
Proof.
  reflexivity.
Qed.

(** From here on the two bounds are used through the facts above only. *)
#[local] Opaque price_bound F64.overflow_threshold.

Lemma usable_price_number v :
  usable_price v = true -> exists n, as_number v = Some n /\ within price_bound n.
Proof.
  pose proof price_bound_pos as Hpos.
  destruct v as [ | b | z | f | | | ]; simpl; try discriminate; intro H.
  - exists (NInt (if b then 1 else 0)). split; [reflexivity |]. simpl. destruct b; lia.
  - exists (NInt z). split; [reflexivity |]. simpl. lia.
  - exists (NFloat f). split; [reflexivity | exact I].
Qed.

Lemma to_float_within n :
  within (2 * price_bound) n -> exists f, to_float n = Ok f.
Proof.
  pose proof price_bound_twice as Htwice.
  destruct n as [z | f]; cbn [within to_float]; [| eauto].
  intro Hz. unfold float_of_int.
  replace (Z.abs z <? F64.overflow_threshold) with true by lia. eauto.
Qed.

Lemma within_weaken n : within price_bound n -> within (2 * price_bound) n.
Proof.
  pose proof price_bound_pos as Hpos. destruct n; cbn [within]; [lia | auto].
Qed.

Lemma py_sub_usable a b x y :
  as_number a = Some x -> as_number b = Some y ->
  within price_bound x -> within price_bound y ->
  exists v n, py_sub a b = Ok v /\ as_number v = Some n /\ within (2 * price_bound) n.
Proof.
  intros Ha Hb Hx Hy. unfold py_sub. rewrite Ha, Hb.
  destruct (to_float_within _ (within_weaken _ Hx)) as (fx & Hfx).
  destruct (to_float_within _ (within_weaken _ Hy)) as (fy & Hfy).
  destruct x as [x | x], y as [y | y]; cbn [within to_float obind] in *.
  - exists (PInt (x - y)), (NInt (x - y)). repeat split. cbn [within]. lia.
  - rewrite Hfx. cbn [obind]. eexists _, (NFloat _). repeat split.
  - rewrite Hfy. cbn [obind]. eexists _, (NFloat _). repeat split.
  - eexists _, (NFloat _). repeat split.
Qed.

Lemma py_truediv_usable a b x y :
  as_number a = Some x -> as_number b = Some y ->
  within (2 * price_bound) x -> within price_bound y ->
  number_is_zero y = false ->
  exists f, py_truediv a b = Ok (PFloat f).
Proof.
  intros Ha Hb Hx Hy Hz. unfold py_truediv. rewrite Ha, Hb.
  destruct (to_float_within _ Hx) as (fx & Hfx).
  destruct (to_float_within _ (within_weaken _ Hy)) as (fy & Hfy).
  pose proof price_bound_twice as Hb2.
  destruct x as [x | x], y as [y | y]; cbn [within to_float obind number_is_zero] in *.
  - rewrite Hz. apply Z.eqb_neq in Hz.
    assert (Hlt : Z.abs x < F64.overflow_threshold * Z.abs y).
    { apply Z.lt_le_trans with (F64.overflow_threshold * 1); [lia |].
      apply Z.mul_le_mono_nonneg_l; lia. }
    replace (Z.abs x <? F64.overflow_threshold * Z.abs y) with true by lia.
    eauto.
  - rewrite Hfx. cbn [obind]. rewrite Hz. eauto.
  - rewrite Hfy. cbn [obind]. rewrite Hz. eauto.
  - rewrite Hz. eauto.
Qed.

Lemma py_mul_float_100 f : exists g, py_mul (PFloat f) (PInt 100) = Ok (PFloat g).
Proof.
  unfold py_mul. cbn [as_number to_float]. rewrite float_of_int_100. eexists. reflexivity.
Qed.

Lemma py_format_2f_within plus v n :
  as_number v = Some n -> within (2 * price_bound) n ->
  exists t, py_format_2f plus v = Ok t.
Proof.
  intros Hv Hn. destruct (to_float_within _ Hn) as (f & Hf).
  destruct v as [ | b | z | g | | | ]; simpl in Hv; try discriminate;
    inversion Hv; subst; cbn [py_format_2f as_number to_float within obind] in *.
  - rewrite Hf. cbn [obind]. eauto.
  - rewrite Hf. cbn [obind]. eauto.
  - eauto.
Qed.

(** With usable closes and a start price that is not zero, the percentage
    change is a float. *)
Lemma percentage_change_usable start_price latest_price :
  usable_price start_price = true -> usable_price latest_price = true ->
  is_zero_price start_price = false ->
  exists f, percentage_change start_price latest_price = Ok (PFloat f).
Proof.
  intros Hs Hl Hz. unfold percentage_change.
  destruct (usable_price_number _ Hs) as (ns & Hns & Hws).
  destruct (usable_price_number _ Hl) as (nl & Hnl & Hwl).
  destruct (py_sub_usable _ _ _ _ Hnl Hns Hwl Hws) as (dv & nd & Hd & Hnd & Hwd).
  rewrite Hd. cbn [obind].
  unfold is_zero_price in Hz. rewrite Hns in Hz.
  destruct (py_truediv_usable _ _ _ _ Hnd Hns Hwd Hws Hz) as (q & Hq).
  rewrite Hq. cbn [obind]. apply py_mul_float_100.
Qed.

Lemma absolute_change_usable start_price latest_price :
  usable_price start_price = true -> usable_price latest_price = true ->
  exists v n, absolute_change start_price latest_price = Ok v /\
              as_number v = Some n /\ within (2 * price_bound) n.
Proof.
  intros Hs Hl. unfold absolute_change.
  destruct (usable_price_number _ Hs) as (ns & Hns & Hws).
  destruct (usable_price_number _ Hl) as (nl & Hnl & Hwl).
  apply (py_sub_usable _ _ _ _ Hnl Hns Hwl Hws).
Qed.

(** ** When a comparison is a failure marker *)

Lemma failure_row_not_success name symbol acc start_data latest_data :
  (let? row := index_success_row name symbol start_data latest_data in Ok (acc ++ [row]))
    <> Ok (acc ++ [index_failure_row name symbol]).
Proof.
  intro H. obind_inv H. inversion H as [Happ].
  apply app_inv_head in Happ. inversion Happ; subst.
  match goal with
  | Hrow : index_success_row _ _ _ _ = Ok _ |- _ =>
      unfold index_success_row in Hrow; repeat obind_inv Hrow; discriminate Hrow
  end.
Qed.

Lemma etf_failure_row_not_success name symbol currency acc start_data latest_data :
  (let? row := etf_success_row name symbol currency start_data latest_data in
   Ok (acc ++ [row]))
    <> Ok (acc ++ [etf_failure_row name symbol]).
Proof.
  intro H. obind_inv H. inversion H as [Happ].
  apply app_inv_head in Happ. inversion Happ; subst.
  match goal with
  | Hrow : etf_success_row _ _ _ _ _ = Ok _ |- _ =>
      unfold etf_success_row in Hrow; repeat obind_inv Hrow; discriminate Hrow
  end.
Qed.

(** With usable closes the success branch goes through and the change is a
    number. *)
Lemma index_success_row_usable name symbol start_data latest_data sp lp :
  py_getitem_str start_data "close" = Ok sp ->
  py_getitem_str latest_data "close" = Ok lp ->
  truthy sp = true ->
  usable_price sp = true -> usable_price lp = true ->
  (exists t, date_prefix start_data = Ok t) ->
  (exists t, date_prefix latest_data = Ok t) ->
  exists sd ld f,
    index_success_row name symbol start_data latest_data
      = Ok (index_row name symbol sd sp ld lp (PFloat f)).
Proof.
  intros Hsp Hlp Ht Hus Hul (sd & Hsd) (ld & Hld).
  unfold index_success_row. rewrite Hsp, Hlp. cbn [obind].
  destruct (percentage_change_usable _ _ Hus Hul (truthy_not_zero _ Ht)) as (f & Hf).
  rewrite Hf. cbn [obind].
  destruct (usable_price_number _ Hul) as (nl & Hnl & Hwl).
  destruct (py_format_2f_within false _ _ Hnl (within_weaken _ Hwl)) as (v & Hv).
  rewrite Hv, Hsd, Hld. cbn [obind py_format_2f]. eauto.
Qed.

Lemma etf_success_row_usable name symbol currency start_data latest_data sp lp :
  py_getitem_str start_data "close" = Ok sp ->
  py_getitem_str latest_data "close" = Ok lp ->
  usable_price sp = true -> usable_price lp = true ->
  (exists t, date_prefix start_data = Ok t) ->
  (exists t, date_prefix latest_data = Ok t) ->
  exists sd ld ch,
    etf_success_row name symbol currency start_data latest_data
      = Ok (etf_row name symbol currency sd sp ld lp ch) /\
    isinstance_int_float ch = true /\
    exists t, py_format_2f true ch = Ok t.
Proof.
  intros Hsp Hlp Hus Hul (sd & Hsd) (ld & Hld).
  unfold etf_success_row. rewrite Hsp, Hlp. cbn [obind].
  destruct (absolute_change_usable _ _ Hus Hul) as (ch & n & Hch & Hn & Hw).
  rewrite Hch. cbn [obind].
  destruct (usable_price_number _ Hul) as (nl & Hnl & Hwl).
  destruct (py_format_2f_within false _ _ Hnl (within_weaken _ Hwl)) as (v & Hv).
  destruct (py_format_2f_within true _ _ Hn Hw) as (v' & Hv').
  rewrite Hv, Hv', Hsd, Hld. cbn [obind].
  exists sd, ld, ch. split; [reflexivity |]. split; [| eauto].
  destruct ch; simpl in Hn; try discriminate; reflexivity.
Qed.

Lemma usable_not_zero_truthy v :
  usable_price v = true -> is_zero_price v = false -> truthy v = true.
Proof.
  destruct v as [ | b | z | f | | | ]; try discriminate; unfold is_zero_price;
    cbn [as_number number_is_zero truthy]; intros _ H.
  - destruct b; [reflexivity | discriminate].
  - rewrite H. reflexivity.
  - rewrite H. reflexivity.
Qed.

(** ** The cache *)

Lemma cache_key_eqb_refl k : cache_key_eqb k k = true.
Proof.
  destruct k; simpl; rewrite ?String.eqb_refl; reflexivity.
Qed.

Lemma cache_data_hit k body s e :
  cache_lookup k (cache s) = Some e -> clock s < stored_at e + ttl ->
  cache_data k body s = (Ok (cached_value e), s).
Proof.
  intros Hl Hf. unfold cache_data. rewrite Hl.
  replace (clock s <? stored_at e + ttl) with true by lia. reflexivity.
Qed.

Lemma cache_data_miss k body s :
  cache_miss k s ->
  cache_data k body s =
    match body s with
    | (Ok v, s') => (Ok v, stored k v s')
    | (Raise e, s') => (Raise e, s')
    end.
Proof.
  unfold cache_miss, cache_data. intro Hm.
  assert (Hrun : (v <- body ;; cache_store k v ;; ret v) s =
                 match body s with
                 | (Ok v, s') => (Ok v, stored k v s')
                 | (Raise e, s') => (Raise e, s')
                 end).
  { unfold bind. destruct (body s) as [[v | e] s']; reflexivity. }
  destruct (cache_lookup k (cache s)) as [e |]; [| exact Hrun].
  replace (clock s <? stored_at e + ttl) with false by lia. exact Hrun.
Qed.

Lemma cache_clear_misses k s : cache_miss k (snd (cache_clear s)).
Proof.
  exact I.
Qed.

(** Right after a value is stored, and for the hour that follows, a call is
    answered from the store and changes nothing. *)
Lemma stored_then_hit k body v s dt :
  0 <= dt < ttl ->
  cache_data k body (advance dt (stored k v s)) = (Ok v, advance dt (stored k v s)).
Proof.
  intro Hdt.
  apply (cache_data_hit k body (advance dt (stored k v s)) (mkentry v (clock s))).
  - simpl. rewrite cache_key_eqb_refl. reflexivity.
  - simpl. lia.
Qed.

(** The fetch functions leave the store and the clock alone. *)
Lemma get_latest_frame net key symbol s :
  exists v reqs els,
    get_latest_trading_day_data net key symbol s = (Ok v, with_io s reqs els).
Proof.
  rewrite get_latest_run. unfold latest_conclusion.
  destruct (net (sent s) (latest_request key symbol)) as [| c b]; [eauto |].
  destruct (c =? 404).
  - destruct (net _ (fallback_request key symbol)) as [| c' b']; [eauto |].
    destruct (latest_record (c', b')) as [[q |] | e]; eauto.
  - destruct (latest_record (c, b)) as [[q |] | e]; eauto.
Qed.

Lemma get_closest_frame net key symbol t d s :
  fromisoformat t = Ok d ->
  exists reqs els,
    snd (get_closest_trading_day_data net key symbol t s) = with_io s reqs els.
Proof.
  intro Ht. rewrite (get_closest_unfold _ _ _ _ _ _ Ht).
  destruct (closest_loop_walk net key symbol t d range5
              [("access_key", py_of_env key); ("symbols", PStr symbol)]
              (with_io s [] [StSpinner ("Ophalen data voor " ++ symbol ++ " rond " ++ t
                                         ++ "...")%string]))
    as (k & els & _ & Hs); [left; reflexivity |].
  rewrite Hs, with_io_with_io. eauto.
Qed.



(** ** What the fetch functions return *)

Lemma walk_returns net key symbol d hist range k r :
  walk net key symbol d hist range k r ->
  (forall i, In i range -> date_sub_days d i = Ok (ord2ymd (toordinal d - i))) ->
  exists v,
    r = Ok v /\
    (v = PNone \/
     exists hist' i,
       attempt_verdict (net hist' (closest_request key symbol d i)) (candidate_day d i)
         = Ok (Some v)).
Proof.
  induction 1 as [hist | hist i range Hd | hist i range q' Hd Hv | hist i range e Hd Hv
                 | hist i range k r Hd Hv Hw IH]; intro Hall.
  - eauto.
  - rewrite (Hall i (or_introl eq_refl)) in Hd. discriminate.
  - eauto 6.
  - eauto.
  - apply IH. intros j Hj. apply Hall. right. exact Hj.
Qed.

Lemma start_date_parses : fromisoformat START_DATE_STR = Ok (mkdate 2024 3 12).
Proof.
  reflexivity.
Qed.

Lemma start_date_days_exist : days_exist (mkdate 2024 3 12).
Proof.
  intros i Hi. simpl in Hi.
  repeat (destruct Hi as [<- | Hi]; [vm_compute; reflexivity |]). contradiction.
Qed.

Lemma has_close_true q :
  has_close q = Ok true ->
  exists d c, q = PDict d /\ d <> [] /\ dict_get d "close" = Some c /\ c <> PNone.
Proof.
  unfold has_close. destruct (truthy q) eqn:Ht; [| discriminate].
  destruct q as [ | | | | | | d]; try discriminate.
  simpl. destruct (dict_get d "close") as [c |] eqn:Hc; [| discriminate].
  intro H. exists d, c. split; [reflexivity |]. split; [| split; [exact Hc |]].
  - destruct d; [discriminate Ht | discriminate].
  - intros ->. discriminate H.
Qed.

(** Under [numeric_closes], a record read off a reply is a sound quote. *)
Lemma found_record_sound net hist r api_result q :
  numeric_closes net ->
  response_of (net hist r) = Some api_result ->
  raise_for_status api_result = Ok tt ->
  (exists json_result d,
      snd api_result = Some json_result /\
      py_getitem_str json_result "data" = Ok d /\ py_getitem_0 d = Ok q) ->
  has_close q = Ok true ->
  (exists t, date_prefix q = Ok t) ->
  sound_quote q.
Proof.
  intros Hnum Hresp _ (j & dd & Hj & Hd & H0) Hc Hdate.
  destruct (has_close_true _ Hc) as (d & c & -> & Hne & Hget & Hnn).
  right. exists d, c. repeat split; try assumption.
  destruct (net hist r) as [| status b] eqn:Hnet; [discriminate |].
  inversion Hresp; subst. simpl in Hj. subst b.
  destruct (Hnum _ _ _ _ _ _ c Hnet Hd H0) as [Hn | Hu]; [| contradiction | exact Hu].
  simpl. rewrite Hget. reflexivity.
Qed.

Lemma get_closest_sound net key symbol t d s :
  numeric_closes net ->
  fromisoformat t = Ok d -> days_exist d ->
  exists v reqs els,
    get_closest_trading_day_data net key symbol t s = (Ok v, with_io s reqs els) /\
    sound_quote v.
Proof.
  intros Hnum Ht Hdays.
  rewrite (get_closest_unfold _ _ _ _ _ _ Ht).
  set (s1 := with_io s [] _).
  destruct (closest_loop_walk net key symbol t d range5
              [("access_key", py_of_env key); ("symbols", PStr symbol)] s1)
    as (k & els & Hw & Hs); [left; reflexivity |].
  destruct (walk_returns _ _ _ _ _ _ _ _ Hw Hdays) as (v & Hv & Hcase).
  exists v. eexists. eexists. split.
  - destruct (closest_loop _ _ _ _ _ _ s1) as [r s']. simpl in Hv, Hs. subst r s' s1.
    rewrite with_io_with_io. reflexivity.
  - destruct Hcase as [-> | (hist' & i & Hver)]; [left; reflexivity |].
    unfold attempt_verdict in Hver.
    destruct (response_of (net hist' (closest_request key symbol d i)))
      as [api_result |] eqn:Hresp; [| discriminate].
    destruct (closest_record_found _ _ _ Hver) as (Hst & Hrec & Hc & Hdate).
    eapply found_record_sound; eauto.
Qed.

Lemma get_latest_sound net key symbol s :
  numeric_closes net ->
  exists v reqs els,
    get_latest_trading_day_data net key symbol s = (Ok v, with_io s reqs els) /\
    sound_quote v.
Proof.
  intro Hnum. rewrite get_latest_run. unfold latest_conclusion.
  destruct (net (sent s) (latest_request key symbol)) as [| c b] eqn:Hp.
  { eexists _, _, _. split; [reflexivity | left; reflexivity]. }
  destruct (c =? 404).
  - destruct (net (sent s ++ [latest_request key symbol]) (fallback_request key symbol))
      as [| c' b'] eqn:Hf.
    { eexists _, _, _. split; [reflexivity | left; reflexivity]. }
    destruct (latest_record (c', b')) as [[q |] | e] eqn:Hrec;
      eexists _, _, _; (split; [reflexivity |]); try (left; reflexivity).
    destruct (latest_record_found _ _ Hrec) as (Hst & Hr & Hc & Hdate).
    eapply found_record_sound; eauto. rewrite Hf. reflexivity.
  - destruct (latest_record (c, b)) as [[q |] | e] eqn:Hrec;
      eexists _, _, _; (split; [reflexivity |]); try (left; reflexivity).
    destruct (latest_record_found _ _ Hrec) as (Hst & Hr & Hc & Hdate).
    eapply found_record_sound; eauto. rewrite Hp. reflexivity.
Qed.

(** ** The loops *)

Lemma sound_quote_fetched v : sound_quote v -> fetched v.
Proof.
  intros [-> | (d & c & -> & Hd & _)]; [left; reflexivity | right; eauto].
Qed.

Lemma cached_sound k body s :
  sound_cache (cache s) ->
  (exists v reqs els, body s = (Ok v, with_io s reqs els) /\ sound_quote v) ->
  exists v s',
    cache_data k body s = (Ok v, s') /\ sound_quote v /\ sound_cache (cache s').
Proof.
  intros Hc (v & reqs & els & Hb & Hv). unfold cache_data.
  assert (Hrun : exists v s',
             (v <- body ;; cache_store k v ;; ret v) s = (Ok v, s') /\
             sound_quote v /\ sound_cache (cache s')).
  { unfold bind. rewrite Hb. eexists _, _. split; [reflexivity |]. split; [exact Hv |].
    simpl. constructor; [exact Hv | exact Hc]. }
  destruct (cache_lookup k (cache s)) as [e |] eqn:Hl; [| exact Hrun].
  destruct (clock s <? stored_at e + ttl); [| exact Hrun].
  exists (cached_value e), s. split; [reflexivity |]. split; [| exact Hc].
  clear Hrun Hb. unfold sound_cache in Hc. induction (cache s) as [| [k' e'] c IH].
  - discriminate.
  - simpl in Hl. inversion Hc; subst. destruct (cache_key_eqb k' k).
    + inversion Hl; subst. assumption.
    + auto.
Qed.

Lemma process_index_run net key name symbol acc s :
  process_index net key name symbol acc s =
    match cached_closest net key symbol START_DATE_STR (after_placeholder name symbol s) with
    | (Ok start_data, s1) =>
        match cached_latest net key symbol s1 with
        | (Ok latest_data, s2) => compare_index name symbol start_data latest_data acc s2
        | (Raise e, s2) => (Raise e, s2)
        end
    | (Raise e, s1) => (Raise e, s1)
    end.
Proof.
  unfold process_index, bind, st_metric, emit, after_placeholder, with_io.
  rewrite app_nil_r. reflexivity.
Qed.

Lemma process_etf_run net key name symbol currency acc s :
  process_etf net key name symbol currency acc s =
    match cached_closest net key symbol START_DATE_STR (after_placeholder name symbol s) with
    | (Ok start_data, s1) =>
        match cached_latest net key symbol s1 with
        | (Ok latest_data, s2) =>
            compare_etf name symbol currency start_data latest_data acc s2
        | (Raise e, s2) => (Raise e, s2)
        end
    | (Raise e, s1) => (Raise e, s1)
    end.
Proof.
  unfold process_etf, bind, st_metric, emit, after_placeholder, with_io.
  rewrite app_nil_r. reflexivity.
Qed.

(** The success branch, state included: one metric is drawn. *)
Lemma compare_index_success_run name symbol start_data latest_data acc s row :
  success_guard start_data latest_data = Ok true ->
  index_success_row name symbol start_data latest_data = Ok row ->
  exists m,
    compare_index name symbol start_data latest_data acc s
      = (Ok (acc ++ [row]), with_io s [] [m]).
Proof.
  intros Hg Hrow. unfold compare_index, bind, lift. rewrite Hg.
  unfold index_success_row in Hrow. repeat obind_inv Hrow. inversion Hrow; subst.
  repeat (cbv beta iota;
          match goal with
          | H : ?x = Ok _ |- context [?x] => rewrite H
          end).
  cbn [st_metric emit ret]. eexists. unfold with_io. rewrite app_nil_r. reflexivity.
Qed.

Lemma compare_etf_success_run name symbol currency start_data latest_data acc s row :
  success_guard start_data latest_data = Ok true ->
  etf_success_row name symbol currency start_data latest_data = Ok row ->
  exists m,
    compare_etf name symbol currency start_data latest_data acc s
      = (Ok (acc ++ [row]), with_io s [] [m]).
Proof.
  intros Hg Hrow. unfold compare_etf, bind, lift. rewrite Hg.
  unfold etf_success_row in Hrow. repeat obind_inv Hrow. inversion Hrow; subst.
  repeat (cbv beta iota;
          match goal with
          | H : ?x = Ok _ |- context [?x] => rewrite H
          end).
  cbn [st_metric emit ret]. eexists. unfold with_io. rewrite app_nil_r. reflexivity.
Qed.

Lemma sound_quote_close v sp :
  sound_quote v -> py_getitem_str v "close" = Ok sp ->
  usable_price sp = true /\ exists t, date_prefix v = Ok t.
Proof.
  intros [-> | (d & c & -> & _ & Hc & Hu & Hd)] Hsp; [discriminate |].
  simpl in Hsp. rewrite Hc in Hsp. inversion Hsp; subst. auto.
Qed.

Lemma compare_index_sound name symbol start_data latest_data acc s :
  sound_quote start_data -> sound_quote latest_data ->
  exists row els,
    compare_index name symbol start_data latest_data acc s
      = (Ok (acc ++ [row]), with_io s [] els) /\
    index_row_of name symbol row.
Proof.
  intros Hs Hl.
  destruct (success_guard_fetched _ _ (sound_quote_fetched _ Hs) (sound_quote_fetched _ Hl))
    as ([|] & Hg).
  - destruct (success_guard_true _ _ Hg) as (sp & lp & Hsp & Hlp & _ & _ & Hts & _).
    destruct (sound_quote_close _ _ Hs Hsp) as (Hus & Hds).
    destruct (sound_quote_close _ _ Hl Hlp) as (Hul & Hdl).
    destruct (index_success_row_usable name symbol _ _ _ _ Hsp Hlp Hts Hus Hul Hds Hdl)
      as (sd & ld & f & Hrow).
    destruct (compare_index_success_run name symbol _ _ acc s _ Hg Hrow) as (m & Hrun).
    eexists _, _. split; [exact Hrun |]. right. eauto 6.
  - eexists _, _. split; [apply compare_index_failure; exact Hg |]. left. reflexivity.
Qed.

Lemma compare_etf_sound name symbol currency start_data latest_data acc s :
  sound_quote start_data -> sound_quote latest_data ->
  exists row els,
    compare_etf name symbol currency start_data latest_data acc s
      = (Ok (acc ++ [row]), with_io s [] els) /\
    etf_row_of name symbol currency row.
Proof.
  intros Hs Hl.
  destruct (success_guard_fetched _ _ (sound_quote_fetched _ Hs) (sound_quote_fetched _ Hl))
    as ([|] & Hg).
  - destruct (success_guard_true _ _ Hg) as (sp & lp & Hsp & Hlp & _ & _ & Hts & _).
    destruct (sound_quote_close _ _ Hs Hsp) as (Hus & Hds).
    destruct (sound_quote_close _ _ Hl Hlp) as (Hul & Hdl).
    destruct (etf_success_row_usable name symbol currency _ _ _ _ Hsp Hlp Hus Hul Hds Hdl)
      as (sd & ld & ch & Hrow & Hnum & Hfmt).
    destruct (compare_etf_success_run name symbol currency _ _ acc s _ Hg Hrow)
      as (m & Hrun).
    eexists _, _. split; [exact Hrun |]. right. exists sd, sp, ld, lp, ch. auto.
  - eexists _, _. split; [apply compare_etf_failure; exact Hg |]. left. reflexivity.
Qed.

Section Loops.

Variable net : upstream.
Variable API_KEY : option string.
Hypothesis Hnum : numeric_closes net.

Lemma fetches_sound symbol s :
  sound_cache (cache s) ->
  exists start_data s1 latest_data s2,
    cached_closest net API_KEY symbol START_DATE_STR s = (Ok start_data, s1) /\
    cached_latest net API_KEY symbol s1 = (Ok latest_data, s2) /\
    sound_quote start_data /\ sound_quote latest_data /\ sound_cache (cache s2).
Proof.
  intro Hc.
  destruct (cached_sound (KClosest symbol START_DATE_STR)
              (get_closest_trading_day_data net API_KEY symbol START_DATE_STR) s Hc)
    as (v & s1 & Hrun & Hv & Hc1).
  { apply (get_closest_sound net API_KEY symbol START_DATE_STR (mkdate 2024 3 12) s Hnum).
    - exact start_date_parses.
    - exact start_date_days_exist. }
  destruct (cached_sound (KLatest symbol) (get_latest_trading_day_data net API_KEY symbol)
              s1 Hc1) as (v' & s2 & Hrun' & Hv' & Hc2).
  { apply (get_latest_sound net API_KEY symbol s1 Hnum). }
  exists v, s1, v', s2. auto.
Qed.

Lemma process_index_sound name symbol acc s :
  sound_cache (cache s) ->
  exists row s',
    process_index net API_KEY name symbol acc s = (Ok (acc ++ [row]), s') /\
    sound_cache (cache s') /\ index_row_of name symbol row.
Proof.
  intro Hc. rewrite process_index_run.
  destruct (fetches_sound symbol (after_placeholder name symbol s) Hc)
    as (sd & s1 & ld & s2 & H1 & H2 & Hs & Hl & Hc2).
  unfold cached_closest, cached_latest in *. rewrite H1, H2.
  destruct (compare_index_sound name symbol sd ld acc s2 Hs Hl) as (row & els & Hrun & Hrow).
  rewrite Hrun. exists row. eexists. split; [reflexivity |]. split; [exact Hc2 | exact Hrow].
Qed.

Lemma process_etf_sound name symbol currency acc s :
  sound_cache (cache s) ->
  exists row s',
    process_etf net API_KEY name symbol currency acc s = (Ok (acc ++ [row]), s') /\
    sound_cache (cache s') /\ etf_row_of name symbol currency row.
Proof.
  intro Hc. rewrite process_etf_run.
  destruct (fetches_sound symbol (after_placeholder name symbol s) Hc)
    as (sd & s1 & ld & s2 & H1 & H2 & Hs & Hl & Hc2).
  unfold cached_closest, cached_latest in *. rewrite H1, H2.
  destruct (compare_etf_sound name symbol currency sd ld acc s2 Hs Hl)
    as (row & els & Hrun & Hrow).
  rewrite Hrun. exists row. eexists. split; [reflexivity |]. split; [exact Hc2 | exact Hrow].
Qed.

(** The index loop appends exactly one row per instrument, in order. *)
Lemma process_indices_sound items :
  forall acc s,
    sound_cache (cache s) ->
    exists rows s',
      process_indices net API_KEY items acc s = (Ok (acc ++ rows), s') /\
      sound_cache (cache s') /\
      Forall2 (fun item row => index_row_of (fst item) (snd item) row) items rows.
Proof.
  induction items as [| [name symbol] items IH]; intros acc s Hc.
  - exists [], s. rewrite app_nil_r. repeat split; [exact Hc | constructor].
  - cbn [process_indices]. unfold bind.
    destruct (process_index_sound name symbol acc s Hc) as (row & s1 & Hrun & Hc1 & Hrow).
    rewrite Hrun.
    destruct (IH (acc ++ [row]) s1 Hc1) as (rows & s2 & Hrest & Hc2 & Hrows).
    exists (row :: rows), s2. rewrite Hrest, <- app_assoc. repeat split; [exact Hc2 |].
    constructor; assumption.
Qed.

Lemma process_etfs_sound items :
  forall acc s,
    sound_cache (cache s) ->
    exists rows s',
      process_etfs net API_KEY items acc s = (Ok (acc ++ rows), s') /\
      sound_cache (cache s') /\
      Forall2 (fun item row =>
                 etf_row_of (fst item) (fst (snd item)) (snd (snd item)) row) items rows.
Proof.
  induction items as [| [name [symbol currency]] items IH]; intros acc s Hc.
  - exists [], s. rewrite app_nil_r. repeat split; [exact Hc | constructor].
  - cbn [process_etfs]. unfold bind.
    destruct (process_etf_sound name symbol currency acc s Hc)
      as (row & s1 & Hrun & Hc1 & Hrow).
    rewrite Hrun.
    destruct (IH (acc ++ [row]) s1 Hc1) as (rows & s2 & Hrest & Hc2 & Hrows).
    exists (row :: rows), s2. rewrite Hrest, <- app_assoc. repeat split; [exact Hc2 |].
    constructor; assumption.
Qed.

End Loops.

(** ** The tables *)

Lemma dict_get_set_other d k v k' :
  String.eqb k k' = false -> dict_get (dict_set d k v) k' = dict_get d k'.
Proof.
  intro Hk. induction d as [| [k0 v0] d IH]; simpl.
  - rewrite Hk. reflexivity.
  - destruct (String.eqb k0 k) eqn:E0; simpl.
    + apply String.eqb_eq in E0. subst k0. rewrite Hk. reflexivity.
    + destruct (String.eqb k0 k'); [reflexivity | exact IH].
Qed.

(** A column assignment that goes through keeps the number of rows, their
    order, and every other column. *)
Lemma assign_column_ok column f rows :
  Forall (fun row => exists v, f row = Ok v) rows ->
  exists df,
    assign_column column f rows = Ok df /\
    List.length df = List.length rows /\
    forall c, String.eqb column c = false ->
              map (fun row => cell row c) df = map (fun row => cell row c) rows.
Proof.
  induction 1 as [| row rows (v & Hv) _ (df & Hdf & Hlen & Hcols)].
  - exists []. repeat split.
  - exists (dict_set row column v :: df). simpl. rewrite Hv, Hdf. simpl.
    split; [reflexivity |]. split; [rewrite Hlen; reflexivity |].
    intros c Hc. rewrite (Hcols c Hc). unfold cell at 1.
    rewrite (dict_get_set_other _ _ _ _ Hc). reflexivity.
Qed.

Lemma index_row_of_formats name symbol row :
  index_row_of name symbol row ->
  (exists v, format_percentage (cell row "Verandering (%)") = Ok v) /\
  index_ident row = (PStr name, PStr symbol).
Proof.
  intros [-> | (sd & sp & ld & lp & f & ->)]; split; try reflexivity.
  - eexists. reflexivity.
  - eexists. reflexivity.
Qed.

Lemma etf_row_of_formats name symbol currency row :
  etf_row_of name symbol currency row ->
  (exists v, format_absolute row = Ok v) /\
  etf_ident row = (PStr name, PStr symbol).
Proof.
  intros [-> | (sd & sp & ld & lp & ch & -> & Hnum & (t & Ht))]; split; try reflexivity.
  - eexists. reflexivity.
  - unfold format_absolute. cbn [cell etf_row dict_get String.eqb Ascii.eqb Bool.eqb].
    rewrite Hnum, Ht. eexists. reflexivity.
Qed.

Lemma index_df_ok items rows :
  Forall2 (fun item row => index_row_of (fst item) (snd item) row) items rows ->
  exists df,
    index_df rows = Ok df /\
    List.length df = List.length items /\
    map index_ident df = map (fun item => (PStr (fst item), PStr (snd item))) items.
Proof.
  intro Hrows.
  assert (Hfmt : Forall (fun row => exists v,
                           format_percentage (cell row "Verandering (%)") = Ok v) rows).
  { induction Hrows as [| item row items rows Hrow _ IH]; constructor; [| exact IH].
    apply (index_row_of_formats _ _ _ Hrow). }
  destruct (assign_column_ok "Verandering (%)"
              (fun row => format_percentage (cell row "Verandering (%)")) rows Hfmt)
    as (df & Hdf & Hlen & Hcols).
  exists df. split; [exact Hdf |].
  split; [rewrite Hlen; symmetry; apply (Forall2_length Hrows) |].
  assert (Hid : map index_ident df = map index_ident rows).
  { pose proof (Hcols "Index" eq_refl) as H1. pose proof (Hcols "Symbool" eq_refl) as H2.
    clear - H1 H2. revert rows H1 H2.
    induction df as [| r df IH]; intros [| r' rows] H1 H2; try discriminate; [reflexivity |].
    simpl in *. inversion H1. inversion H2. unfold index_ident at 1 3.
    f_equal; [congruence | apply IH; assumption]. }
  rewrite Hid. clear - Hrows.
  induction Hrows as [| item row items rows Hrow _ IH]; [reflexivity |].
  simpl. rewrite IH. f_equal. apply (index_row_of_formats _ _ _ Hrow).
Qed.

Lemma etf_df_ok items rows :
  Forall2 (fun item row => etf_row_of (fst item) (fst (snd item)) (snd (snd item)) row)
    items rows ->
  exists df,
    etf_df rows = Ok df /\
    List.length df = List.length items /\
    map etf_ident df = map (fun item => (PStr (fst item), PStr (fst (snd item)))) items.
Proof.
  intro Hrows.
  assert (Hfmt : Forall (fun row => exists v, format_absolute row = Ok v) rows).
  { induction Hrows as [| item row items rows Hrow _ IH]; constructor; [| exact IH].
    apply (etf_row_of_formats _ _ _ _ Hrow). }
  destruct (assign_column_ok "Verandering Absoluut" format_absolute rows Hfmt)
    as (df & Hdf & Hlen & Hcols).
  exists df. split; [exact Hdf |].
  split; [rewrite Hlen; symmetry; apply (Forall2_length Hrows) |].
  assert (Hid : map etf_ident df = map etf_ident rows).
  { pose proof (Hcols "ETF" eq_refl) as H1. pose proof (Hcols "Symbool" eq_refl) as H2.
    clear - H1 H2. revert rows H1 H2.
    induction df as [| r df IH]; intros [| r' rows] H1 H2; try discriminate; [reflexivity |].
    simpl in *. inversion H1. inversion H2. unfold etf_ident at 1 3.
    f_equal; [congruence | apply IH; assumption]. }
  rewrite Hid. clear - Hrows.
  induction Hrows as [| item row items rows Hrow _ IH]; [reflexivity |].
  simpl. rewrite IH. f_equal. apply (etf_row_of_formats _ _ _ _ Hrow).
Qed.

Lemma show_index_table_run rows df s :
  index_df rows = Ok df ->
  exists e,
    show_index_table rows s = (Ok tt, with_io s [] [e]) /\
    (rows <> [] -> e = StDataframe df).
Proof.
  intro Hdf. unfold show_index_table. destruct rows as [| row rows].
  - eexists. split.
    + unfold emit, with_io. rewrite app_nil_r. reflexivity.
    + intro H. contradiction.
  - unfold bind, lift. rewrite Hdf. eexists. split.
    + unfold emit, with_io. rewrite app_nil_r. reflexivity.
    + reflexivity.
Qed.

Lemma show_etf_table_run rows df s :
  etf_df rows = Ok df ->
  exists e,
    show_etf_table rows s = (Ok tt, with_io s [] [e]) /\
    (rows <> [] -> e = StDataframe df).
Proof.
  intro Hdf. unfold show_etf_table. destruct rows as [| row rows].
  - eexists. split.
    + unfold emit, with_io. rewrite app_nil_r. reflexivity.
    + intro H. contradiction.
  - unfold bind, lift. rewrite Hdf. eexists. split.
    + unfold emit, with_io. rewrite app_nil_r. reflexivity.
    + reflexivity.
Qed.


Lemma steady_net_numeric start latest :
  usable_price start = true -> usable_price latest = true ->
  numeric_closes (steady_net start latest).
Proof.
  intros Hs Hl hist r status json_result d record c Hnet Hd H0 Hc.
  unfold steady_net in Hnet.
  destruct (String.eqb (url r) (BASE_URL ++ "eod")%string);
    inversion Hnet; subst; simpl in Hd; inversion Hd; subst;
    simpl in H0; inversion H0; subst; simpl in Hc; inversion Hc; subst; auto.
Qed.

Lemma patchy_net_numeric bad start latest :
  usable_price start = true -> usable_price latest = true ->
  numeric_closes (patchy_net bad start latest).
Proof.
  intros Hs Hl hist r status json_result d record c Hnet.
  unfold patchy_net in Hnet.
  destruct (String.eqb (param_str r "symbols") bad); [discriminate |].
  exact (steady_net_numeric start latest Hs Hl hist r status json_result d record c Hnet).
Qed.


(** A close of another JSON type is outside [numeric_closes]: the subtraction
    raises and the run ends there. *)
Example text_close_raises :
  fst (process_index (steady_net (PStr "n/a") (PStr "n/a")) (Some "k") "AEX" "AEX.INDX" [] s0)
  = Raise TypeError.
Proof.
  vm_compute. reflexivity.
Qed.

Example patchy_run_has_seven_rows :
  index_change_column
    (fst (process_indices (patchy_net "GSPC.INDX" (PInt 100) (PInt 110)) (Some "k")
            indices [] s0))
  = Ok [PStr "10.00%"; PStr "Fout"; PStr "10.00%"; PStr "10.00%"; PStr "10.00%";
        PStr "10.00%"; PStr "10.00%"].
Proof.
  vm_compute. reflexivity.
Qed.

(** ** Errors stay inside the fetch functions *)

Lemma get_closest_returns net key symbol t d s :
  fromisoformat t = Ok d -> days_exist d ->
  exists v reqs els,
    get_closest_trading_day_data net key symbol t s = (Ok v, with_io s reqs els).
Proof.
  intros Ht Hdays.
  rewrite (get_closest_unfold _ _ _ _ _ _ Ht).
  set (s1 := with_io s [] _).
  destruct (closest_loop_walk net key symbol t d range5
              [("access_key", py_of_env key); ("symbols", PStr symbol)] s1)
    as (k & els & Hw & Hs); [left; reflexivity |].
  destruct (walk_returns _ _ _ _ _ _ _ _ Hw Hdays) as (v & Hv & _).
  exists v. eexists. eexists.
  destruct (closest_loop _ _ _ _ _ _ s1) as [r s']. simpl in Hv, Hs. subst r s' s1.
  rewrite with_io_with_io. reflexivity.
Qed.

Lemma success_guard_none_left latest_data : success_guard PNone latest_data = Ok false.
Proof.
  reflexivity.
Qed.

Lemma success_guard_none_right start_data : success_guard start_data PNone = Ok false.
Proof.
  unfold success_guard. destruct (truthy start_data); reflexivity.
Qed.

(** ** Displayed changes *)

(** C3, as stated, fails: with a start price of 100 and a latest price of 110
    neither the metric delta nor the table cell of the index is the string
    ["+10.00%"]. *)
Lemma index_100_110_has_no_plus_sign :
  let run := process_index (steady_net (PInt 100) (PInt 110)) (Some "k")
               "AEX" "AEX.INDX" [] s0 in
  last (metric_deltas (snd run)) "" <> "+10.00%" /\
  index_change_column (fst run) <> Ok [PStr "+10.00%"].
Proof.
  vm_compute. split; intro H; discriminate H.
Qed.

(** C3, amended: for an index with start price 100 and latest price 110
    (given as JSON integers or as floats) the change is
    [(latest - start) / start * 100 = 10.0] and both the metric delta and the
    table cell read exactly ["10.00%"]: two decimals and no plus sign; a fall
    from 110 to 100 reads ["-9.09%"], and no value formatted with [.2f]
    starts with a plus sign. *)
Theorem index_100_110_displays_10_00 :
  (let run := process_index (steady_net (PInt 100) (PInt 110)) (Some "k")
                "AEX" "AEX.INDX" [] s0 in
   last (metric_deltas (snd run)) "" = "10.00%" /\
   index_change_column (fst run) = Ok [PStr "10.00%"]) /\
  (let run := process_index (steady_net (float_lit 100 0) (float_lit 110 0)) (Some "k")
                "AEX" "AEX.INDX" [] s0 in
   last (metric_deltas (snd run)) "" = "10.00%" /\
   index_change_column (fst run) = Ok [PStr "10.00%"]) /\
  percentage_change (PInt 100) (PInt 110) = Ok (float_lit 10 0) /\
  percentage_change (float_lit 100 0) (float_lit 110 0) = Ok (float_lit 10 0) /\
  (let run := process_index (steady_net (PInt 110) (PInt 100)) (Some "k")
                "AEX" "AEX.INDX" [] s0 in
   last (metric_deltas (snd run)) "" = "-9.09%" /\
   index_change_column (fst run) = Ok [PStr "-9.09%"]) /\
  (forall x t rest, py_format_2f false x = Ok t -> t <> String "+" rest).
Proof.
  split; [| split; [| split; [| split; [| split]]]];
    [vm_compute; repeat split .. | exact py_format_2f_no_plus].
Qed.

Lemma index_100_110_displays_10_00_witness :
  py_format_2f false (float_lit 10 0) = Ok "10.00" /\ "10.00" <> "+0.00".
Proof.
  assert (H : py_format_2f false (float_lit 10 0) = Ok "10.00") by (vm_compute; reflexivity).
  split; [exact H |].
  destruct index_100_110_displays_10_00 as (_ & _ & _ & _ & _ & Hsign).
  exact (Hsign (float_lit 10 0) "10.00" "0.00" H).
Defined.

(** C6: for an ETF with start price 50.00, latest price 48.50 and currency
    EUR the change is [latest - start = -1.5] and both the metric delta and the
    table cell read exactly ["-1.50 EUR"]; the sign is explicit, a rise from
    48.50 to 50.00 reads ["+1.50 EUR"], and every value formatted with [+.2f]
    starts with a plus or a minus sign. *)
Theorem etf_50_48_50_displays_minus_1_50_EUR :
  (let run := process_etf (steady_net (float_lit 50 0) (float_lit 97 (-1))) (Some "k")
                "iShares AEX UCITS ETF" "IAEX.AS" "EUR" [] s0 in
   last (metric_deltas (snd run)) "" = "-1.50 EUR" /\
   etf_change_column (fst run) = Ok [PStr "-1.50 EUR"]) /\
  absolute_change (float_lit 50 0) (float_lit 97 (-1)) = Ok (float_lit (-3) (-1)) /\
  (let run := process_etf (steady_net (float_lit 97 (-1)) (float_lit 50 0)) (Some "k")
                "iShares AEX UCITS ETF" "IAEX.AS" "EUR" [] s0 in
   last (metric_deltas (snd run)) "" = "+1.50 EUR" /\
   etf_change_column (fst run) = Ok [PStr "+1.50 EUR"]) /\
  (forall x t, py_format_2f true x = Ok t ->
     exists rest, t = String "+" rest \/ t = String "-" rest).
Proof.
  split; [| split; [| split]];
    [vm_compute; repeat split .. | exact py_format_2f_signed].
Qed.

Lemma etf_50_48_50_displays_minus_1_50_EUR_witness :
  py_format_2f true (float_lit (-3) (-1)) = Ok "-1.50" /\
  exists rest, "-1.50" = String "+" rest \/ "-1.50" = String "-" rest.
Proof.
  assert (H : py_format_2f true (float_lit (-3) (-1)) = Ok "-1.50")
    by (vm_compute; reflexivity).
  split; [exact H |].
  destruct etf_50_48_50_displays_minus_1_50_EUR as (_ & _ & _ & Hsign).
  exact (Hsign (float_lit (-3) (-1)) "-1.50" H).
Defined.

(** ** What a fetch hands to the comparison *)

Lemma has_close_fetched q : has_close q = Ok true -> fetched q.
Proof.
  intro H. destruct (has_close_true _ H) as (d & c & -> & Hd & _). right. eauto.
Qed.

(** Whatever [get_latest_trading_day_data] returns is [None] or a record. *)
Lemma get_latest_fetched net key symbol s v :
  fst (get_latest_trading_day_data net key symbol s) = Ok v -> fetched v.
Proof.
  rewrite get_latest_run. unfold latest_conclusion.
  destruct (net (sent s) (latest_request key symbol)) as [| c b].
  { simpl. intro H. inversion H. left. reflexivity. }
  destruct (c =? 404).
  - destruct (net _ (fallback_request key symbol)) as [| c' b'].
    { simpl. intro H. inversion H. left. reflexivity. }
    destruct (latest_record (c', b')) as [[q |] | e] eqn:Hrec; simpl; intro H;
      inversion H; subst; try (left; reflexivity).
    apply has_close_fetched. apply (latest_record_found _ _ Hrec).
  - destruct (latest_record (c, b)) as [[q |] | e] eqn:Hrec; simpl; intro H;
      inversion H; subst; try (left; reflexivity).
    apply has_close_fetched. apply (latest_record_found _ _ Hrec).
Qed.

(** Whatever [get_closest_trading_day_data] returns is [None] or a record. *)
Lemma get_closest_fetched net key symbol t s v :
  fst (get_closest_trading_day_data net key symbol t s) = Ok v -> fetched v.
Proof.
  destruct (fromisoformat t) as [d | e] eqn:Ht.
  - rewrite (get_closest_unfold _ _ _ _ _ _ Ht).
    set (s1 := with_io s [] _).
    destruct (closest_loop_walk net key symbol t d range5
                [("access_key", py_of_env key); ("symbols", PStr symbol)] s1)
      as (k & els & Hw & _); [left; reflexivity |].
    intro Hv. destruct v; try (left; reflexivity);
      (destruct (walk_found_last _ _ _ _ _ _ _ _ _ Hw Hv ltac:(discriminate))
         as (j & i & _ & _ & Hver);
       unfold attempt_verdict in Hver;
       match type of Hver with
       | context [response_of ?r] => destruct (response_of r) as [api_result |]
       end; [| discriminate];
       apply has_close_fetched; apply (closest_record_found _ _ _ Hver)).
  - intro Hv. rewrite (proj1 (get_closest_bad_date net key symbol t e s Ht)) in Hv.
    discriminate.
Qed.

(** * Further properties *)

(** ** The latest quote: when the fallback is used *)

Lemma status_ok_passes c b : status_ok c -> raise_for_status (c, b) = Ok tt.
Proof.
  unfold status_ok, raise_for_status. intro H. cbn [fst].
  destruct ((400 <=? c) && (c <? 600)) eqn:E; [| reflexivity].
  exfalso. apply H. lia.
Qed.

Lemma error_status_raises c b : 400 <= c < 600 -> latest_record (c, b) = Raise RequestException.
Proof.
  intro H. unfold latest_record, raise_for_status. cbn [fst].
  replace ((400 <=? c) && (c <? 600)) with true by lia. reflexivity.
Qed.

(** The requests of [get_latest_trading_day_data]: the primary one, then the
    fallback when the primary reply is a 404. *)
Lemma get_latest_sent net key symbol s :
  sent (snd (get_latest_trading_day_data net key symbol s))
    = sent s ++ latest_request key symbol ::
        (if is_not_found (net (sent s) (latest_request key symbol))
         then [fallback_request key symbol] else []).
Proof.
  rewrite get_latest_run.
  destruct (net (sent s) (latest_request key symbol)) as [| c b]; [reflexivity |].
  cbn [is_not_found]. destruct (c =? 404).
  - destruct (net _ (fallback_request key symbol)) as [| c' b']; [reflexivity |].
    apply latest_conclusion_sent.
  - apply latest_conclusion_sent.
Qed.

(** X1: [get_latest_trading_day_data] sends the [eod/latest] request and,
    exactly when the reply to it has status 404, one [eod] request after it;
    it never sends more than two.  Any other error status (403, 429, 500,
    ...) is not retried: the function returns [None] after that single
    request, under the 'API Fout (recent)' warning. *)
Theorem latest_retries_only_on_404 :
  forall (net : upstream) (API_KEY : option string) (symbol : string) (s : state),
    let run := get_latest_trading_day_data net API_KEY symbol s in
    let primary := net (sent s) (latest_request API_KEY symbol) in
    sent (snd run)
      = sent s ++ latest_request API_KEY symbol ::
          (if is_not_found primary then [fallback_request API_KEY symbol] else []) /\
    (List.length (sent (snd run)) <= List.length (sent s) + 2)%nat /\
    (forall c b,
        primary = Response c b -> 400 <= c < 600 -> c <> 404 ->
        run = (Ok PNone,
               with_io s [latest_request API_KEY symbol]
                 [latest_spinner symbol; latest_warning symbol RequestException])).
Proof.
  intros net key symbol s run primary.
  assert (Hsent : sent (snd run)
      = sent s ++ latest_request key symbol ::
          (if is_not_found primary then [fallback_request key symbol] else []))
    by apply get_latest_sent.
  split; [exact Hsent |]. split.
  - rewrite Hsent, length_app. destruct (is_not_found primary); simpl; lia.
  - intros c b Hp Hc H404. subst run primary. rewrite get_latest_run, Hp.
    replace (c =? 404) with false by lia.
    unfold latest_conclusion. rewrite (error_status_raises c b Hc). reflexivity.
Qed.

Lemma latest_retries_only_on_404_witness :
  status_net 500 (sent s0) (latest_request (Some "k") "AEX.INDX") = Response 500 None /\
  400 <= 500 < 600 /\ 500 <> 404 /\
  get_latest_trading_day_data (status_net 500) (Some "k") "AEX.INDX" s0
    = (Ok PNone,
       with_io s0 [latest_request (Some "k") "AEX.INDX"]
         [latest_spinner "AEX.INDX"; latest_warning "AEX.INDX" RequestException]).
Proof.
  assert (H1 : status_net 500 (sent s0) (latest_request (Some "k") "AEX.INDX")
               = Response 500 None) by reflexivity.
  assert (H2 : 400 <= 500 < 600) by lia.
  assert (H3 : 500 <> 404) by lia.
  split; [exact H1 |]. split; [exact H2 |]. split; [exact H3 |].
  destruct (latest_retries_only_on_404 (status_net 500) (Some "k") "AEX.INDX" s0)
    as (_ & _ & H).
  exact (H 500 None H1 H2 H3).
Defined.

(** ** The latest quote: what is done with the record's date *)

Lemma has_data_first d r rest :
  dict_get d "data" = Some (PList (r :: rest)) ->
  has_data (PDict d) = Ok true /\
  py_getitem_str (PDict d) "data" = Ok (PList (r :: rest)).
Proof.
  intro H. unfold has_data, py_get, py_get_default, py_getitem_str.
  rewrite H. cbn [obind truthy py_len]. split; [| reflexivity].
  f_equal.
Qed.

Lemma has_close_priced r cl :
  dict_get r "close" = Some cl -> cl <> PNone -> has_close (PDict r) = Ok true.
Proof.
  intros H Hne. unfold has_close, py_get, py_get_default.
  destruct r as [| kv r]; [discriminate H |].
  cbn [truthy]. rewrite H. cbn [obind]. destruct cl; congruence || reflexivity.
Qed.

(** What [data.get("date", "")[:10]] comes to, by the kind of value under
    ["date"]. *)
Lemma date_prefix_by_kind r :
  date_prefix (PDict r) =
    match dict_get r "date" with
    | None => Ok (PStr "")
    | Some (PStr t) => Ok (PStr (string_firstn 10 t))
    | Some (PList l) => Ok (PList (firstn 10 l))
    | Some (PDict _) => Raise KeyError
    | Some _ => Raise TypeError
    end.
Proof.
  unfold date_prefix, py_get_default. cbn [obind].
  destruct (dict_get r "date") as [[| b | z | f | t | l | x] |]; reflexivity.
Qed.

(** X2: [get_latest_trading_day_data] slices the record's date but never
    compares it: a first record with a close that is not [None] is returned
    as it is whatever string its ["date"] holds, and also when it has no
    ["date"] at all.  A ["date"] that cannot be sliced voids the record: with
    JSON [null], a boolean or a number there, the function returns [None]
    under the 'Verwerkingsfout (recent)' warning of a [TypeError]; with an
    object there it returns [None] as well. *)
Theorem latest_slices_the_date_without_comparing :
  forall (net : upstream) (API_KEY : option string) (symbol : string) (s : state)
         (c : Z) (d r : pydict) (rest : list pyval) (cl : pyval),
    net (sent s) (latest_request API_KEY symbol) = Response c (Some (PDict d)) ->
    status_ok c ->
    dict_get d "data" = Some (PList (PDict r :: rest)) ->
    dict_get r "close" = Some cl -> cl <> PNone ->
    let run := get_latest_trading_day_data net API_KEY symbol s in
    match dict_get r "date" with
    | None | Some (PStr _) | Some (PList _) =>
        run = (Ok (PDict r),
               with_io s [latest_request API_KEY symbol] [latest_spinner symbol])
    | Some (PDict _) => fst run = Ok PNone
    | Some _ =>
        run = (Ok PNone,
               with_io s [latest_request API_KEY symbol]
                 [latest_spinner symbol;
                  StWarning ("Verwerkingsfout (recent) voor " ++ symbol ++ ": ")%string
                    (Some TypeError)])
    end.
Proof.
  intros net key symbol s c d r rest cl Hnet Hc Hd Hcl Hne run.
  assert (Hrun : run = latest_conclusion symbol s [latest_request key symbol]
                         (c, Some (PDict d))).
  { subst run. rewrite get_latest_run, Hnet.
    replace (c =? 404) with false by (unfold status_ok in Hc; lia). reflexivity. }
  assert (Hrec : latest_record (c, Some (PDict d))
                 = let? _ := date_prefix (PDict r) in Ok (Some (PDict r))).
  { unfold latest_record. rewrite (status_ok_passes c _ Hc). cbn [obind json snd].
    destruct (has_data_first d (PDict r) rest Hd) as [-> ->].
    cbn [obind py_getitem_0]. rewrite (has_close_priced r cl Hcl Hne). reflexivity. }
  rewrite Hrun. unfold latest_conclusion. rewrite Hrec.
  rewrite date_prefix_by_kind.
  destruct (dict_get r "date") as [[| b | z | f | t | l | x] |]; reflexivity.
Qed.

Lemma latest_slices_the_date_without_comparing_witness :
  fst (get_latest_trading_day_data
         (constant_net (PDict [("data", PList [PDict [("close", PInt 110); ("date", PNone)]])]))
         (Some "k") "AEX.INDX" s0) = Ok PNone /\
  fst (get_latest_trading_day_data
         (constant_net (PDict [("data", PList [PDict [("close", PInt 110);
                                                    ("date", PStr "1999-12-31")]])]))
         (Some "k") "AEX.INDX" s0)
    = Ok (PDict [("close", PInt 110); ("date", PStr "1999-12-31")]).
Proof.
  split.
  - pose proof (latest_slices_the_date_without_comparing
                  (constant_net (PDict [("data", PList [PDict [("close", PInt 110);
                                                              ("date", PNone)]])]))
                  (Some "k") "AEX.INDX" s0 200
                  [("data", PList [PDict [("close", PInt 110); ("date", PNone)]])]
                  [("close", PInt 110); ("date", PNone)] [] (PInt 110)
                  eq_refl ltac:(unfold status_ok; lia) eq_refl eq_refl
                  ltac:(discriminate)) as H.
    cbv zeta in H. cbn [dict_get String.eqb Ascii.eqb Bool.eqb] in H.
    rewrite H. reflexivity.
  - pose proof (latest_slices_the_date_without_comparing
                  (constant_net (PDict [("data", PList [PDict [("close", PInt 110);
                                                              ("date", PStr "1999-12-31")]])]))
                  (Some "k") "AEX.INDX" s0 200
                  [("data", PList [PDict [("close", PInt 110); ("date", PStr "1999-12-31")]])]
                  [("close", PInt 110); ("date", PStr "1999-12-31")] [] (PInt 110)
                  eq_refl ltac:(unfold status_ok; lia) eq_refl eq_refl
                  ltac:(discriminate)) as H.
    cbv zeta in H. cbn [dict_get String.eqb Ascii.eqb Bool.eqb] in H.
    rewrite H. reflexivity.
Defined.

(** ** The walk-back returns the nearest day that has a record *)

Section WalkOrder.

Variable net : upstream.
Variable API_KEY : option string.
Variable symbol : string.
Variable d : date.

Let req := closest_request API_KEY symbol d.

(** Every attempt but the last one fell through. *)
Lemma walk_before_last hist range k r j i :
  walk net API_KEY symbol d hist range k r ->
  (S j < k)%nat -> nth_error range j = Some i ->
  attempt_verdict (net (hist ++ map req (firstn j range)) (req i)) (candidate_day d i)
    = Ok None.
Proof.
  unfold req. intro Hw. revert j.
  induction Hw as [hist | hist i0 range Hd | hist i0 range q' Hd Hv | hist i0 range e0 Hd Hv
                  | hist i0 range k r Hd Hv Hw IH]; intros j Hj Hn; try lia.
  destruct j as [| j].
  - simpl in Hn. inversion Hn; subst. simpl. rewrite app_nil_r. exact Hv.
  - simpl in Hn. simpl. rewrite app_cons_last. apply IH; [lia | exact Hn].
Qed.

(** The first attempt that finds a record, after misses only, ends the loop
    with that record. *)
Lemma walk_finds hist range k r :
  walk net API_KEY symbol d hist range k r ->
  forall j i q,
    nth_error range j = Some i ->
    (forall j' i', (j' < j)%nat -> nth_error range j' = Some i' ->
       attempt_verdict (net (hist ++ map req (firstn j' range)) (req i')) (candidate_day d i')
         = Ok None) ->
    (forall j' i', (j' <= j)%nat -> nth_error range j' = Some i' ->
       date_sub_days d i' = Ok (ord2ymd (toordinal d - i'))) ->
    attempt_verdict (net (hist ++ map req (firstn j range)) (req i)) (candidate_day d i)
      = Ok (Some q) ->
    k = S j /\ r = Ok q.
Proof.
  unfold req.
  induction 1 as [hist | hist i0 range Hd | hist i0 range q' Hd Hv | hist i0 range e0 Hd Hv
                 | hist i0 range k r Hd Hv Hw IH]; intros j i q Hn Hmiss Hdays Hfound.
  - destruct j; discriminate Hn.
  - pose proof (Hdays 0%nat i0 ltac:(lia) eq_refl) as Hd'. congruence.
  - destruct j as [| j].
    + simpl in Hn, Hfound. inversion Hn; subst. rewrite app_nil_r in Hfound.
      split; [reflexivity | congruence].
    + pose proof (Hmiss 0%nat i0 ltac:(lia) eq_refl) as Hm. simpl in Hm.
      rewrite app_nil_r in Hm. congruence.
  - destruct j as [| j].
    + simpl in Hn, Hfound. inversion Hn; subst. rewrite app_nil_r in Hfound. congruence.
    + pose proof (Hmiss 0%nat i0 ltac:(lia) eq_refl) as Hm. simpl in Hm.
      rewrite app_nil_r in Hm. congruence.
  - destruct j as [| j].
    + simpl in Hn, Hfound. inversion Hn; subst. rewrite app_nil_r in Hfound. congruence.
    + simpl in Hn, Hfound. rewrite app_cons_last in Hfound.
      destruct (IH j i q Hn) as [-> ->]; [| | exact Hfound | auto].
      * intros j' i' Hj' Hn'.
        pose proof (Hmiss (S j') i' ltac:(lia) Hn') as Hm. simpl in Hm.
        rewrite app_cons_last in Hm. exact Hm.
      * intros j' i' Hj' Hn'. apply (Hdays (S j') i'); [lia | exact Hn'].
Qed.

End WalkOrder.

(** X3: [get_closest_trading_day_data] returns the record of the nearest day
    on or before the target that has one.  It moves on to an earlier day only
    after a reply without a matching record; whatever record it returns, every
    nearer day was asked and had none; and when day [j] (of the five) is the
    first whose reply holds a matching record, that record is the result and
    no earlier day is asked. *)
Theorem closest_returns_the_nearest_day :
  forall (net : upstream) (API_KEY : option string) (symbol target_date_str : string)
         (s : state) (d : date),
    fromisoformat target_date_str = Ok d ->
    let run := get_closest_trading_day_data net API_KEY symbol target_date_str s in
    let reqs := map (closest_request API_KEY symbol d) range5 in
    let verdict j :=
      attempt_verdict
        (net (sent s ++ firstn j reqs) (closest_request API_KEY symbol d (Z.of_nat j)))
        (candidate_day d (Z.of_nat j)) in
    exists k,
      (k <= 5)%nat /\
      sent (snd run) = sent s ++ firstn k reqs /\
      (forall j, (S j < k)%nat -> verdict j = Ok None) /\
      (forall q, fst run = Ok q -> q <> PNone ->
         exists j, k = S j /\ verdict j = Ok (Some q) /\
                   forall i, (i < j)%nat -> verdict i = Ok None) /\
      (forall j q,
         (j < 5)%nat ->
         (forall i, (i < j)%nat -> verdict i = Ok None) ->
         (forall i, (i <= j)%nat ->
            date_sub_days d (Z.of_nat i) = Ok (ord2ymd (toordinal d - Z.of_nat i))) ->
         verdict j = Ok (Some q) ->
         k = S j /\ fst run = Ok q).
Proof.
  intros net key symbol t s d Ht run reqs verdict.
  subst run. rewrite (get_closest_unfold _ _ _ _ _ _ Ht).
  set (s1 := with_io s [] _).
  destruct (closest_loop_walk net key symbol t d range5
              [("access_key", py_of_env key); ("symbols", PStr symbol)] s1)
    as (k & els & Hw & Hs); [left; reflexivity |].
  assert (Hsent : sent s1 = sent s) by (subst s1; simpl; apply app_nil_r).
  rewrite Hsent in Hw.
  pose proof (walk_length _ _ _ _ _ _ _ _ Hw) as Hk. simpl in Hk.
  assert (Hhist : forall j,
             sent s ++ map (closest_request key symbol d) (firstn j range5)
             = sent s ++ firstn j reqs).
  { intro j. subst reqs. rewrite firstn_map. reflexivity. }
  assert (Hbefore : forall j, (S j < k)%nat -> verdict j = Ok None).
  { intros j Hj. subst verdict. cbv beta. rewrite <- Hhist.
    apply (walk_before_last _ _ _ _ _ _ _ _ j (Z.of_nat j) Hw Hj).
    apply range5_nth_of. lia. }
  exists k. split; [exact Hk |]. split.
  { rewrite Hs. simpl. rewrite app_nil_r. subst reqs. rewrite firstn_map. reflexivity. }
  split; [exact Hbefore |]. split.
  - intros q Hq Hne.
    destruct (walk_found_last _ _ _ _ _ _ _ _ _ Hw Hq Hne) as (j & i & Hkj & Hn & Hv).
    apply range5_nth in Hn. destruct Hn as [-> Hj].
    rewrite Hhist in Hv. exists j. split; [exact Hkj |]. split; [exact Hv |].
    intros i Hi. apply Hbefore. lia.
  - intros j q Hj Hmiss Hdays Hfound.
    apply (walk_finds _ _ _ _ _ _ _ _ Hw j (Z.of_nat j) q).
    + apply range5_nth_of. exact Hj.
    + intros j' i' Hj' Hn'. apply range5_nth in Hn'. destruct Hn' as [-> _].
      rewrite Hhist. apply Hmiss. exact Hj'.
    + intros j' i' Hj' Hn'. apply range5_nth in Hn'. destruct Hn' as [-> _].
      apply Hdays. exact Hj'.
    + rewrite Hhist. exact Hfound.
Qed.

Lemma closest_returns_the_nearest_day_witness :
  fromisoformat START_DATE_STR = Ok (mkdate 2024 3 12) /\
  exists k,
    (k <= 5)%nat /\
    sent (snd (get_closest_trading_day_data (sparse_net "2024-03-10" (PInt 100) (PInt 110))
                 (Some "k") "AEX.INDX" START_DATE_STR s0))
    = sent s0 ++ firstn k (map (closest_request (Some "k") "AEX.INDX" (mkdate 2024 3 12))
                             range5) /\
    forall j, (S j < k)%nat ->
      attempt_verdict
        (sparse_net "2024-03-10" (PInt 100) (PInt 110)
           (sent s0 ++ firstn j (map (closest_request (Some "k") "AEX.INDX" (mkdate 2024 3 12))
                                   range5))
           (closest_request (Some "k") "AEX.INDX" (mkdate 2024 3 12) (Z.of_nat j)))
        (candidate_day (mkdate 2024 3 12) (Z.of_nat j)) = Ok None.
Proof.
  assert (H : fromisoformat START_DATE_STR = Ok (mkdate 2024 3 12)) by reflexivity.
  split; [exact H |].
  destruct (closest_returns_the_nearest_day
              (sparse_net "2024-03-10" (PInt 100) (PInt 110)) (Some "k") "AEX.INDX"
              START_DATE_STR s0 (mkdate 2024 3 12) H) as (k & Hk & Hs & Hb & _).
  exists k. split; [exact Hk |]. split; [exact Hs | exact Hb].
Defined.

(** ** One attempt: replies that let the loop go on, replies that end it *)

Lemma closest_record_first c d r rest current :
  status_ok c ->
  dict_get d "data" = Some (PList (r :: rest)) ->
  closest_record (c, Some (PDict d)) current =
    (let? priced := has_close r in
     if priced : bool then
       let? retrieved_date_str := date_prefix r in
       if py_eq_str retrieved_date_str current then Ok (Some r) else Ok None
     else Ok None).
Proof.
  intros Hc Hd. unfold closest_record. rewrite (status_ok_passes c _ Hc).
  cbn [obind json snd].
  destruct (has_data_first d r rest Hd) as [-> ->]. reflexivity.
Qed.

(** X4: what one attempt of the walk-back does with a reply that arrived with
    a good status and a JSON body.  The loop goes on to the previous day,
    silently, when the body is an object whose ["data"] is missing or empty,
    when the first record is [null] or empty, when its close is missing or
    [null], and when its date is not the day asked for.  The function gives
    up, with the 'Verwerkingsfout' warning and [None], when the body is not an
    object or the first record is a non-empty value other than an object. *)
Theorem closest_attempt_by_reply_shape :
  forall (net : upstream) (symbol current : string) (ps : pydict) (s : state)
         (c : Z) (body : pyval),
    let r := mkrequest (BASE_URL ++ "eod")%string ps in
    let goes_on := closest_attempt net symbol current ps s = (Ok None, with_io s [r] []) in
    let gives_up e :=
      closest_attempt net symbol current ps s
        = (Ok (Some PNone),
           with_io s [r]
             [StWarning ("Verwerkingsfout voor " ++ symbol ++ ": ")%string (Some e)]) in
    net (sent s) r = Response c (Some body) ->
    status_ok c ->
    (forall d, body = PDict d ->
       (dict_get d "data" = None \/
        exists v, dict_get d "data" = Some v /\ truthy v = false) ->
       goes_on) /\
    (forall d first rest,
       body = PDict d -> dict_get d "data" = Some (PList (first :: rest)) ->
       truthy first = false -> goes_on) /\
    (forall d record rest,
       body = PDict d -> dict_get d "data" = Some (PList (PDict record :: rest)) ->
       (dict_get record "close" = None \/ dict_get record "close" = Some PNone) ->
       goes_on) /\
    (forall d record rest day,
       body = PDict d -> dict_get d "data" = Some (PList (PDict record :: rest)) ->
       date_prefix (PDict record) = Ok day -> py_eq_str day current = false ->
       goes_on) /\
    ((forall d, body <> PDict d) -> gives_up AttributeError) /\
    (forall d first rest,
       body = PDict d -> dict_get d "data" = Some (PList (first :: rest)) ->
       truthy first = true -> (forall record, first <> PDict record) ->
       gives_up AttributeError).
Proof.
  intros net symbol current ps s c body r goes_on gives_up Hnet Hc.
  assert (Hrun : forall v,
             closest_record (c, Some body) current = Ok v ->
             closest_attempt net symbol current ps s = (Ok v, with_io s [r] [])).
  { intros v Hv. rewrite closest_attempt_run. unfold attempt_verdict. fold r.
    rewrite Hnet. cbn [response_of]. rewrite Hv. reflexivity. }
  assert (Hstop : closest_record (c, Some body) current = Raise AttributeError ->
                  gives_up AttributeError).
  { intro Hv. subst gives_up. cbv beta. rewrite closest_attempt_run.
    unfold attempt_verdict. fold r. rewrite Hnet. cbn [response_of]. rewrite Hv.
    reflexivity. }
  subst goes_on. repeat apply conj.
  - intros d -> Hd. apply Hrun.
    unfold closest_record. rewrite (status_ok_passes c _ Hc). cbn [obind json snd].
    unfold has_data, py_get, py_get_default.
    destruct Hd as [-> | (v & -> & Hv)]; cbn [obind truthy]; [| rewrite Hv]; reflexivity.
  - intros d first rest -> Hd Hf. apply Hrun.
    rewrite (closest_record_first c d first rest current Hc Hd).
    unfold has_close. rewrite Hf. reflexivity.
  - intros d record rest -> Hd Hcl. apply Hrun.
    rewrite (closest_record_first c d (PDict record) rest current Hc Hd).
    unfold has_close, py_get, py_get_default.
    destruct record as [| kv record]; [reflexivity |]. cbn [truthy].
    destruct Hcl as [-> | ->]; reflexivity.
  - intros d record rest day -> Hd Hday Hne. apply Hrun.
    rewrite (closest_record_first c d (PDict record) rest current Hc Hd).
    destruct (has_close (PDict record)) as [[|] | e] eqn:Hp.
    + cbn [obind]. rewrite Hday. cbn [obind]. rewrite Hne. reflexivity.
    + reflexivity.
    + unfold has_close, py_get, py_get_default in Hp.
      destruct record; discriminate Hp.
  - intro Hb. apply Hstop.
    unfold closest_record. rewrite (status_ok_passes c _ Hc). cbn [obind json snd].
    unfold has_data, py_get, py_get_default.
    destruct body; try reflexivity. exfalso. eapply Hb. reflexivity.
  - intros d first rest -> Hd Hf Hn. apply Hstop.
    rewrite (closest_record_first c d first rest current Hc Hd).
    unfold has_close. rewrite Hf. unfold py_get, py_get_default.
    destruct first; try reflexivity. exfalso. eapply Hn. reflexivity.
Qed.

Lemma closest_attempt_by_reply_shape_witness :
  constant_net (PList []) (sent s0)
    (mkrequest (BASE_URL ++ "eod")%string (closest_params (Some "k") "AEX.INDX" "2024-03-12"))
    = Response 200 (Some (PList [])) /\
  status_ok 200 /\
  closest_attempt (constant_net (PList [])) "AEX.INDX" "2024-03-12"
    (closest_params (Some "k") "AEX.INDX" "2024-03-12") s0
  = (Ok (Some PNone),
     with_io s0
       [mkrequest (BASE_URL ++ "eod")%string
          (closest_params (Some "k") "AEX.INDX" "2024-03-12")]
       [StWarning ("Verwerkingsfout voor " ++ "AEX.INDX" ++ ": ")%string
          (Some AttributeError)]).
Proof.
  assert (H1 : constant_net (PList []) (sent s0)
                 (mkrequest (BASE_URL ++ "eod")%string
                    (closest_params (Some "k") "AEX.INDX" "2024-03-12"))
               = Response 200 (Some (PList []))) by reflexivity.
  assert (H2 : status_ok 200) by (unfold status_ok; lia).
  split; [exact H1 |]. split; [exact H2 |].
  destruct (closest_attempt_by_reply_shape (constant_net (PList [])) "AEX.INDX" "2024-03-12"
              (closest_params (Some "k") "AEX.INDX" "2024-03-12") s0 200 (PList []) H1 H2)
    as (_ & _ & _ & _ & H & _).
  apply H. intros d Hd. discriminate Hd.
Defined.

(** ** A warning exactly when the result is [None] *)

Lemma found_is_not_none api_result current q :
  closest_record api_result current = Ok (Some q) -> is_none q = false.
Proof.
  intro H. apply closest_record_found in H. destruct H as (_ & _ & Hc & _).
  apply has_close_true in Hc. destruct Hc as (d & c & -> & _). reflexivity.
Qed.

Lemma latest_found_is_not_none api_result q :
  latest_record api_result = Ok (Some q) -> is_none q = false.
Proof.
  intro H. apply latest_record_found in H. destruct H as (_ & _ & Hc & _).
  apply has_close_true in Hc. destruct Hc as (d & c & -> & _). reflexivity.
Qed.

Lemma closest_loop_warned net key symbol t d range :
  forall ps s,
    params_ready key symbol ps ->
    exists shown,
      elements (snd (closest_loop net symbol t d ps range s)) = elements s ++ shown /\
      match fst (closest_loop net symbol t d ps range s) with
      | Ok v => warned v shown
      | Raise _ => shown = []
      end.
Proof.
  induction range as [| i range IH]; intros ps s Hps.
  - eexists. split; [cbn; reflexivity |]. cbn. unfold warned. cbn. eauto.
  - rewrite closest_loop_cons.
    destruct (date_sub_days_cases d i) as [Hd | Hd]; rewrite Hd.
    + cbv zeta. rewrite (params_ready_set _ _ _ _ Hps).
      rewrite closest_attempt_run. unfold attempt_verdict.
      destruct (response_of _) as [api_result |].
      * destruct (closest_record api_result _) as [[q |] | e] eqn:Hv.
        -- exists []. split; [cbn [snd with_io elements]; reflexivity |].
           cbn [fst]. unfold warned. rewrite (found_is_not_none _ _ _ Hv). reflexivity.
        -- destruct (IH (closest_params key symbol (isoformat (ord2ymd (toordinal d - i))))
                       (with_io s [mkrequest (BASE_URL ++ "eod")%string
                                     (closest_params key symbol
                                        (isoformat (ord2ymd (toordinal d - i))))] []))
             as (shown & He & Hw).
           { right. eexists. reflexivity. }
           exists shown. split; [| exact Hw].
           rewrite He. cbn [with_io elements]. rewrite app_nil_r. reflexivity.
        -- eexists. split; [cbn [snd with_io elements]; reflexivity |].
           cbn [fst]. unfold warned. cbn [is_none]. destruct e; cbn; eauto.
      * eexists. split; [cbn [snd with_io elements]; reflexivity |].
        cbn [fst]. unfold warned. cbn. eauto.
    + exists []. split; [cbn [snd]; rewrite app_nil_r; reflexivity | reflexivity].
Qed.

(** X5: both fetch functions show exactly one warning when they return
    [None] and none when they return a record; besides the warning they show
    their spinner and nothing else. *)
Theorem none_comes_with_one_warning :
  forall (net : upstream) (API_KEY : option string) (symbol : string) (s : state),
    (let run := get_latest_trading_day_data net API_KEY symbol s in
     exists v shown,
       fst run = Ok v /\
       elements (snd run) = elements s ++ latest_spinner symbol :: shown /\
       warned v shown) /\
    (forall target_date_str d,
       fromisoformat target_date_str = Ok d ->
       let run := get_closest_trading_day_data net API_KEY symbol target_date_str s in
       exists shown,
         elements (snd run)
           = elements s ++ closest_spinner symbol target_date_str :: shown /\
         match fst run with
         | Ok v => warned v shown
         | Raise _ => shown = []
         end).
Proof.
  intros net key symbol s. split.
  - cbv zeta. rewrite get_latest_run.
    assert (Hc : forall reqs api_result,
               exists v shown,
                 fst (latest_conclusion symbol s reqs api_result) = Ok v /\
                 elements (snd (latest_conclusion symbol s reqs api_result))
                   = elements s ++ latest_spinner symbol :: shown /\
                 warned v shown).
    { intros reqs api_result. unfold latest_conclusion.
      destruct (latest_record api_result) as [[q |] | e] eqn:Hr.
      - exists q, []. repeat split. unfold warned.
        rewrite (latest_found_is_not_none _ _ Hr). reflexivity.
      - eexists PNone, _. repeat split. unfold warned. cbn. eauto.
      - eexists PNone, _. repeat split. unfold warned. cbn. destruct e; cbn; eauto. }
    destruct (net (sent s) (latest_request key symbol)) as [| c b].
    + eexists PNone, _. repeat split. unfold warned. cbn. eauto.
    + destruct (c =? 404); [| apply Hc].
      destruct (net _ (fallback_request key symbol)) as [| c' b']; [| apply Hc].
      eexists PNone, _. repeat split. unfold warned. cbn. eauto.
  - intros t d Ht run. subst run. rewrite (get_closest_unfold _ _ _ _ _ _ Ht).
    destruct (closest_loop_warned net key symbol t d range5
                [("access_key", py_of_env key); ("symbols", PStr symbol)]
                (with_io s [] [closest_spinner symbol t])) as (shown & He & Hw).
    { left. reflexivity. }
    exists shown. unfold closest_spinner in *. split; [| exact Hw].
    rewrite He. cbn [with_io elements]. rewrite <- app_assoc. reflexivity.
Qed.

Lemma none_comes_with_one_warning_witness :
  fromisoformat START_DATE_STR = Ok (mkdate 2024 3 12) /\
  exists shown,
    elements (snd (get_closest_trading_day_data dead_net (Some "k") "AEX.INDX"
                     START_DATE_STR s0))
      = elements s0 ++ closest_spinner "AEX.INDX" START_DATE_STR :: shown /\
    List.length shown = 1%nat.
Proof.
  assert (H : fromisoformat START_DATE_STR = Ok (mkdate 2024 3 12)) by reflexivity.
  split; [exact H |].
  destruct (none_comes_with_one_warning dead_net (Some "k") "AEX.INDX" s0) as (_ & Hc).
  destruct (Hc START_DATE_STR (mkdate 2024 3 12) H) as (shown & He & Hw).
  exists shown. split; [exact He |].
  assert (Hr : fst (get_closest_trading_day_data dead_net (Some "k") "AEX.INDX"
                      START_DATE_STR s0) = Ok PNone) by (vm_compute; reflexivity).
  rewrite Hr in Hw. unfold warned in Hw. cbn [is_none] in Hw.
  destruct Hw as (body & e & ->). reflexivity.
Defined.

(** ** What a comparison can raise *)

Lemma py_truediv_raises a b e :
  py_truediv a b = Raise e -> e = ZeroDivisionError \/ price_error e.
Proof.
  unfold py_truediv, price_error.
  destruct (as_number a) as [[x | fx] |], (as_number b) as [[y | fy] |];
    try (intro H; inversion H; auto; fail); cbn [to_float obind].
  - destruct (y =? 0); [intro H; inversion H; auto |].
    destruct (_ <? _); intro H; inversion H; auto.
  - unfold float_of_int. destruct (_ <? _); cbn [obind].
    + destruct (number_is_zero _); intro H; inversion H; auto.
    + intro H; inversion H; auto.
  - unfold float_of_int. destruct (_ <? _); cbn [obind].
    + destruct (number_is_zero _); intro H; inversion H; auto.
    + intro H; inversion H; auto.
  - destruct (number_is_zero _); intro H; inversion H; auto.
Qed.

Lemma py_sub_numbers a b v :
  py_sub a b = Ok v ->
  (exists x, as_number a = Some x) /\ (exists y, as_number b = Some y) /\
  exists n, as_number v = Some n.
Proof.
  unfold py_sub.
  destruct (as_number a) as [[x | fx] |], (as_number b) as [[y | fy] |];
    try discriminate; intro H.
  - inversion H. cbn. repeat split; eauto.
  - repeat obind_inv H. inversion H. cbn. repeat split; eauto.
  - repeat obind_inv H. inversion H. cbn. repeat split; eauto.
  - repeat obind_inv H. inversion H. cbn. repeat split; eauto.
Qed.

Lemma py_mul_number a b v : py_mul a b = Ok v -> exists n, as_number v = Some n.
Proof.
  unfold py_mul.
  destruct (as_number a) as [[x | fx] |], (as_number b) as [[y | fy] |];
    try discriminate; intro H.
  - inversion H. cbn. repeat split; eauto.
  - repeat obind_inv H. inversion H. cbn. repeat split; eauto.
  - repeat obind_inv H. inversion H. cbn. repeat split; eauto.
  - repeat obind_inv H. inversion H. cbn. repeat split; eauto.
Qed.

Lemma py_format_2f_number_raises plus x n e :
  as_number x = Some n -> py_format_2f plus x = Raise e -> e = OverflowError.
Proof.
  destruct x as [ | b | z | f | | | ]; cbn [as_number py_format_2f]; try discriminate;
    intros _ H.
  - obind_inv H; [apply to_float_raises in H; exact H | discriminate].
  - obind_inv H; [apply to_float_raises in H; exact H | discriminate].
Qed.

Lemma percentage_change_raises start_price latest_price e :
  truthy start_price = true ->
  percentage_change start_price latest_price = Raise e -> price_error e.
Proof.
  intros Ht H. unfold percentage_change in H.
  obind_inv H; [apply py_sub_raises in H; exact H |].
  obind_inv H.
  - pose proof H as Hz. apply py_truediv_raises in H. destruct H as [-> | H]; [| exact H].
    apply py_truediv_zero_division in Hz. apply zero_not_truthy in Hz. congruence.
  - apply py_mul_raises in H. exact H.
Qed.

Lemma py_truediv_float a b q : py_truediv a b = Ok q -> exists g, q = PFloat g.
Proof.
  unfold py_truediv.
  destruct (as_number a) as [[x | fx] |], (as_number b) as [[y | fy] |];
    try discriminate; intro H.
  - repeat split_if H. inversion H. eauto.
  - repeat obind_inv H. split_if H. inversion H. eauto.
  - repeat obind_inv H. split_if H. inversion H. eauto.
  - repeat obind_inv H. split_if H. inversion H. eauto.
Qed.

(** A percentage change that is computed is a float, and the latest price
    that went into it a number. *)
Lemma percentage_change_numbers start_price latest_price change :
  percentage_change start_price latest_price = Ok change ->
  (exists n, as_number latest_price = Some n) /\ exists f, change = PFloat f.
Proof.
  unfold percentage_change. intro H.
  destruct (py_sub latest_price start_price) as [diff |] eqn:Hd; [| discriminate H].
  destruct (py_sub_numbers _ _ _ Hd) as (Hl & _ & _). split; [exact Hl |].
  cbn [obind] in H.
  destruct (py_truediv diff start_price) as [q |] eqn:Hq; [| discriminate H].
  destruct (py_truediv_float _ _ _ Hq) as (g & ->).
  cbn [obind] in H. unfold py_mul in H. cbn [as_number to_float obind] in H.
  rewrite float_of_int_100 in H. cbn [obind] in H. inversion H. eauto.
Qed.

Lemma fetch_result_fetched v : fetch_result v -> fetched v.
Proof.
  intros [-> | [Hc _]]; [left; reflexivity | apply has_close_fetched; exact Hc].
Qed.

Lemma fetch_result_date v :
  fetch_result v -> truthy v = true -> exists t, date_prefix v = Ok t.
Proof.
  intros [-> | [_ Hd]] Ht; [discriminate Ht | exact Hd].
Qed.

Lemma index_success_row_raises name symbol start_data latest_data e :
  fetch_result start_data -> fetch_result latest_data ->
  success_guard start_data latest_data = Ok true ->
  index_success_row name symbol start_data latest_data = Raise e -> price_error e.
Proof.
  intros Hs Hl Hg H.
  destruct (success_guard_true _ _ Hg)
    as (sp & lp & Hsp & Hlp & _ & _ & Htsp & _ & Hts & Htl).
  destruct (fetch_result_date _ Hs Hts) as (sd & Hsd).
  destruct (fetch_result_date _ Hl Htl) as (ld & Hld).
  unfold index_success_row in H. rewrite Hsp, Hlp, Hsd, Hld in H. cbn [obind] in H.
  destruct (percentage_change sp lp) as [change | e'] eqn:Hch; cbn [obind] in H.
  - destruct (percentage_change_numbers _ _ _ Hch) as ((n & Hn) & f & ->).
    destruct (py_format_2f false lp) as [t | e'] eqn:Hf; cbn [obind] in H.
    + cbn [py_format_2f obind] in H. discriminate H.
    + inversion H; subst. right. apply (py_format_2f_number_raises _ _ _ _ Hn Hf).
  - inversion H; subst. apply (percentage_change_raises _ _ _ Htsp Hch).
Qed.

Lemma etf_success_row_raises name symbol currency start_data latest_data e :
  fetch_result start_data -> fetch_result latest_data ->
  success_guard start_data latest_data = Ok true ->
  etf_success_row name symbol currency start_data latest_data = Raise e -> price_error e.
Proof.
  intros Hs Hl Hg H.
  destruct (success_guard_true _ _ Hg)
    as (sp & lp & Hsp & Hlp & _ & _ & Htsp & _ & Hts & Htl).
  destruct (fetch_result_date _ Hs Hts) as (sd & Hsd).
  destruct (fetch_result_date _ Hl Htl) as (ld & Hld).
  unfold etf_success_row, absolute_change in H.
  rewrite Hsp, Hlp, Hsd, Hld in H. cbn [obind] in H.
  destruct (py_sub lp sp) as [change | e'] eqn:Hch; cbn [obind] in H.
  - destruct (py_sub_numbers _ _ _ Hch) as ((n & Hn) & _ & (m & Hm)).
    destruct (py_format_2f false lp) as [t | e'] eqn:Hf; cbn [obind] in H.
    + destruct (py_format_2f true change) as [t' | e'] eqn:Hf'; cbn [obind] in H.
      * discriminate H.
      * inversion H; subst. right. apply (py_format_2f_number_raises _ _ _ _ Hm Hf').
    + inversion H; subst. right. apply (py_format_2f_number_raises _ _ _ _ Hn Hf).
  - inversion H; subst. apply (py_sub_raises _ _ _ Hch).
Qed.

Lemma get_latest_fetch_result net key symbol s v :
  fst (get_latest_trading_day_data net key symbol s) = Ok v -> fetch_result v.
Proof.
  rewrite get_latest_run. unfold latest_conclusion.
  destruct (net (sent s) (latest_request key symbol)) as [| c b].
  { simpl. intro H. inversion H. left. reflexivity. }
  destruct (c =? 404).
  - destruct (net _ (fallback_request key symbol)) as [| c' b'].
    { simpl. intro H. inversion H. left. reflexivity. }
    destruct (latest_record (c', b')) as [[q |] | e] eqn:Hrec; simpl; intro H;
      inversion H; subst; try (left; reflexivity).
    right. apply (latest_record_found _ _ Hrec).
  - destruct (latest_record (c, b)) as [[q |] | e] eqn:Hrec; simpl; intro H;
      inversion H; subst; try (left; reflexivity).
    right. apply (latest_record_found _ _ Hrec).
Qed.

Lemma get_closest_fetch_result net key symbol t s v :
  fst (get_closest_trading_day_data net key symbol t s) = Ok v -> fetch_result v.
Proof.
  destruct (fromisoformat t) as [d | e] eqn:Ht.
  - rewrite (get_closest_unfold _ _ _ _ _ _ Ht).
    set (s1 := with_io s [] _).
    destruct (closest_loop_walk net key symbol t d range5
                [("access_key", py_of_env key); ("symbols", PStr symbol)] s1)
      as (k & els & Hw & _); [left; reflexivity |].
    intro Hv. destruct v; try (left; reflexivity);
      (destruct (walk_found_last _ _ _ _ _ _ _ _ _ Hw Hv ltac:(discriminate))
         as (j & i & _ & _ & Hver);
       unfold attempt_verdict in Hver;
       match type of Hver with
       | context [response_of ?r] => destruct (response_of r) as [api_result |]
       end; [| discriminate];
       apply closest_record_found in Hver; destruct Hver as (_ & _ & Hc & Hd);
       right; split; [exact Hc | eexists; exact Hd]).
  - intro Hv. rewrite (proj1 (get_closest_bad_date net key symbol t e s Ht)) in Hv.
    discriminate.
Qed.

(** X6: the two fetch functions return [None] or a record with a close that
    is not [None] and a date that can be sliced; and on such values the body
    of either loop raises nothing but [TypeError] (a close that is not a
    number) or [OverflowError] (an int close too large for a float): no
    [KeyError], no [AttributeError], no [ValueError], no [ZeroDivisionError]. *)
Theorem comparison_raises_only_on_an_ill_typed_close :
  (forall (net : upstream) (API_KEY : option string) (symbol target_date_str : string)
          (s : state) (v : pyval),
      fst (get_closest_trading_day_data net API_KEY symbol target_date_str s) = Ok v \/
      fst (get_latest_trading_day_data net API_KEY symbol s) = Ok v ->
      fetch_result v) /\
  forall (name symbol currency : string) (start_data latest_data : pyval)
         (acc : list pydict) (s : state) (e : exn),
    fetch_result start_data -> fetch_result latest_data ->
    (fst (compare_index name symbol start_data latest_data acc s) = Raise e ->
     price_error e) /\
    (fst (compare_etf name symbol currency start_data latest_data acc s) = Raise e ->
     price_error e).
Proof.
  split.
  { intros net key symbol t s v [H | H];
      [apply (get_closest_fetch_result _ _ _ _ _ _ H)
      | apply (get_latest_fetch_result _ _ _ _ _ H)]. }
  intros name symbol currency sd ld acc s e Hs Hl.
  destruct (success_guard_fetched sd ld (fetch_result_fetched _ Hs)
              (fetch_result_fetched _ Hl)) as ([|] & Hg).
  - split; intro H.
    + rewrite (compare_index_success _ _ _ _ _ _ Hg) in H.
      destruct (index_success_row name symbol sd ld) as [row | e'] eqn:Hrow;
        [discriminate H |].
      cbn [obind] in H. inversion H; subst.
      apply (index_success_row_raises _ _ _ _ _ Hs Hl Hg Hrow).
    + rewrite (compare_etf_success _ _ _ _ _ _ _ Hg) in H.
      destruct (etf_success_row name symbol currency sd ld) as [row | e'] eqn:Hrow;
        [discriminate H |].
      cbn [obind] in H. inversion H; subst.
      apply (etf_success_row_raises _ _ _ _ _ _ Hs Hl Hg Hrow).
  - split; intro H.
    + rewrite (compare_index_failure _ _ _ _ _ _ Hg) in H. discriminate H.
    + rewrite (compare_etf_failure _ _ _ _ _ _ _ Hg) in H. discriminate H.
Qed.

Lemma comparison_raises_only_on_an_ill_typed_close_witness :
  fetch_result (quote "2024-03-12" (PStr "n/a")) /\
  fetch_result (quote "2025-06-02" (PInt 110)) /\
  fst (compare_index "AEX" "AEX.INDX" (quote "2024-03-12" (PStr "n/a"))
         (quote "2025-06-02" (PInt 110)) [] s0) = Raise TypeError /\
  price_error TypeError.
Proof.
  assert (H1 : fetch_result (quote "2024-03-12" (PStr "n/a"))).
  { right. split; [reflexivity | eexists; reflexivity]. }
  assert (H2 : fetch_result (quote "2025-06-02" (PInt 110))).
  { right. split; [reflexivity | eexists; reflexivity]. }
  assert (H3 : fst (compare_index "AEX" "AEX.INDX" (quote "2024-03-12" (PStr "n/a"))
                      (quote "2025-06-02" (PInt 110)) [] s0) = Raise TypeError)
    by (vm_compute; reflexivity).
  split; [exact H1 |]. split; [exact H2 |]. split; [exact H3 |].
  destruct comparison_raises_only_on_an_ill_typed_close as (_ & H).
  destruct (H "AEX" "AEX.INDX" "EUR" (quote "2024-03-12" (PStr "n/a"))
              (quote "2025-06-02" (PInt 110)) [] s0 TypeError H1 H2) as (Hi & _).
  exact (Hi H3).
Defined.

(** ** The script ends with both tables, or on an ill-typed close *)

Lemma index_success_row_shape name symbol start_data latest_data row :
  index_success_row name symbol start_data latest_data = Ok row ->
  index_row_of name symbol row.
Proof.
  unfold index_success_row. intro H.
  destruct (py_getitem_str start_data "close") as [sp |]; [| discriminate H].
  destruct (py_getitem_str latest_data "close") as [lp |]; [| discriminate H].
  cbn [obind] in H.
  destruct (percentage_change sp lp) as [change |] eqn:Hch; [| discriminate H].
  destruct (percentage_change_numbers _ _ _ Hch) as (_ & f & ->).
  cbn [obind] in H.
  destruct (py_format_2f false lp); [| discriminate H].
  cbn [obind py_format_2f] in H.
  destruct (date_prefix start_data) as [sd |]; [| discriminate H].
  destruct (date_prefix latest_data) as [ld |]; [| discriminate H].
  cbn [obind] in H. inversion H. right. eauto 10.
Qed.

Lemma py_format_2f_isinstance plus x t :
  py_format_2f plus x = Ok t -> isinstance_int_float x = true.
Proof.
  destruct x; cbn [py_format_2f]; try discriminate; reflexivity.
Qed.

Lemma etf_success_row_shape name symbol currency start_data latest_data row :
  etf_success_row name symbol currency start_data latest_data = Ok row ->
  etf_row_of name symbol currency row.
Proof.
  unfold etf_success_row. intro H.
  destruct (py_getitem_str start_data "close") as [sp |]; [| discriminate H].
  destruct (py_getitem_str latest_data "close") as [lp |]; [| discriminate H].
  cbn [obind] in H.
  destruct (absolute_change sp lp) as [change |]; [| discriminate H].
  cbn [obind] in H.
  destruct (py_format_2f false lp); [| discriminate H].
  cbn [obind] in H.
  destruct (py_format_2f true change) as [t |] eqn:Hf; [| discriminate H].
  cbn [obind] in H.
  destruct (date_prefix start_data) as [sd |]; [| discriminate H].
  destruct (date_prefix latest_data) as [ld |]; [| discriminate H].
  cbn [obind] in H. inversion H. right.
  exists sd, sp, ld, lp, change. split; [reflexivity |].
  split; [apply (py_format_2f_isinstance _ _ _ Hf) | eauto].
Qed.

(** A comparison of fetch results appends one row of the instrument, or
    raises on the way to it. *)
Lemma compare_index_outcome name symbol start_data latest_data acc s :
  fetch_result start_data -> fetch_result latest_data ->
  (exists row els,
      compare_index name symbol start_data latest_data acc s
        = (Ok (acc ++ [row]), with_io s [] els) /\
      index_row_of name symbol row) \/
  (exists e s',
      compare_index name symbol start_data latest_data acc s = (Raise e, s') /\
      price_error e).
Proof.
  intros Hs Hl.
  destruct (success_guard_fetched _ _ (fetch_result_fetched _ Hs)
              (fetch_result_fetched _ Hl)) as ([|] & Hg).
  - destruct (index_success_row name symbol start_data latest_data) as [row | e] eqn:Hrow.
    + left. destruct (compare_index_success_run _ _ _ _ acc s _ Hg Hrow) as (m & Hrun).
      exists row, [m]. split; [exact Hrun |].
      apply (index_success_row_shape _ _ _ _ _ Hrow).
    + right. pose proof (compare_index_success name symbol _ _ acc s Hg) as Hrun.
      rewrite Hrow in Hrun. cbn [obind] in Hrun.
      destruct (compare_index name symbol start_data latest_data acc s) as [r s'].
      cbn [fst] in Hrun. subst r. exists e, s'. split; [reflexivity |].
      apply (index_success_row_raises _ _ _ _ _ Hs Hl Hg Hrow).
  - left. exists (index_failure_row name symbol). eexists.
    split; [apply (compare_index_failure _ _ _ _ _ _ Hg) | left; reflexivity].
Qed.

Lemma compare_etf_outcome name symbol currency start_data latest_data acc s :
  fetch_result start_data -> fetch_result latest_data ->
  (exists row els,
      compare_etf name symbol currency start_data latest_data acc s
        = (Ok (acc ++ [row]), with_io s [] els) /\
      etf_row_of name symbol currency row) \/
  (exists e s',
      compare_etf name symbol currency start_data latest_data acc s = (Raise e, s') /\
      price_error e).
Proof.
  intros Hs Hl.
  destruct (success_guard_fetched _ _ (fetch_result_fetched _ Hs)
              (fetch_result_fetched _ Hl)) as ([|] & Hg).
  - destruct (etf_success_row name symbol currency start_data latest_data)
      as [row | e] eqn:Hrow.
    + left. destruct (compare_etf_success_run _ _ _ _ _ acc s _ Hg Hrow) as (m & Hrun).
      exists row, [m]. split; [exact Hrun |].
      apply (etf_success_row_shape _ _ _ _ _ _ Hrow).
    + right. pose proof (compare_etf_success name symbol currency _ _ acc s Hg) as Hrun.
      rewrite Hrow in Hrun. cbn [obind] in Hrun.
      destruct (compare_etf name symbol currency start_data latest_data acc s) as [r s'].
      cbn [fst] in Hrun. subst r. exists e, s'. split; [reflexivity |].
      apply (etf_success_row_raises _ _ _ _ _ _ Hs Hl Hg Hrow).
  - left. exists (etf_failure_row name symbol). eexists.
    split; [apply (compare_etf_failure _ _ _ _ _ _ _ Hg) | left; reflexivity].
Qed.

(** A property of every stored value and of what the body returns is a
    property of what the cached call returns, and of the store after it. *)
Lemma cached_invariant (P : pyval -> Prop) k body s :
  Forall (fun ke => P (cached_value (snd ke))) (cache s) ->
  (exists v reqs els, body s = (Ok v, with_io s reqs els) /\ P v) ->
  exists v s',
    cache_data k body s = (Ok v, s') /\ P v /\
    Forall (fun ke => P (cached_value (snd ke))) (cache s').
Proof.
  intros Hc (v & reqs & els & Hb & Hv). unfold cache_data.
  assert (Hrun : exists v s',
             (v <- body ;; cache_store k v ;; ret v) s = (Ok v, s') /\
             P v /\ Forall (fun ke => P (cached_value (snd ke))) (cache s')).
  { unfold bind. rewrite Hb. eexists _, _. split; [reflexivity |]. split; [exact Hv |].
    simpl. constructor; [exact Hv | exact Hc]. }
  destruct (cache_lookup k (cache s)) as [e |] eqn:Hl; [| exact Hrun].
  destruct (clock s <? stored_at e + ttl); [| exact Hrun].
  exists (cached_value e), s. split; [reflexivity |]. split; [| exact Hc].
  clear Hrun Hb. induction (cache s) as [| [k' e'] c IH].
  - discriminate.
  - simpl in Hl. inversion Hc; subst. destruct (cache_key_eqb k' k).
    + inversion Hl; subst. assumption.
    + auto.
Qed.

Section Outcomes.

Variable net : upstream.
Variable API_KEY : option string.

Lemma fetches_fetch_result symbol s :
  fetch_cache (cache s) ->
  exists start_data s1 latest_data s2,
    cached_closest net API_KEY symbol START_DATE_STR s = (Ok start_data, s1) /\
    cached_latest net API_KEY symbol s1 = (Ok latest_data, s2) /\
    fetch_result start_data /\ fetch_result latest_data /\ fetch_cache (cache s2).
Proof.
  intro Hc.
  destruct (cached_invariant fetch_result (KClosest symbol START_DATE_STR)
              (get_closest_trading_day_data net API_KEY symbol START_DATE_STR) s Hc)
    as (v & s1 & Hrun & Hv & Hc1).
  { destruct (get_closest_returns net API_KEY symbol START_DATE_STR (mkdate 2024 3 12) s
                start_date_parses start_date_days_exist) as (v & reqs & els & Hrun).
    exists v, reqs, els. split; [exact Hrun |].
    apply (get_closest_fetch_result net API_KEY symbol START_DATE_STR s).
    rewrite Hrun. reflexivity. }
  destruct (cached_invariant fetch_result (KLatest symbol)
              (get_latest_trading_day_data net API_KEY symbol) s1 Hc1)
    as (v' & s2 & Hrun' & Hv' & Hc2).
  { destruct (get_latest_frame net API_KEY symbol s1) as (v' & reqs & els & Hrun').
    exists v', reqs, els. split; [exact Hrun' |].
    apply (get_latest_fetch_result net API_KEY symbol s1). rewrite Hrun'. reflexivity. }
  exists v, s1, v', s2. auto.
Qed.

Lemma process_index_outcome name symbol acc s :
  fetch_cache (cache s) ->
  (exists row s',
      process_index net API_KEY name symbol acc s = (Ok (acc ++ [row]), s') /\
      fetch_cache (cache s') /\ index_row_of name symbol row) \/
  (exists e s',
      process_index net API_KEY name symbol acc s = (Raise e, s') /\ price_error e).
Proof.
  intro Hc. rewrite process_index_run.
  destruct (fetches_fetch_result symbol (after_placeholder name symbol s) Hc)
    as (sd & s1 & ld & s2 & H1 & H2 & Hs & Hl & Hc2).
  unfold cached_closest, cached_latest in *. rewrite H1, H2.
  destruct (compare_index_outcome name symbol sd ld acc s2 Hs Hl)
    as [(row & els & Hrun & Hrow) | (e & s' & Hrun & He)]; rewrite Hrun.
  - left. exists row. eexists. split; [reflexivity |]. split; [exact Hc2 | exact Hrow].
  - right. exists e, s'. split; [reflexivity | exact He].
Qed.

Lemma process_etf_outcome name symbol currency acc s :
  fetch_cache (cache s) ->
  (exists row s',
      process_etf net API_KEY name symbol currency acc s = (Ok (acc ++ [row]), s') /\
      fetch_cache (cache s') /\ etf_row_of name symbol currency row) \/
  (exists e s',
      process_etf net API_KEY name symbol currency acc s = (Raise e, s') /\
      price_error e).
Proof.
  intro Hc. rewrite process_etf_run.
  destruct (fetches_fetch_result symbol (after_placeholder name symbol s) Hc)
    as (sd & s1 & ld & s2 & H1 & H2 & Hs & Hl & Hc2).
  unfold cached_closest, cached_latest in *. rewrite H1, H2.
  destruct (compare_etf_outcome name symbol currency sd ld acc s2 Hs Hl)
    as [(row & els & Hrun & Hrow) | (e & s' & Hrun & He)]; rewrite Hrun.
  - left. exists row. eexists. split; [reflexivity |]. split; [exact Hc2 | exact Hrow].
  - right. exists e, s'. split; [reflexivity | exact He].
Qed.

Lemma process_indices_outcome items :
  forall acc s,
    fetch_cache (cache s) ->
    (exists rows s',
        process_indices net API_KEY items acc s = (Ok (acc ++ rows), s') /\
        fetch_cache (cache s') /\
        Forall2 (fun item row => index_row_of (fst item) (snd item) row) items rows) \/
    (exists e s',
        process_indices net API_KEY items acc s = (Raise e, s') /\ price_error e).
Proof.
  induction items as [| [name symbol] items IH]; intros acc s Hc.
  - left. exists [], s. rewrite app_nil_r. repeat split; [exact Hc | constructor].
  - cbn [process_indices]. unfold bind.
    destruct (process_index_outcome name symbol acc s Hc)
      as [(row & s1 & Hrun & Hc1 & Hrow) | (e & s' & Hrun & He)]; rewrite Hrun.
    + destruct (IH (acc ++ [row]) s1 Hc1)
        as [(rows & s2 & Hrest & Hc2 & Hrows) | (e & s' & Hrest & He)].
      * left. exists (row :: rows), s2. rewrite Hrest, <- app_assoc.
        repeat split; [exact Hc2 |]. constructor; assumption.
      * right. exists e, s'. split; assumption.
    + right. exists e, s'. split; [reflexivity | exact He].
Qed.

Lemma process_etfs_outcome items :
  forall acc s,
    fetch_cache (cache s) ->
    (exists rows s',
        process_etfs net API_KEY items acc s = (Ok (acc ++ rows), s') /\
        fetch_cache (cache s') /\
        Forall2 (fun item row =>
                   etf_row_of (fst item) (fst (snd item)) (snd (snd item)) row)
          items rows) \/
    (exists e s',
        process_etfs net API_KEY items acc s = (Raise e, s') /\ price_error e).
Proof.
  induction items as [| [name [symbol currency]] items IH]; intros acc s Hc.
  - left. exists [], s. rewrite app_nil_r. repeat split; [exact Hc | constructor].
  - cbn [process_etfs]. unfold bind.
    destruct (process_etf_outcome name symbol currency acc s Hc)
      as [(row & s1 & Hrun & Hc1 & Hrow) | (e & s' & Hrun & He)]; rewrite Hrun.
    + destruct (IH (acc ++ [row]) s1 Hc1)
        as [(rows & s2 & Hrest & Hc2 & Hrows) | (e & s' & Hrest & He)].
      * left. exists (row :: rows), s2. rewrite Hrest, <- app_assoc.
        repeat split; [exact Hc2 |]. constructor; assumption.
      * right. exists e, s'. split; assumption.
    + right. exists e, s'. split; [reflexivity | exact He].
Qed.

End Outcomes.

(** X7: with the API key set and no reload requested, whatever the upstream
    answers, a run of the script over lists of instruments (neither of them
    empty: [st.columns] wants a column) ends in one of two ways.  Either it
    completes, having drawn last the two tables, each with exactly one row per
    instrument in input order; or it dies in a loop body on [TypeError] or
    [OverflowError], the exceptions of a close that is not a number or too
    large for a float.  No network failure, status, malformed body or missing
    field makes it end otherwise.  (The store is taken to hold only values the
    fetch functions returned.) *)
Theorem script_ends_with_tables_or_on_an_ill_typed_close :
  forall (net : upstream) (API_KEY : option string)
         (index_items : list (string * string))
         (etf_items : list (string * (string * string))) (s : state),
    key_present API_KEY -> fetch_cache (cache s) ->
    index_items <> [] -> etf_items <> [] ->
    (exists index_rows etf_rows index_table etf_table s1 s2,
        process_indices net API_KEY index_items [] s = (Ok index_rows, s1) /\
        process_etfs net API_KEY etf_items [] s1 = (Ok etf_rows, s2) /\
        script_on net API_KEY index_items etf_items false s
          = (Ok tt, with_io s2 [] [StDataframe index_table; StDataframe etf_table]) /\
        index_df index_rows = Ok index_table /\
        etf_df etf_rows = Ok etf_table /\
        map index_ident index_table
          = map (fun item => (PStr (fst item), PStr (snd item))) index_items /\
        map etf_ident etf_table
          = map (fun item => (PStr (fst item), PStr (fst (snd item)))) etf_items) \/
    (exists e s',
        script_on net API_KEY index_items etf_items false s = (Raise e, s') /\
        price_error e).
Proof.
  intros net key index_items etf_items s Hkey Hc Hne1 Hne2.
  assert (Hscript :
    script_on net key index_items etf_items false s =
      match process_indices net key index_items [] s with
      | (Ok index_rows, s1) =>
          match process_etfs net key etf_items [] s1 with
          | (Ok etf_rows, s2) =>
              (show_index_table index_rows ;; show_etf_table etf_rows) s2
          | (Raise e, s2) => (Raise e, s2)
          end
      | (Raise e, s1) => (Raise e, s1)
      end).
  { unfold script_on. unfold key_present in Hkey. rewrite Hkey. cbn [negb].
    unfold bind at 1. cbn [ret]. unfold bind at 1.
    destruct (process_indices net key index_items [] s) as [[a | e] s1]; [| reflexivity].
    unfold bind at 1.
    destruct (process_etfs net key etf_items [] s1) as [[b | e] s2]; reflexivity. }
  rewrite Hscript. clear Hscript.
  destruct (process_indices_outcome net key index_items [] s Hc)
    as [(rows1 & s1 & Hrun1 & Hc1 & Hrows1) | (e & s' & Hrun & He)].
  2:{ right. exists e, s'. rewrite Hrun. split; [reflexivity | exact He]. }
  cbn [app] in Hrun1. rewrite Hrun1.
  destruct (process_etfs_outcome net key etf_items [] s1 Hc1)
    as [(rows2 & s2 & Hrun2 & Hc2 & Hrows2) | (e & s' & Hrun & He)].
  2:{ right. exists e, s'. rewrite Hrun. split; [reflexivity | exact He]. }
  cbn [app] in Hrun2. rewrite Hrun2.
  destruct (index_df_ok _ _ Hrows1) as (df1 & Hdf1 & _ & Hid1).
  destruct (etf_df_ok _ _ Hrows2) as (df2 & Hdf2 & _ & Hid2).
  left. exists rows1, rows2, df1, df2, s1, s2.
  split; [reflexivity |]. split; [exact Hrun2 |].
  split; [| repeat (split; [assumption |]); assumption].
  destruct (show_index_table_run rows1 df1 s2 Hdf1) as (e1 & Hshow1 & He1).
  unfold bind. rewrite Hshow1.
  destruct (show_etf_table_run rows2 df2 (with_io s2 [] [e1]) Hdf2) as (e2 & Hshow2 & He2).
  rewrite Hshow2. rewrite with_io_with_io. cbn [app].
  rewrite He1, He2; [reflexivity | |].
  - inversion Hrows2; subst; [contradiction | discriminate].
  - inversion Hrows1; subst; [contradiction | discriminate].
Qed.

Lemma script_ends_with_tables_or_on_an_ill_typed_close_witness :
  key_present (Some "k") /\ fetch_cache (cache s0) /\ indices <> [] /\ etfs <> [] /\
  ((exists s', script_on (steady_net (PStr "n/a") (PInt 110)) (Some "k") indices etfs false s0
               = (Ok tt, s')) \/
   (exists e s', script_on (steady_net (PStr "n/a") (PInt 110)) (Some "k") indices etfs false s0
                 = (Raise e, s') /\ price_error e)).
Proof.
  assert (H1 : key_present (Some "k")) by reflexivity.
  assert (H2 : fetch_cache (cache s0)) by constructor.
  assert (H3 : indices <> []) by discriminate.
  assert (H4 : etfs <> []) by discriminate.
  split; [exact H1 |]. split; [exact H2 |]. split; [exact H3 |]. split; [exact H4 |].
  destruct (script_ends_with_tables_or_on_an_ill_typed_close
              (steady_net (PStr "n/a") (PInt 110)) (Some "k") indices etfs s0 H1 H2 H3 H4)
    as [(r1 & r2 & t1 & t2 & s1 & s2 & _ & _ & Hrun & _) | (e & s' & Hrun & He)].
  - left. eexists. exact Hrun.
  - right. exists e, s'. split; [exact Hrun | exact He].
Defined.

(** ** How many requests a run can send *)

Lemma sends_ret {A} (a : A) : sends_at_most 0 (ret a).
Proof.
  intro s. exists []. cbn. rewrite app_nil_r. auto.
Qed.

Lemma sends_raise {A} (e : exn) : sends_at_most 0 (@raise A e).
Proof.
  intro s. exists []. cbn. rewrite app_nil_r. auto.
Qed.

Lemma sends_lift {A} (x : outcome A) : sends_at_most 0 (lift x).
Proof.
  intro s. exists []. cbn. rewrite app_nil_r. auto.
Qed.

Lemma sends_emit (e : element) : sends_at_most 0 (emit e).
Proof.
  intro s. exists []. cbn. rewrite app_nil_r. auto.
Qed.

Lemma sends_cache_clear : sends_at_most 0 cache_clear.
Proof.
  intro s. exists []. cbn. rewrite app_nil_r. auto.
Qed.

Lemma sends_cache_store k v : sends_at_most 0 (cache_store k v).
Proof.
  intro s. exists []. cbn. rewrite app_nil_r. auto.
Qed.

Lemma sends_bind {A B} (n n' : nat) (m : M A) (k : A -> M B) :
  sends_at_most n m -> (forall a, sends_at_most n' (k a)) ->
  sends_at_most (n + n') (bind m k).
Proof.
  intros Hm Hk s. unfold bind.
  destruct (Hm s) as (reqs & Hs & Hn).
  destruct (m s) as [[a | e] s1]; cbn [snd] in Hs.
  - destruct (Hk a s1) as (reqs' & Hs' & Hn').
    exists (reqs ++ reqs'). rewrite Hs', Hs, app_assoc, length_app. split; [reflexivity | lia].
  - exists reqs. cbn [snd]. split; [exact Hs | lia].
Qed.

Lemma sends_weaken {A} (n n' : nat) (m : M A) :
  (n <= n')%nat -> sends_at_most n m -> sends_at_most n' m.
Proof.
  intros Hle Hm s. destruct (Hm s) as (reqs & Hs & Hn). exists reqs. split; [exact Hs | lia].
Qed.

(** Steps that send nothing, put together. *)
Ltac sends_nothing :=
  repeat first
    [ apply sends_ret | apply sends_raise | apply sends_lift | apply sends_emit
    | apply (sends_bind 0 0)
    | match goal with
      | |- forall _, _ => intro
      | |- sends_at_most _ (if ?b then _ else _) => destruct b
      end ].

(** A cached call sends what its body sends, or nothing. *)
Lemma sends_cache_data k body n :
  sends_at_most n body -> sends_at_most n (cache_data k body).
Proof.
  intros Hb s. unfold cache_data.
  assert (Hfresh : exists reqs,
             sent (snd ((v <- body ;; cache_store k v ;; ret v) s)) = sent s ++ reqs /\
             (List.length reqs <= n)%nat).
  { assert (H : sends_at_most (n + 0) (v <- body ;; cache_store k v ;; ret v)).
    { apply sends_bind; [exact Hb |]. intro v. apply (sends_bind 0 0).
      - apply sends_cache_store.
      - intro. apply sends_ret. }
    destruct (H s) as (reqs & Hs & Hn). exists reqs. split; [exact Hs | lia]. }
  destruct (cache_lookup k (cache s)) as [e |]; [| exact Hfresh].
  destruct (clock s <? stored_at e + ttl); [| exact Hfresh].
  exists []. cbn [snd]. rewrite app_nil_r. split; [reflexivity | cbn; lia].
Qed.

Lemma sends_get_closest net key symbol t :
  sends_at_most 5 (get_closest_trading_day_data net key symbol t).
Proof.
  intro s. destruct (fromisoformat t) as [d | e] eqn:Ht.
  - rewrite (get_closest_unfold _ _ _ _ _ _ Ht).
    set (s1 := with_io s [] _).
    destruct (closest_loop_walk net key symbol t d range5
                [("access_key", py_of_env key); ("symbols", PStr symbol)] s1)
      as (k & els & Hw & Hs); [left; reflexivity |].
    pose proof (walk_length _ _ _ _ _ _ _ _ Hw) as Hk. cbn [List.length range5] in Hk.
    exists (map (closest_request key symbol d) (firstn k range5)).
    rewrite Hs. subst s1. cbn [sent with_io]. rewrite app_nil_r. split; [reflexivity |].
    rewrite length_map, length_firstn. lia.
  - exists []. rewrite (proj2 (get_closest_bad_date net key symbol t e s Ht)).
    rewrite app_nil_r. split; [reflexivity | cbn; lia].
Qed.

Lemma sends_get_latest net key symbol :
  sends_at_most 2 (get_latest_trading_day_data net key symbol).
Proof.
  intro s. eexists. split; [apply get_latest_sent |].
  destruct (is_not_found _); cbn; lia.
Qed.

Lemma sends_compare_index name symbol start_data latest_data acc :
  sends_at_most 0 (compare_index name symbol start_data latest_data acc).
Proof.
  unfold compare_index, st_metric. sends_nothing.
Qed.

Lemma sends_compare_etf name symbol currency start_data latest_data acc :
  sends_at_most 0 (compare_etf name symbol currency start_data latest_data acc).
Proof.
  unfold compare_etf, st_metric. sends_nothing.
Qed.

Lemma sends_process_index net key name symbol acc :
  sends_at_most 7 (process_index net key name symbol acc).
Proof.
  unfold process_index, st_metric, cached_closest, cached_latest.
  apply (sends_bind 0 7); [apply sends_emit | intros _].
  apply (sends_bind 5 2); [apply sends_cache_data, sends_get_closest | intro sd].
  apply (sends_bind 2 0); [apply sends_cache_data, sends_get_latest | intro ld].
  apply sends_compare_index.
Qed.

Lemma sends_process_etf net key name symbol currency acc :
  sends_at_most 7 (process_etf net key name symbol currency acc).
Proof.
  unfold process_etf, st_metric, cached_closest, cached_latest.
  apply (sends_bind 0 7); [apply sends_emit | intros _].
  apply (sends_bind 5 2); [apply sends_cache_data, sends_get_closest | intro sd].
  apply (sends_bind 2 0); [apply sends_cache_data, sends_get_latest | intro ld].
  apply sends_compare_etf.
Qed.

Lemma sends_process_indices net key items :
  forall acc, sends_at_most (7 * List.length items) (process_indices net key items acc).
Proof.
  induction items as [| [name symbol] items IH]; intro acc.
  - apply sends_ret.
  - cbn [process_indices].
    apply (sends_weaken (7 + 7 * List.length items)); [cbn [List.length]; lia |].
    apply sends_bind; [apply sends_process_index | intro acc'; apply IH].
Qed.

Lemma sends_process_etfs net key items :
  forall acc, sends_at_most (7 * List.length items) (process_etfs net key items acc).
Proof.
  induction items as [| [name [symbol currency]] items IH]; intro acc.
  - apply sends_ret.
  - cbn [process_etfs].
    apply (sends_weaken (7 + 7 * List.length items)); [cbn [List.length]; lia |].
    apply sends_bind; [apply sends_process_etf | intro acc'; apply IH].
Qed.

Lemma sends_show_index_table rows : sends_at_most 0 (show_index_table rows).
Proof.
  unfold show_index_table. destruct rows; sends_nothing.
Qed.

Lemma sends_show_etf_table rows : sends_at_most 0 (show_etf_table rows).
Proof.
  unfold show_etf_table. destruct rows; sends_nothing.
Qed.

(** X8: whatever the upstream answers and however the run ends, one
    execution of the script only adds to the log of requests, and adds at
    most 7 requests per instrument (5 of the walk-back, 2 for the latest
    quote): at most 84 for the 7 indices and 5 ETFs of the script.  The
    execution in which the reload button is found pressed sends none. *)
Theorem script_sends_at_most_seven_requests_per_instrument :
  (forall (net : upstream) (API_KEY : option string)
          (index_items : list (string * string))
          (etf_items : list (string * (string * string))) (button : bool) (s : state),
      exists reqs,
        sent (snd (script_on net API_KEY index_items etf_items button s)) = sent s ++ reqs /\
        if button then reqs = []
        else (List.length reqs <= 7 * (List.length index_items + List.length etf_items))%nat) /\
  (forall (net : upstream) (API_KEY : option string) (button : bool) (s : state),
      exists reqs,
        sent (snd (script net API_KEY button s)) = sent s ++ reqs /\
        (List.length reqs <= 84)%nat).
Proof.
  assert (Hon : forall net key index_items etf_items button s,
      exists reqs,
        sent (snd (script_on net key index_items etf_items button s)) = sent s ++ reqs /\
        if button : bool then reqs = []
        else (List.length reqs <= 7 * (List.length index_items + List.length etf_items))%nat).
  { intros net key index_items etf_items button s. destruct button.
    - exists []. split; [| reflexivity]. rewrite app_nil_r.
      unfold script_on. destruct (negb (truthy (py_of_env key))); reflexivity.
    - assert (H : sends_at_most
                    (0 + (7 * List.length index_items + (7 * List.length etf_items + 0)))
                    (script_on net key index_items etf_items false)).
      { unfold script_on. destruct (negb (truthy (py_of_env key))).
        - apply (sends_weaken 0); [lia |]. sends_nothing.
        - apply sends_bind; [apply sends_ret | intros _].
          apply sends_bind; [apply sends_process_indices | intro rows1].
          apply sends_bind; [apply sends_process_etfs | intro rows2].
          apply (sends_bind 0 0); [apply sends_show_index_table | intros _].
          apply sends_show_etf_table. }
      destruct (H s) as (reqs & Hs & Hn). exists reqs. split; [exact Hs | lia]. }
  split; [exact Hon |].
  intros net key button s. unfold script.
  destruct (Hon net key indices etfs button s) as (reqs & Hs & Hn).
  exists reqs. split; [exact Hs |].
  destruct button; [subst reqs; cbn; lia | cbn [List.length indices etfs] in Hn; lia].
Qed.

(** ** Which requests a run can send *)

Lemma sends_nothing_only {A} (P : request -> Prop) (m : M A) :
  sends_at_most 0 m -> sends_only P m.
Proof.
  intros H s. destruct (H s) as (reqs & Hs & Hn).
  destruct reqs; [| cbn in Hn; lia]. exists []. split; [exact Hs | constructor].
Qed.

Lemma sends_only_bind {A B} (P : request -> Prop) (m : M A) (k : A -> M B) :
  sends_only P m -> (forall a, sends_only P (k a)) -> sends_only P (bind m k).
Proof.
  intros Hm Hk s. unfold bind.
  destruct (Hm s) as (reqs & Hs & Hp).
  destruct (m s) as [[a | e] s1]; cbn [snd] in Hs.
  - destruct (Hk a s1) as (reqs' & Hs' & Hp').
    exists (reqs ++ reqs'). rewrite Hs', Hs, app_assoc. split; [reflexivity |].
    apply Forall_app. split; assumption.
  - exists reqs. cbn [snd]. split; assumption.
Qed.

Lemma sends_only_weaken {A} (P Q : request -> Prop) (m : M A) :
  (forall r, P r -> Q r) -> sends_only P m -> sends_only Q m.
Proof.
  intros Hpq Hm s. destruct (Hm s) as (reqs & Hs & Hp). exists reqs.
  split; [exact Hs |]. apply (Forall_impl _ Hpq Hp).
Qed.

Lemma sends_only_cache_data (P : request -> Prop) k body :
  sends_only P body -> sends_only P (cache_data k body).
Proof.
  intros Hb s. unfold cache_data.
  assert (Hfresh : sends_only P (v <- body ;; cache_store k v ;; ret v)).
  { apply sends_only_bind; [exact Hb |]. intro v. apply sends_nothing_only.
    apply (sends_bind 0 0); [apply sends_cache_store | intro; apply sends_ret]. }
  destruct (cache_lookup k (cache s)) as [e |]; [| apply Hfresh].
  destruct (clock s <? stored_at e + ttl); [| apply Hfresh].
  exists []. cbn [snd]. rewrite app_nil_r. split; [reflexivity | constructor].
Qed.

Lemma closest_request_for key symbol d i : request_for key symbol (closest_request key symbol d i).
Proof.
  unfold request_for, closest_request. cbn [url params]. auto.
Qed.

Lemma latest_request_for key symbol : request_for key symbol (latest_request key symbol).
Proof.
  unfold request_for, latest_request. cbn [url params]. auto.
Qed.

Lemma fallback_request_for key symbol : request_for key symbol (fallback_request key symbol).
Proof.
  unfold request_for, fallback_request. cbn [url params]. auto.
Qed.

Lemma sends_only_get_closest net key symbol t :
  sends_only (request_for key symbol) (get_closest_trading_day_data net key symbol t).
Proof.
  intro s. destruct (fromisoformat t) as [d | e] eqn:Ht.
  - rewrite (get_closest_unfold _ _ _ _ _ _ Ht).
    set (s1 := with_io s [] _).
    destruct (closest_loop_walk net key symbol t d range5
                [("access_key", py_of_env key); ("symbols", PStr symbol)] s1)
      as (k & els & Hw & Hs); [left; reflexivity |].
    exists (map (closest_request key symbol d) (firstn k range5)).
    rewrite Hs. subst s1. cbn [sent with_io]. rewrite app_nil_r. split; [reflexivity |].
    apply Forall_map. apply Forall_forall. intros i _. apply closest_request_for.
  - exists []. rewrite (proj2 (get_closest_bad_date net key symbol t e s Ht)).
    rewrite app_nil_r. split; [reflexivity | constructor].
Qed.

Lemma sends_only_get_latest net key symbol :
  sends_only (request_for key symbol) (get_latest_trading_day_data net key symbol).
Proof.
  intro s. eexists. split; [apply get_latest_sent |].
  constructor; [apply latest_request_for |].
  destruct (is_not_found _); constructor; [apply fallback_request_for | constructor].
Qed.

Lemma sends_only_process_index net key name symbol acc :
  sends_only (request_for key symbol) (process_index net key name symbol acc).
Proof.
  unfold process_index, st_metric, cached_closest, cached_latest.
  apply sends_only_bind; [apply sends_nothing_only, sends_emit | intros _].
  apply sends_only_bind; [apply sends_only_cache_data, sends_only_get_closest | intro sd].
  apply sends_only_bind; [apply sends_only_cache_data, sends_only_get_latest | intro ld].
  apply sends_nothing_only, sends_compare_index.
Qed.

Lemma sends_only_process_etf net key name symbol currency acc :
  sends_only (request_for key symbol) (process_etf net key name symbol currency acc).
Proof.
  unfold process_etf, st_metric, cached_closest, cached_latest.
  apply sends_only_bind; [apply sends_nothing_only, sends_emit | intros _].
  apply sends_only_bind; [apply sends_only_cache_data, sends_only_get_closest | intro sd].
  apply sends_only_bind; [apply sends_only_cache_data, sends_only_get_latest | intro ld].
  apply sends_nothing_only, sends_compare_etf.
Qed.

Lemma sends_only_process_indices net key items :
  forall acc,
    sends_only (fun r => exists symbol, In symbol (map snd items) /\ request_for key symbol r)
      (process_indices net key items acc).
Proof.
  induction items as [| [name symbol] items IH]; intro acc.
  - apply sends_nothing_only, sends_ret.
  - cbn [process_indices]. apply sends_only_bind.
    + apply (sends_only_weaken (request_for key symbol)); [| apply sends_only_process_index].
      intros r Hr. exists symbol. split; [left; reflexivity | exact Hr].
    + intro acc'. apply (fun H => sends_only_weaken _ _ _ H (IH acc')).
      intros r (sym & Hin & Hr). exists sym. split; [right; exact Hin | exact Hr].
Qed.

Lemma sends_only_process_etfs net key items :
  forall acc,
    sends_only (fun r => exists symbol,
                  In symbol (map (fun item => fst (snd item)) items) /\
                  request_for key symbol r)
      (process_etfs net key items acc).
Proof.
  induction items as [| [name [symbol currency]] items IH]; intro acc.
  - apply sends_nothing_only, sends_ret.
  - cbn [process_etfs]. apply sends_only_bind.
    + apply (sends_only_weaken (request_for key symbol)); [| apply sends_only_process_etf].
      intros r Hr. exists symbol. split; [left; reflexivity | exact Hr].
    + intro acc'. apply (fun H => sends_only_weaken _ _ _ H (IH acc')).
      intros r (sym & Hin & Hr). exists sym. split; [right; exact Hin | exact Hr].
Qed.

(** X9: every request an execution of the script sends is a request for one
    of the configured instruments: it goes to the [eod] or the [eod/latest]
    endpoint under [BASE_URL] and carries the API key, the symbol of that
    instrument and [limit] 1.  Nothing else is ever sent, however the run
    ends. *)
Theorem script_requests_are_for_configured_instruments :
  forall (net : upstream) (API_KEY : option string)
         (index_items : list (string * string))
         (etf_items : list (string * (string * string))) (button : bool) (s : state),
    exists reqs,
      sent (snd (script_on net API_KEY index_items etf_items button s)) = sent s ++ reqs /\
      Forall (fun r => exists symbol,
                In symbol (symbols_of index_items etf_items) /\
                request_for API_KEY symbol r) reqs.
Proof.
  intros net key index_items etf_items button s.
  set (P := fun r => exists symbol,
                In symbol (symbols_of index_items etf_items) /\ request_for key symbol r).
  assert (H : sends_only P (script_on net key index_items etf_items button)).
  { unfold script_on. destruct (negb (truthy (py_of_env key))).
    - apply sends_nothing_only. sends_nothing.
    - apply sends_only_bind.
      { apply sends_nothing_only. destruct button; [| apply sends_ret].
        apply (sends_bind 0 0); [apply sends_cache_clear | intro; apply sends_raise]. }
      intros _. apply sends_only_bind.
      { apply (fun H => sends_only_weaken _ _ _ H
                           (sends_only_process_indices net key index_items [])).
        intros r (sym & Hin & Hr). exists sym. split; [| exact Hr].
        unfold symbols_of. apply in_or_app. left. exact Hin. }
      intro rows1. apply sends_only_bind.
      { apply (fun H => sends_only_weaken _ _ _ H
                           (sends_only_process_etfs net key etf_items [])).
        intros r (sym & Hin & Hr). exists sym. split; [| exact Hr].
        unfold symbols_of. apply in_or_app. right. exact Hin. }
      intro rows2. apply sends_nothing_only.
      apply (sends_bind 0 0); [apply sends_show_index_table | intros _].
      apply sends_show_etf_table. }
  exact (H s).
Qed.

(** ** An upstream that cannot be reached *)

Lemma latest_record_transport c b :
  transport_error (Response c b) -> latest_record (c, b) = Raise RequestException.
Proof.
  cbn [transport_error]. unfold latest_record, raise_for_status. cbn [fst].
  intros [Hc | ->].
  - replace ((400 <=? c) && (c <? 600)) with true by lia. reflexivity.
  - destruct ((400 <=? c) && (c <? 600)); reflexivity.
Qed.

Lemma get_latest_unreachable net key symbol s :
  unreachable net ->
  exists reqs els,
    get_latest_trading_day_data net key symbol s = (Ok PNone, with_io s reqs els).
Proof.
  intro Hnet. rewrite get_latest_run.
  pose proof (Hnet (sent s) (latest_request key symbol)) as H1.
  pose proof (Hnet (sent s ++ [latest_request key symbol]) (fallback_request key symbol))
    as H2.
  destruct (net (sent s) (latest_request key symbol)) as [| c b]; [eauto |].
  destruct (c =? 404).
  - destruct (net _ (fallback_request key symbol)) as [| c' b']; [eauto |].
    unfold latest_conclusion. rewrite (latest_record_transport _ _ H2). eauto.
  - unfold latest_conclusion. rewrite (latest_record_transport _ _ H1). eauto.
Qed.

Lemma get_closest_unreachable net key symbol s :
  unreachable net ->
  exists reqs els,
    get_closest_trading_day_data net key symbol START_DATE_STR s
      = (Ok PNone, with_io s reqs els).
Proof.
  intro Hnet. rewrite (get_closest_unfold _ _ _ _ _ _ start_date_parses).
  unfold range5. rewrite closest_loop_cons.
  rewrite (start_date_days_exist 0 (or_introl eq_refl)). cbv zeta.
  rewrite (params_ready_set key symbol _ _ (or_introl eq_refl)).
  rewrite closest_attempt_run. rewrite (transport_error_verdict _ _ (Hnet _ _)).
  rewrite with_io_with_io. eauto.
Qed.

Lemma failure_rows_format_as_they_are (items : list (string * string)) :
  index_df (map (fun item => index_failure_row (fst item) (snd item)) items)
    = Ok (map (fun item => index_failure_row (fst item) (snd item)) items).
Proof.
  unfold index_df. induction items as [| [name symbol] items IH]; [reflexivity |].
  cbn [map assign_column]. rewrite IH. reflexivity.
Qed.

Lemma etf_failure_rows_format_as_they_are (items : list (string * (string * string))) :
  etf_df (map (fun item => etf_failure_row (fst item) (fst (snd item))) items)
    = Ok (map (fun item => etf_failure_row (fst item) (fst (snd item))) items).
Proof.
  unfold etf_df. induction items as [| [name [symbol currency]] items IH]; [reflexivity |].
  cbn [map assign_column]. rewrite IH. reflexivity.
Qed.

Section Unreachable.

Variable net : upstream.
Variable API_KEY : option string.
Hypothesis Hnet : unreachable net.

Lemma fetches_unreachable symbol s :
  none_cache (cache s) ->
  exists s1 s2,
    cached_closest net API_KEY symbol START_DATE_STR s = (Ok PNone, s1) /\
    cached_latest net API_KEY symbol s1 = (Ok PNone, s2) /\
    none_cache (cache s2).
Proof.
  intro Hc.
  destruct (cached_invariant (fun v => v = PNone) (KClosest symbol START_DATE_STR)
              (get_closest_trading_day_data net API_KEY symbol START_DATE_STR) s Hc)
    as (v & s1 & Hrun & -> & Hc1).
  { destruct (get_closest_unreachable net API_KEY symbol s Hnet) as (reqs & els & H).
    exists PNone, reqs, els. auto. }
  destruct (cached_invariant (fun v => v = PNone) (KLatest symbol)
              (get_latest_trading_day_data net API_KEY symbol) s1 Hc1)
    as (v' & s2 & Hrun' & -> & Hc2).
  { destruct (get_latest_unreachable net API_KEY symbol s1 Hnet) as (reqs & els & H).
    exists PNone, reqs, els. auto. }
  exists s1, s2. auto.
Qed.

Lemma process_indices_unreachable items :
  forall acc s,
    none_cache (cache s) ->
    exists s',
      process_indices net API_KEY items acc s
        = (Ok (acc ++ map (fun item => index_failure_row (fst item) (snd item)) items), s') /\
      none_cache (cache s').
Proof.
  induction items as [| [name symbol] items IH]; intros acc s Hc.
  - exists s. cbn [map]. rewrite app_nil_r. split; [reflexivity | exact Hc].
  - cbn [process_indices]. unfold bind. rewrite process_index_run.
    destruct (fetches_unreachable symbol (after_placeholder name symbol s) Hc)
      as (s1 & s2 & H1 & H2 & Hc2).
    rewrite H1, H2.
    rewrite (compare_index_failure name symbol PNone PNone acc s2
               (success_guard_none_left PNone)).
    destruct (IH (acc ++ [index_failure_row name symbol])
                (with_io s2 [] [StMetric (label_of name symbol) "Data Fout" ""]) Hc2)
      as (s' & Hrun & Hc').
    exists s'. rewrite Hrun. cbn [map fst snd]. rewrite <- app_assoc.
    split; [reflexivity | exact Hc'].
Qed.

Lemma process_etfs_unreachable items :
  forall acc s,
    none_cache (cache s) ->
    exists s',
      process_etfs net API_KEY items acc s
        = (Ok (acc ++ map (fun item => etf_failure_row (fst item) (fst (snd item))) items),
           s') /\
      none_cache (cache s').
Proof.
  induction items as [| [name [symbol currency]] items IH]; intros acc s Hc.
  - exists s. cbn [map]. rewrite app_nil_r. split; [reflexivity | exact Hc].
  - cbn [process_etfs]. unfold bind. rewrite process_etf_run.
    destruct (fetches_unreachable symbol (after_placeholder name symbol s) Hc)
      as (s1 & s2 & H1 & H2 & Hc2).
    rewrite H1, H2.
    rewrite (compare_etf_failure name symbol currency PNone PNone acc s2
               (success_guard_none_left PNone)).
    destruct (IH (acc ++ [etf_failure_row name symbol])
                (with_io s2 [] [StMetric (label_of name symbol) "Data Fout" ""]) Hc2)
      as (s' & Hrun & Hc').
    exists s'. rewrite Hrun. cbn [map fst snd]. rewrite <- app_assoc.
    split; [reflexivity | exact Hc'].
Qed.

End Unreachable.

(** X10: when no request gets a usable answer (the network is down, or
    every reply is an error status such as the 401 of a rejected key, or has
    no JSON body) the script, with a key set, instruments in both lists and a
    store that holds nothing but [None] results, still runs to its end: every
    instrument gets its failure row, in input order, both loops complete, and
    the two tables drawn last are those rows, 'Fout' in the change column. *)
Theorem unreachable_upstream_marks_every_instrument :
  forall (net : upstream) (API_KEY : option string)
         (index_items : list (string * string))
         (etf_items : list (string * (string * string))) (s : state),
    key_present API_KEY -> unreachable net -> none_cache (cache s) ->
    index_items <> [] -> etf_items <> [] ->
    let index_rows := map (fun item => index_failure_row (fst item) (snd item)) index_items in
    let etf_rows := map (fun item => etf_failure_row (fst item) (fst (snd item))) etf_items in
    exists s1 s2,
      process_indices net API_KEY index_items [] s = (Ok index_rows, s1) /\
      process_etfs net API_KEY etf_items [] s1 = (Ok etf_rows, s2) /\
      index_df index_rows = Ok index_rows /\
      etf_df etf_rows = Ok etf_rows /\
      script_on net API_KEY index_items etf_items false s
        = (Ok tt, with_io s2 [] [StDataframe index_rows; StDataframe etf_rows]).
Proof.
  intros net key index_items etf_items s Hkey Hnet Hc Hne1 Hne2 index_rows etf_rows.
  destruct (process_indices_unreachable net key Hnet index_items [] s Hc)
    as (s1 & Hrun1 & Hc1).
  destruct (process_etfs_unreachable net key Hnet etf_items [] s1 Hc1)
    as (s2 & Hrun2 & Hc2).
  cbn [app] in Hrun1, Hrun2. fold index_rows in Hrun1. fold etf_rows in Hrun2.
  pose proof (failure_rows_format_as_they_are index_items) as Hdf1.
  pose proof (etf_failure_rows_format_as_they_are etf_items) as Hdf2.
  fold index_rows in Hdf1. fold etf_rows in Hdf2.
  destruct (show_index_table_run index_rows index_rows s2 Hdf1) as (e1 & Hshow1 & He1).
  destruct (show_etf_table_run etf_rows etf_rows (with_io s2 [] [e1]) Hdf2)
    as (e2 & Hshow2 & He2).
  exists s1, s2.
  repeat (split; [assumption |]).
  unfold script_on. unfold key_present in Hkey. rewrite Hkey. cbn [negb].
  unfold bind at 1. cbn [ret]. unfold bind at 1. rewrite Hrun1.
  unfold bind at 1. rewrite Hrun2. unfold bind. rewrite Hshow1, Hshow2.
  rewrite with_io_with_io. cbn [app]. rewrite He1, He2; [reflexivity | |].
  - subst etf_rows. destruct etf_items; [contradiction | discriminate].
  - subst index_rows. destruct index_items; [contradiction | discriminate].
Qed.

Lemma unreachable_upstream_marks_every_instrument_witness :
  key_present (Some "wrong") /\ unreachable rejecting_net /\ none_cache (cache s0) /\
  indices <> [] /\ etfs <> [] /\
  exists s1,
    process_indices rejecting_net (Some "wrong") indices [] s0
      = (Ok (map (fun item => index_failure_row (fst item) (snd item)) indices), s1).
Proof.
  assert (H1 : key_present (Some "wrong")) by reflexivity.
  assert (H2 : unreachable rejecting_net).
  { intros hist r. cbn. left. lia. }
  assert (H3 : none_cache (cache s0)) by constructor.
  assert (H4 : indices <> []) by discriminate.
  assert (H5 : etfs <> []) by discriminate.
  split; [exact H1 |]. split; [exact H2 |]. split; [exact H3 |].
  split; [exact H4 |]. split; [exact H5 |].
  destruct (unreachable_upstream_marks_every_instrument rejecting_net (Some "wrong")
              indices etfs s0 H1 H2 H3 H4 H5) as (s1 & _ & Hrun & _).
  exists s1. exact Hrun.
Defined.

(** ** The metric and the table show the same change *)

(** X11: on the success branch of either loop body, when it completes, the
    one metric drawn carries as its delta exactly the text the table shows in
    the change column of the row appended ([.2f] and a percent sign for an
    index, [+.2f] and the currency for an ETF), and as its value the latest
    price of that row formatted [.2f] (followed by the currency for an
    ETF). *)
Theorem table_cell_repeats_the_metric_delta :
  forall (name symbol currency : string) (start_data latest_data : pyval)
         (acc : list pydict) (s : state),
    success_guard start_data latest_data = Ok true ->
    (forall rows s',
        compare_index name symbol start_data latest_data acc s = (Ok rows, s') ->
        exists row value delta,
          rows = acc ++ [row] /\
          s' = with_io s [] [StMetric (label_of name symbol) value delta] /\
          format_percentage (cell row "Verandering (%)") = Ok (PStr delta) /\
          py_format_2f false (cell row "Laatste Prijs") = Ok value) /\
    (forall rows s',
        compare_etf name symbol currency start_data latest_data acc s = (Ok rows, s') ->
        exists row value delta,
          rows = acc ++ [row] /\
          s' = with_io s [] [StMetric (label_of name symbol) value delta] /\
          format_absolute row = Ok (PStr delta) /\
          exists price,
            py_format_2f false (cell row "Laatste Prijs") = Ok price /\
            value = (price ++ " " ++ currency)%string).
Proof.
  intros name symbol currency start_data latest_data acc s Hg. split.
  - intros rows s' H.
    unfold compare_index, bind, lift, ret, st_metric, emit in H. rewrite Hg in H.
    destruct (py_getitem_str start_data "close") as [sp |]; [| discriminate H].
    destruct (py_getitem_str latest_data "close") as [lp |]; [| discriminate H].
    destruct (percentage_change sp lp) as [ch |] eqn:Hch; [| discriminate H].
    destruct (percentage_change_numbers _ _ _ Hch) as (_ & f & ->).
    destruct (py_format_2f false lp) as [value |] eqn:Hv; [| discriminate H].
    destruct (py_format_2f false (PFloat f)) as [delta |] eqn:Hd; [| discriminate H].
    cbn [fst snd sent elements cache clock] in H.
    destruct (date_prefix start_data) as [sd |]; [| discriminate H].
    destruct (date_prefix latest_data) as [ld |]; [| discriminate H].
    inversion H; subst.
    eexists _, value, (delta ++ "%")%string.
    split; [reflexivity |].
    split; [unfold with_io; rewrite app_nil_r; reflexivity |]. split.
    + unfold index_row, cell. cbn [dict_get String.eqb Ascii.eqb Bool.eqb].
      unfold format_percentage. cbn [isinstance_int_float]. rewrite Hd. reflexivity.
    + unfold index_row, cell. cbn [dict_get String.eqb Ascii.eqb Bool.eqb]. exact Hv.
  - intros rows s' H.
    unfold compare_etf, bind, lift, ret, st_metric, emit in H. rewrite Hg in H.
    destruct (py_getitem_str start_data "close") as [sp |]; [| discriminate H].
    destruct (py_getitem_str latest_data "close") as [lp |]; [| discriminate H].
    destruct (absolute_change sp lp) as [ch |] eqn:Hch; [| discriminate H].
    destruct (py_format_2f false lp) as [value |] eqn:Hv; [| discriminate H].
    destruct (py_format_2f true ch) as [delta |] eqn:Hd; [| discriminate H].
    cbn [fst snd sent elements cache clock] in H.
    destruct (date_prefix start_data) as [sd |]; [| discriminate H].
    destruct (date_prefix latest_data) as [ld |]; [| discriminate H].
    inversion H; subst.
    eexists _, (value ++ " " ++ currency)%string, (delta ++ " " ++ currency)%string.
    split; [reflexivity |].
    split; [unfold with_io; rewrite app_nil_r; reflexivity |]. split.
    + unfold format_absolute, etf_row, cell. cbn [dict_get String.eqb Ascii.eqb Bool.eqb].
      rewrite (py_format_2f_isinstance _ _ _ Hd), Hd. reflexivity.
    + exists value. split; [| reflexivity].
      unfold etf_row, cell. cbn [dict_get String.eqb Ascii.eqb Bool.eqb]. exact Hv.
Qed.

Lemma table_cell_repeats_the_metric_delta_witness :
  success_guard (quote "2024-03-12" (float_lit 50 0)) (quote "2025-06-02" (float_lit 97 (-1)))
    = Ok true /\
  exists row value delta,
    fst (compare_etf "iShares AEX UCITS ETF" "IAEX.AS" "EUR"
           (quote "2024-03-12" (float_lit 50 0)) (quote "2025-06-02" (float_lit 97 (-1)))
           [] s0) = Ok [row] /\
    elements (snd (compare_etf "iShares AEX UCITS ETF" "IAEX.AS" "EUR"
                     (quote "2024-03-12" (float_lit 50 0))
                     (quote "2025-06-02" (float_lit 97 (-1))) [] s0))
      = [StMetric (label_of "iShares AEX UCITS ETF" "IAEX.AS") value delta] /\
    format_absolute row = Ok (PStr delta).
Proof.
  assert (Hg : success_guard (quote "2024-03-12" (float_lit 50 0))
                 (quote "2025-06-02" (float_lit 97 (-1))) = Ok true)
    by (vm_compute; reflexivity).
  split; [exact Hg |].
  destruct (table_cell_repeats_the_metric_delta "iShares AEX UCITS ETF" "IAEX.AS" "EUR"
              (quote "2024-03-12" (float_lit 50 0)) (quote "2025-06-02" (float_lit 97 (-1)))
              [] s0 Hg) as (_ & Hetf).
  destruct (compare_etf "iShares AEX UCITS ETF" "IAEX.AS" "EUR"
              (quote "2024-03-12" (float_lit 50 0)) (quote "2025-06-02" (float_lit 97 (-1)))
              [] s0) as [[rows | e] s'] eqn:Hrun.
  - destruct (Hetf rows s' eq_refl) as (row & value & delta & -> & -> & Hfmt & _).
    exists row, value, delta. split; [reflexivity |]. split; [reflexivity | exact Hfmt].
  - exfalso. vm_compute in Hrun. discriminate Hrun.
Defined.

(** ** A failed fetch is remembered as well *)

Lemma cached_unreachable k body s :
  cache_miss k s ->
  (exists reqs els, body s = (Ok PNone, with_io s reqs els)) ->
  exists s1,
    body s = (Ok PNone, s1) /\ clock s1 = clock s /\
    cache_data k body s = (Ok PNone, stored k PNone s1).
Proof.
  intros Hmiss (reqs & els & Hb). exists (with_io s reqs els).
  split; [exact Hb |]. split; [reflexivity |].
  rewrite (cache_data_miss _ _ _ Hmiss), Hb. reflexivity.
Qed.

Lemma expired_runs_the_body k body v s dt :
  ttl < dt ->
  cache_data k body (advance dt (stored k v s))
    = (x <- body ;; cache_store k x ;; ret x) (advance dt (stored k v s)).
Proof.
  intro Hdt. unfold cache_data, advance, stored. cbn [cache clock cache_lookup].
  rewrite cache_key_eqb_refl. cbn [stored_at].
  replace (clock s + dt <? clock s + ttl) with false by lia. reflexivity.
Qed.

(** X12: the [None] of a failed fetch is stored like any other result.
    After a call that missed the store and found the upstream unreachable,
    the same call made again within the hour returns [None] without sending
    anything, even when the upstream has recovered in the meantime; after
    the hour the upstream is asked again. *)
Theorem failed_fetch_is_served_from_the_store :
  forall (net recovered : upstream) (API_KEY : option string) (symbol : string)
         (s : state) (dt : Z),
    unreachable net ->
    (cache_miss (KLatest symbol) s ->
     let first := cached_latest net API_KEY symbol s in
     fst first = Ok PNone /\
     (0 <= dt < ttl ->
      cached_latest recovered API_KEY symbol (advance dt (snd first))
        = (Ok PNone, advance dt (snd first))) /\
     (ttl < dt ->
      exists more,
        sent (snd (cached_latest recovered API_KEY symbol (advance dt (snd first))))
          = sent (snd first) ++ latest_request API_KEY symbol :: more)) /\
    (cache_miss (KClosest symbol START_DATE_STR) s ->
     let first := cached_closest net API_KEY symbol START_DATE_STR s in
     fst first = Ok PNone /\
     (0 <= dt < ttl ->
      cached_closest recovered API_KEY symbol START_DATE_STR (advance dt (snd first))
        = (Ok PNone, advance dt (snd first)))).
Proof.
  intros net recovered key symbol s dt Hnet. split.
  - intros Hmiss first.
    destruct (cached_unreachable (KLatest symbol)
                (get_latest_trading_day_data net key symbol) s Hmiss
                (get_latest_unreachable net key symbol s Hnet)) as (s1 & Hb & Hclock & Hrun).
    subst first. unfold cached_latest. rewrite Hrun. cbn [fst snd].
    split; [reflexivity |]. split.
    + intro Hdt. apply stored_then_hit. exact Hdt.
    + intro Hdt. rewrite (expired_runs_the_body _ _ _ _ _ Hdt).
      unfold bind at 1.
      pose proof (get_latest_sent recovered key symbol (advance dt (stored (KLatest symbol) PNone s1)))
        as Hsent.
      destruct (get_latest_frame recovered key symbol
                  (advance dt (stored (KLatest symbol) PNone s1))) as (v & reqs & els & Hrec).
      rewrite Hrec in Hsent |- *. cbn [snd] in Hsent.
      eexists. cbn [bind cache_store ret snd sent]. unfold bind, cache_store, ret.
      cbn [snd sent]. exact Hsent.
  - intros Hmiss first.
    destruct (cached_unreachable (KClosest symbol START_DATE_STR)
                (get_closest_trading_day_data net key symbol START_DATE_STR) s Hmiss
                (get_closest_unreachable net key symbol s Hnet))
      as (s1 & Hb & Hclock & Hrun).
    subst first. unfold cached_closest. rewrite Hrun. cbn [fst snd].
    split; [reflexivity |].
    intro Hdt. apply stored_then_hit. exact Hdt.
Qed.

Lemma failed_fetch_is_served_from_the_store_witness :
  unreachable dead_net /\
  cache_miss (KLatest "AEX.INDX") s0 /\
  0 <= 600 < ttl /\
  fst (cached_latest dead_net (Some "k") "AEX.INDX" s0) = Ok PNone /\
  fst (cached_latest (steady_net (PInt 100) (PInt 110)) (Some "k") "AEX.INDX"
         (advance 600 (snd (cached_latest dead_net (Some "k") "AEX.INDX" s0))))
    = Ok PNone.
Proof.
  assert (H1 : unreachable dead_net) by (intros hist r; exact I).
  assert (H2 : cache_miss (KLatest "AEX.INDX") s0) by exact I.
  assert (H3 : 0 <= 600 < ttl) by (unfold ttl; lia).
  split; [exact H1 |]. split; [exact H2 |]. split; [exact H3 |].
  destruct (failed_fetch_is_served_from_the_store dead_net (steady_net (PInt 100) (PInt 110))
              (Some "k") "AEX.INDX" s0 600 H1) as (Hlatest & _).
  destruct (Hlatest H2) as (Hfirst & Hhit & _).
  split; [exact Hfirst |]. rewrite (Hhit H3). reflexivity.
Defined.

(** * Failure markers and errors: the claims *)

(** ** What a success shows *)

#[local] Transparent String.append.

Lemma format_float_2f_nonempty plus f : format_float_2f plus f <> "".
Proof.
  destruct f as [sg | sg | | sg m e]; cbn [format_float_2f].
  - destruct sg, plus; discriminate.
  - destruct sg, plus; discriminate.
  - destruct plus; discriminate.
  - destruct (decimal_head (round_half_even (Z.pos m * 100) e / 100)) as (k & t & _ & ->).
    destruct sg, plus; discriminate.
Qed.

#[local] Opaque String.append.

Lemma py_format_2f_nonempty plus x t : py_format_2f plus x = Ok t -> t <> "".
Proof.
  destruct x as [ | b | z | f | | | ]; cbn [py_format_2f as_number]; try discriminate;
    intro H.
  - obind_inv H. inversion H; subst. apply format_float_2f_nonempty.
  - obind_inv H. inversion H; subst. apply format_float_2f_nonempty.
  - inversion H; subst. apply format_float_2f_nonempty.
Qed.

(** The success branch of the index loop body, once its row is known: the
    one metric it draws. *)
Lemma compare_index_shows name symbol start_data latest_data acc s sd sp ld lp ch :
  success_guard start_data latest_data = Ok true ->
  index_success_row name symbol start_data latest_data
    = Ok (index_row name symbol sd sp ld lp ch) ->
  exists value t,
    py_format_2f false lp = Ok value /\ py_format_2f false ch = Ok t /\
    compare_index name symbol start_data latest_data acc s
      = (Ok (acc ++ [index_row name symbol sd sp ld lp ch]),
         with_io s [] [StMetric (label_of name symbol) value (t ++ "%")%string]).
Proof.
  intros Hg Hrow. unfold index_success_row in Hrow.
  destruct (py_getitem_str start_data "close") as [sp' |] eqn:E1; [| discriminate Hrow].
  destruct (py_getitem_str latest_data "close") as [lp' |] eqn:E2; [| discriminate Hrow].
  cbn [obind] in Hrow.
  destruct (percentage_change sp' lp') as [ch' |] eqn:E3; [| discriminate Hrow].
  cbn [obind] in Hrow.
  destruct (py_format_2f false lp') as [value |] eqn:E4; [| discriminate Hrow].
  cbn [obind] in Hrow.
  destruct (py_format_2f false ch') as [t |] eqn:E5; [| discriminate Hrow].
  cbn [obind] in Hrow.
  destruct (date_prefix start_data) as [sd' |] eqn:E6; [| discriminate Hrow].
  destruct (date_prefix latest_data) as [ld' |] eqn:E7; [| discriminate Hrow].
  cbn [obind] in Hrow. unfold index_row in Hrow. inversion Hrow; subst.
  exists value, t. split; [exact E4 |]. split; [exact E5 |].
  unfold compare_index, bind, lift, ret, st_metric, emit.
  rewrite Hg, E1, E2, E3, E4, E5. cbn [fst snd sent elements cache clock].
  rewrite E6, E7. unfold with_io. rewrite app_nil_r. reflexivity.
Qed.

Lemma compare_etf_shows name symbol currency start_data latest_data acc s sd sp ld lp ch :
  success_guard start_data latest_data = Ok true ->
  etf_success_row name symbol currency start_data latest_data
    = Ok (etf_row name symbol currency sd sp ld lp ch) ->
  exists value t,
    py_format_2f false lp = Ok value /\ py_format_2f true ch = Ok t /\
    compare_etf name symbol currency start_data latest_data acc s
      = (Ok (acc ++ [etf_row name symbol currency sd sp ld lp ch]),
         with_io s []
           [StMetric (label_of name symbol) (value ++ " " ++ currency)%string
              (t ++ " " ++ currency)%string]).
Proof.
  intros Hg Hrow. unfold etf_success_row in Hrow.
  destruct (py_getitem_str start_data "close") as [sp' |] eqn:E1; [| discriminate Hrow].
  destruct (py_getitem_str latest_data "close") as [lp' |] eqn:E2; [| discriminate Hrow].
  cbn [obind] in Hrow.
  destruct (absolute_change sp' lp') as [ch' |] eqn:E3; [| discriminate Hrow].
  cbn [obind] in Hrow.
  destruct (py_format_2f false lp') as [value |] eqn:E4; [| discriminate Hrow].
  cbn [obind] in Hrow.
  destruct (py_format_2f true ch') as [t |] eqn:E5; [| discriminate Hrow].
  cbn [obind] in Hrow.
  destruct (date_prefix start_data) as [sd' |] eqn:E6; [| discriminate Hrow].
  destruct (date_prefix latest_data) as [ld' |] eqn:E7; [| discriminate Hrow].
  cbn [obind] in Hrow. unfold etf_row in Hrow. inversion Hrow; subst.
  exists value, t. split; [exact E4 |]. split; [exact E5 |].
  unfold compare_etf, bind, lift, ret, st_metric, emit.
  rewrite Hg, E1, E2, E3, E4, E5. cbn [fst snd sent elements cache clock].
  rewrite E6, E7. unfold with_io. rewrite app_nil_r. reflexivity.
Qed.

(** ** Failure markers: the claim *)

(** C1, as stated, fails in three ways.  With a start quote whose close is 0
    both quotes are there and neither close is [None], yet the comparison is
    a failure marker; the change its metric shows is blank (the empty delta
    next to 'Data Fout'); and with the closes 1 and 10^400, neither of them
    [None], the comparison is no result at all: it raises [OverflowError]. *)
Lemma zero_close_is_a_failure_marker :
  let net := steady_net (PInt 0) (PInt 110) in
  let start_data := quote "2024-03-12" (PInt 0) in
  let latest_data := quote "2025-06-02" (PInt 110) in
  let run := process_index net (Some "k") "AEX" "AEX.INDX" [] s0 in
  let result := fst run in
  fst (get_closest_trading_day_data net (Some "k") "AEX.INDX" START_DATE_STR s0)
    = Ok start_data /\
  fst (get_latest_trading_day_data net (Some "k") "AEX.INDX" s0) = Ok latest_data /\
  result = Ok [index_failure_row "AEX" "AEX.INDX"] /\
  ~ (result = Ok [index_failure_row "AEX" "AEX.INDX"] <->
     start_data = PNone \/ latest_data = PNone \/
     null_close start_data \/ null_close latest_data) /\
  last (metric_deltas (snd run)) "?" = "" /\
  fst (process_index (steady_net (PInt 1) (PInt (10 ^ 400))) (Some "k") "AEX" "AEX.INDX" [] s0)
    = Raise OverflowError /\
  fst (process_etf (steady_net (PInt 1) (PInt (10 ^ 400))) (Some "k")
         "iShares AEX UCITS ETF" "IAEX.AS" "EUR" [] s0)
    = Raise OverflowError.
Proof.
  vm_compute. repeat split.
  intros [H _]. destruct (H eq_refl) as [H1 | [H1 | [H1 | H1]]]; discriminate H1.
Qed.

(** C1, amended: the two fetch functions return [None] or a record (a
    non-empty dict, with a close that is not [None] and a date that can be
    sliced), and for such values the comparison of an instrument is a failure
    marker if and only if at least one of the two quotes is absent or has a
    closing price that reads as false ([None], zero, or empty).  A failure
    marker is shown as an error, never as a number: the metric reads 'Data
    Fout' with its delta left empty, the table cell stays the text 'Fout'.
    Whenever both closing prices are numbers other than zero within the range
    of the float arithmetic (a float, or an int of magnitude below 2^1000)
    the result is the success row, whose change is a number; the metric and
    the table show that change as its two-decimal text, which is never
    blank. *)
Theorem failure_marker_iff_absent_or_falsy_close :
  (forall (net : upstream) (API_KEY : option string) (symbol target_date_str : string)
          (s : state) (v : pyval),
      fst (get_closest_trading_day_data net API_KEY symbol target_date_str s) = Ok v \/
      fst (get_latest_trading_day_data net API_KEY symbol s) = Ok v ->
      fetched v /\ fetch_result v) /\
  forall (name symbol currency : string) (start_data latest_data : pyval)
         (acc : list pydict) (s : state),
    fetched start_data -> fetched latest_data ->
    let absent_or_falsy :=
      start_data = PNone \/ latest_data = PNone \/
      falsy_close start_data \/ falsy_close latest_data in
    (fst (compare_index name symbol start_data latest_data acc s)
       = Ok (acc ++ [index_failure_row name symbol]) <-> absent_or_falsy) /\
    (fst (compare_etf name symbol currency start_data latest_data acc s)
       = Ok (acc ++ [etf_failure_row name symbol]) <-> absent_or_falsy) /\
    (absent_or_falsy ->
     elements (snd (compare_index name symbol start_data latest_data acc s))
       = elements s ++ [StMetric (label_of name symbol) "Data Fout" ""] /\
     elements (snd (compare_etf name symbol currency start_data latest_data acc s))
       = elements s ++ [StMetric (label_of name symbol) "Data Fout" ""]) /\
    format_percentage (cell (index_failure_row name symbol) "Verandering (%)")
      = Ok (PStr "Fout") /\
    format_absolute (etf_failure_row name symbol) = Ok (PStr "Fout") /\
    (forall sp lp,
        py_get start_data "close" = Ok sp -> py_get latest_data "close" = Ok lp ->
        usable_price sp = true -> usable_price lp = true ->
        is_zero_price sp = false -> is_zero_price lp = false ->
        (exists t, date_prefix start_data = Ok t) ->
        (exists t, date_prefix latest_data = Ok t) ->
        (exists sd ld f,
            fst (compare_index name symbol start_data latest_data acc s)
              = Ok (acc ++ [index_row name symbol sd sp ld lp (PFloat f)])) /\
        (exists sd ld ch,
            fst (compare_etf name symbol currency start_data latest_data acc s)
              = Ok (acc ++ [etf_row name symbol currency sd sp ld lp ch]) /\
            isinstance_int_float ch = true)) /\
    (fetch_result start_data -> fetch_result latest_data ->
     forall sp lp,
       py_get start_data "close" = Ok sp -> py_get latest_data "close" = Ok lp ->
       usable_price sp = true -> usable_price lp = true ->
       is_zero_price sp = false -> is_zero_price lp = false ->
       (exists sd ld f value t,
           compare_index name symbol start_data latest_data acc s
             = (Ok (acc ++ [index_row name symbol sd sp ld lp (PFloat f)]),
                with_io s [] [StMetric (label_of name symbol) value (t ++ "%")%string]) /\
           py_format_2f false (PFloat f) = Ok t /\ t <> ""%string /\
           format_percentage
             (cell (index_row name symbol sd sp ld lp (PFloat f)) "Verandering (%)")
             = Ok (PStr (t ++ "%")%string)) /\
       (exists sd ld ch value t,
           compare_etf name symbol currency start_data latest_data acc s
             = (Ok (acc ++ [etf_row name symbol currency sd sp ld lp ch]),
                with_io s []
                  [StMetric (label_of name symbol) (value ++ " " ++ currency)%string
                     (t ++ " " ++ currency)%string]) /\
           isinstance_int_float ch = true /\
           py_format_2f true ch = Ok t /\ t <> ""%string /\
           format_absolute (etf_row name symbol currency sd sp ld lp ch)
             = Ok (PStr (t ++ " " ++ currency)%string))).
Proof.
  split.
  { intros net key symbol t s v [Hv | Hv].
    - split; [eapply get_closest_fetched | eapply get_closest_fetch_result]; eassumption.
    - split; [eapply get_latest_fetched | eapply get_latest_fetch_result]; eassumption. }
  intros name symbol currency start_data latest_data acc s Hs Hl absent_or_falsy.
  pose proof (success_guard_false _ _ Hs Hl) as Hiff. fold absent_or_falsy in Hiff.
  destruct (success_guard_fetched _ _ Hs Hl) as (b & Hb).
  assert (Hguard : forall sp lp,
             py_get start_data "close" = Ok sp -> py_get latest_data "close" = Ok lp ->
             usable_price sp = true -> usable_price lp = true ->
             is_zero_price sp = false -> is_zero_price lp = false ->
             success_guard start_data latest_data = Ok true).
  { intros sp lp Hsp Hlp Hus Hul Hzs Hzl.
    pose proof (usable_not_zero_truthy _ Hus Hzs) as Hts.
    pose proof (usable_not_zero_truthy _ Hul Hzl) as Htl.
    destruct b; [exact Hb |]. apply Hiff in Hb.
    destruct Hb as [-> | [-> | [(c & Hc & Hf) | (c & Hc & Hf)]]]; try discriminate;
      congruence. }
  split; [| split; [| split; [| split; [| split; [| split]]]]].
  - split.
    + intro H. apply Hiff. destruct b; [| exact Hb].
      rewrite (compare_index_success _ _ _ _ _ _ Hb) in H.
      apply failure_row_not_success in H. contradiction.
    + intro H. apply Hiff in H. rewrite (compare_index_failure _ _ _ _ _ _ H). reflexivity.
  - split.
    + intro H. apply Hiff. destruct b; [| exact Hb].
      rewrite (compare_etf_success _ _ _ _ _ _ _ Hb) in H.
      apply etf_failure_row_not_success in H. contradiction.
    + intro H. apply Hiff in H. rewrite (compare_etf_failure _ _ _ _ _ _ _ H). reflexivity.
  - intro H. apply Hiff in H.
    rewrite (compare_index_failure _ _ _ _ _ _ H), (compare_etf_failure _ _ _ _ _ _ _ H).
    split; reflexivity.
  - reflexivity.
  - reflexivity.
  - intros sp lp Hsp Hlp Hus Hul Hzs Hzl Hds Hdl.
    pose proof (usable_not_zero_truthy _ Hus Hzs) as Hts.
    pose proof (Hguard sp lp Hsp Hlp Hus Hul Hzs Hzl) as Hg.
    destruct (success_guard_true _ _ Hg) as (sp' & lp' & Hsp' & Hlp' & Hsp2 & Hlp2 & _).
    assert (sp' = sp) by congruence. assert (lp' = lp) by congruence. subst sp' lp'.
    split.
    + rewrite (compare_index_success _ _ _ _ _ _ Hg).
      destruct (index_success_row_usable name symbol _ _ _ _ Hsp' Hlp' Hts Hus Hul Hds Hdl)
        as (sd & ld & f & Hrow).
      rewrite Hrow. exists sd, ld, f. reflexivity.
    + rewrite (compare_etf_success _ _ _ _ _ _ _ Hg).
      destruct (etf_success_row_usable name symbol currency _ _ _ _ Hsp' Hlp' Hus Hul Hds Hdl)
        as (sd & ld & ch & Hrow & Hnum & _).
      rewrite Hrow. exists sd, ld, ch. split; [reflexivity | exact Hnum].
  - intros Hfs Hfl sp lp Hsp Hlp Hus Hul Hzs Hzl.
    pose proof (usable_not_zero_truthy _ Hus Hzs) as Hts.
    pose proof (Hguard sp lp Hsp Hlp Hus Hul Hzs Hzl) as Hg.
    destruct (success_guard_true _ _ Hg)
      as (sp' & lp' & Hsp' & Hlp' & Hsp2 & Hlp2 & _ & _ & Htsd & Htld).
    assert (sp' = sp) by congruence. assert (lp' = lp) by congruence. subst sp' lp'.
    pose proof (fetch_result_date _ Hfs Htsd) as Hds.
    pose proof (fetch_result_date _ Hfl Htld) as Hdl.
    split.
    + destruct (index_success_row_usable name symbol _ _ _ _ Hsp' Hlp' Hts Hus Hul Hds Hdl)
        as (sd & ld & f & Hrow).
      destruct (compare_index_shows name symbol _ _ acc s _ _ _ _ _ Hg Hrow)
        as (value & t & _ & Ht & Hrun).
      exists sd, ld, f, value, t. split; [exact Hrun |]. split; [exact Ht |].
      split; [apply (py_format_2f_nonempty _ _ _ Ht) |].
      unfold index_row, cell. cbn [dict_get String.eqb Ascii.eqb Bool.eqb].
      unfold format_percentage. cbn [isinstance_int_float]. rewrite Ht. reflexivity.
    + destruct (etf_success_row_usable name symbol currency _ _ _ _ Hsp' Hlp' Hus Hul Hds Hdl)
        as (sd & ld & ch & Hrow & Hnum & _).
      destruct (compare_etf_shows name symbol currency _ _ acc s _ _ _ _ _ Hg Hrow)
        as (value & t & _ & Ht & Hrun).
      exists sd, ld, ch, value, t. split; [exact Hrun |]. split; [exact Hnum |].
      split; [exact Ht |]. split; [apply (py_format_2f_nonempty _ _ _ Ht) |].
      unfold format_absolute, etf_row, cell. cbn [dict_get String.eqb Ascii.eqb Bool.eqb].
      rewrite Hnum, Ht. reflexivity.
Qed.

Lemma failure_marker_iff_absent_or_falsy_close_witness :
  fetched (quote "2024-03-12" (PInt 0)) /\
  fetched (quote "2025-06-02" (PInt 110)) /\
  falsy_close (quote "2024-03-12" (PInt 0)) /\
  fst (compare_index "AEX" "AEX.INDX" (quote "2024-03-12" (PInt 0))
         (quote "2025-06-02" (PInt 110)) [] s0)
    = Ok [index_failure_row "AEX" "AEX.INDX"] /\
  fetch_result (quote "2024-03-12" (PInt 100)) /\
  fetch_result (quote "2025-06-02" (PInt 110)) /\
  usable_price (PInt 100) = true /\ usable_price (PInt 110) = true /\
  is_zero_price (PInt 100) = false /\ is_zero_price (PInt 110) = false /\
  exists sd ld f value t,
    compare_index "AEX" "AEX.INDX" (quote "2024-03-12" (PInt 100))
      (quote "2025-06-02" (PInt 110)) [] s0
      = (Ok [index_row "AEX" "AEX.INDX" sd (PInt 100) ld (PInt 110) (PFloat f)],
         with_io s0 [] [StMetric (label_of "AEX" "AEX.INDX") value (t ++ "%")%string]) /\
    t <> ""%string.
Proof.
  assert (Hf : forall day c, fetched (quote day c)).
  { intros day c. right. eexists. split; [reflexivity | discriminate]. }
  assert (Hr : forall day z, z <> 0 -> fetch_result (quote day (PInt z))).
  { intros day z Hz. right. split; [reflexivity | eexists; reflexivity]. }
  assert (Hz : falsy_close (quote "2024-03-12" (PInt 0))).
  { exists (PInt 0). split; reflexivity. }
  assert (Hu : forall z, Z.abs z < 1000 -> usable_price (PInt z) = true).
  { intros z Hlt. cbn [usable_price]. apply Z.ltb_lt. pose proof price_bound_pos.
    assert (1000 < price_bound) by (vm_compute; reflexivity). lia. }
  split; [apply Hf |]. split; [apply Hf |]. split; [exact Hz |].
  destruct failure_marker_iff_absent_or_falsy_close as (_ & Hcmp).
  split.
  { destruct (Hcmp "AEX" "AEX.INDX" "EUR"
                (quote "2024-03-12" (PInt 0)) (quote "2025-06-02" (PInt 110)) [] s0
                (Hf _ _) (Hf _ _)) as ([_ Hback] & _).
    apply Hback. right. right. left. exact Hz. }
  split; [apply Hr; lia |]. split; [apply Hr; lia |].
  split; [apply Hu; lia |]. split; [apply Hu; lia |].
  split; [reflexivity |]. split; [reflexivity |].
  destruct (Hcmp "AEX" "AEX.INDX" "EUR"
              (quote "2024-03-12" (PInt 100)) (quote "2025-06-02" (PInt 110)) [] s0
              (Hf _ _) (Hf _ _)) as (_ & _ & _ & _ & _ & _ & Hshow).
  destruct (Hshow (Hr _ 100 ltac:(lia)) (Hr _ 110 ltac:(lia)) (PInt 100) (PInt 110)
              eq_refl eq_refl (Hu 100 ltac:(lia)) (Hu 110 ltac:(lia)) eq_refl eq_refl)
    as ((sd & ld & f & value & t & Hrun & _ & Hne & _) & _).
  exists sd, ld, f, value, t. split; [exact Hrun | exact Hne].
Defined.

(** ** Errors and the other instruments: the claim *)



